(** * The question-to-SQL pipeline of the e-commerce assistant

    A shallow embedding of [backend/db/gemini_utils.py], [backend/db/run.py],
    the buttons and the visual creator of [frontend/app.py] and
    [dataloader/dataload.py], followed by the properties the specification
    states about them and by further properties of the code. *)

From Stdlib Require Import String Ascii.
From Stdlib Require Import NArith ZArith QArith List Bool Lia.
From Stdlib Require Import Sorting.Sorted Sorting.Permutation FinFun.
Import ListNotations.

Local Close Scope Q_scope.
Local Open Scope N_scope.

(** ** Python strings

    A Python [str] is a sequence of Unicode code points.  Literals are written
    as in the Python source: the file's UTF-8 bytes are decoded to code points
    and the escape [\n] stands for a line feed. *)

Definition pystr := list N.

Fixpoint decode (bs : list N) : pystr :=
  match bs with
  | [] => []
  | b :: r =>
    if b <? 128 then
      match r with
      | c :: r1 => if (b =? 92) && (c =? 110) then 10 :: decode r1 else b :: decode r
      | [] => [b]
      end
    else if b <? 224 then
      match r with
      | b1 :: r1 => ((b - 192) * 64 + (b1 - 128)) :: decode r1
      | [] => [b]
      end
    else if b <? 240 then
      match r with
      | b1 :: b2 :: r2 =>
        ((b - 224) * 4096 + (b1 - 128) * 64 + (b2 - 128)) :: decode r2
      | _ => [b]
      end
    else
      match r with
      | b1 :: b2 :: b3 :: r3 =>
        ((b - 240) * 262144 + (b1 - 128) * 4096 + (b2 - 128) * 64 + (b3 - 128))
          :: decode r3
      | _ => [b]
      end
  end.

Definition py (s : string) : pystr :=
  decode (map N_of_ascii (list_ascii_of_string s)).

Definition pystr_eqb (a b : pystr) : bool :=
  if list_eq_dec N.eq_dec a b then true else false.

(** [str.isspace] on one code point: the characters [str.strip()] removes. *)
Definition is_space (c : N) : bool :=
  ((9 <=? c) && (c <=? 13)) || ((28 <=? c) && (c <=? 32))
  || (c =? 133) || (c =? 160) || (c =? 5760)
  || ((8192 <=? c) && (c <=? 8202))
  || (c =? 8232) || (c =? 8233) || (c =? 8239) || (c =? 8287) || (c =? 12288).

Fixpoint lstrip_with (p : N -> bool) (s : pystr) : pystr :=
  match s with
  | [] => []
  | c :: r => if p c then lstrip_with p r else s
  end.

Definition rstrip_with (p : N -> bool) (s : pystr) : pystr :=
  rev (lstrip_with p (rev s)).

Definition strip_with (p : N -> bool) (s : pystr) : pystr :=
  rstrip_with p (lstrip_with p s).

(** [s.strip()] *)
Definition strip (s : pystr) : pystr := strip_with is_space s.

(** [s.strip(chars)]: [chars] is a set of characters, not a prefix or suffix. *)
Definition strip_chars (chars s : pystr) : pystr :=
  strip_with (fun c => existsb (N.eqb c) chars) s.

(** [s.startswith(prefix)] *)
Fixpoint startswith (s prefix : pystr) : bool :=
  match prefix, s with
  | [], _ => true
  | p :: prefix', c :: s' => (c =? p) && startswith s' prefix'
  | _ :: _, [] => false
  end.

Definition is_empty (s : pystr) : bool :=
  match s with [] => true | _ :: _ => false end.

Local Close Scope N_scope.

(** ** Exceptions

    Every error of the model is an instance of Python's [Exception]; [exn_str]
    is what [str(e)] gives. *)

Inductive exn_class :=
  | RuntimeError | IndexError | AssertionError | KeyError | ValueError
  | AttributeError | TypeError | OSError | OtherException.

Record exn := mk_exn { exn_cls : exn_class; exn_str : pystr }.

Inductive result (A : Type) :=
  | Ok (a : A)
  | Raise (e : exn).
Arguments Ok {A} a.
Arguments Raise {A} e.

(** [l[i]] on a Python list: a negative index counts from the end. *)
Definition getitem {A : Type} (l : list A) (i : Z) : result A :=
  let n := Z.of_nat (length l) in
  let j := (if i <? 0 then i + n else i)%Z in
  if ((0 <=? j) && (j <? n))%Z then
    match nth_error l (Z.to_nat j) with
    | Some x => Ok x
    | None => Raise (mk_exn IndexError (py "list index out of range"))
    end
  else Raise (mk_exn IndexError (py "list index out of range")).

(** ** The flat L2 index ([faiss.IndexFlatL2])

    The library's index by its contract: vectors are stored in insertion
    order, a vector's label is its position, and a search compares the query
    with every stored vector.  Vectors are lists of rationals: every finite
    float32 is one, and the squared distance is computed exactly (rounding is
    left out).  Vectors at equal distance are returned in insertion order;
    no statement below depends on that. *)

Definition vec := list Q.

Fixpoint fvec_L2sqr (x y : vec) : Q :=
  match x, y with
  | a :: x', b :: y' => ((a - b) * (a - b) + fvec_L2sqr x' y')%Q
  | _, _ => 0%Q
  end.

Record IndexFlatL2 := mk_index { d : nat; xb : list vec }.

Definition ntotal (index : IndexFlatL2) : nat := length (xb index).

(** The largest finite float32, the distance of a padding entry. *)
Definition FLT_MAX : Q := (340282346638528859811704183484516925440 # 1)%Q.

(** [index.add(x)]: the Python wrapper asserts [x.shape[1] == index.d]. *)
Definition add (index : IndexFlatL2) (x : list vec) : result IndexFlatL2 :=
  if forallb (fun v => Nat.eqb (length v) (d index)) x
  then Ok (mk_index (d index) (xb index ++ x))
  else Raise (mk_exn AssertionError []).

(** Every stored vector with its label and its distance to the query. *)
Definition distances_to (index : IndexFlatL2) (q : vec) : list (Z * Q) :=
  combine (map Z.of_nat (seq 0 (ntotal index))) (map (fvec_L2sqr q) (xb index)).

Fixpoint insert_by_distance (p : Z * Q) (l : list (Z * Q)) : list (Z * Q) :=
  match l with
  | [] => [p]
  | h :: t =>
    if Qle_bool (snd p) (snd h) then p :: l else h :: insert_by_distance p t
  end.

Fixpoint sort_by_distance (l : list (Z * Q)) : list (Z * Q) :=
  match l with
  | [] => []
  | h :: t => insert_by_distance h (sort_by_distance t)
  end.

(** One row of [index.search(xq, k)]: the [k] nearest stored vectors by
    ascending distance; when fewer than [k] vectors are stored the row is
    filled up with the label [-1] and the distance [FLT_MAX]. *)
Definition search_row (index : IndexFlatL2) (q : vec) (k : nat) : list (Z * Q) :=
  let found := firstn k (sort_by_distance (distances_to index q)) in
  found ++ repeat ((-1)%Z, FLT_MAX) (k - length found).

(** [D, I = index.search(xq, k)]: the wrapper asserts [xq.shape[1] == index.d]. *)
Definition search (index : IndexFlatL2) (xq : list vec) (k : nat)
  : result (list (list Q) * list (list Z)) :=
  if forallb (fun q => Nat.eqb (length q) (d index)) xq
  then Ok (map (fun q => map snd (search_row index q k)) xq,
           map (fun q => map fst (search_row index q k)) xq)
  else Raise (mk_exn AssertionError []).

(** ** The process and its surroundings *)

(** [SentenceTransformer.encode]: one vector per text, or an exception. *)
Definition encoder := list pystr -> result (list vec).

(** A row of a query result, as [dict(row._mapping)] renders it. *)
Definition row := list (pystr * pystr).

(** The external collaborators: the embedding model's constructor, the
    generative model ([model.generate_content(prompt).text]) and the database
    ([conn.execute(text(sql))] on a fresh connection). *)
Record env := mk_env {
  SentenceTransformer : pystr -> result encoder;
  generate_content : pystr -> result pystr;
  execute : pystr -> result (list row)
}.

(** What a path of the working directory holds: bytes that [faiss.read_index]
    reads as an index, bytes that [json.load] reads as a list of strings (what
    [json.dump(context_texts, f)] writes), or bytes on which both raise. *)
Inductive file :=
  | IndexFile (index : IndexFlatL2)
  | JsonFile (texts : list pystr)
  | Garbage.

Definition disk := list (pystr * file).

Fixpoint lookup {A : Type} (k : pystr) (m : list (pystr * A)) : option A :=
  match m with
  | [] => None
  | (k', v) :: r => if pystr_eqb k k' then Some v else lookup k r
  end.

(** The calls that leave the module, newest first. *)
Inductive call :=
  | Encode (texts : list pystr)
  | Search (xq : list vec) (k : nat)
  | Generate (prompt : pystr)
  | Execute (sql : pystr).

(** The module globals of gemini_utils.py, the working directory and the
    calls made so far. *)
Record world := mk_world {
  embedding_model : option encoder;
  faiss_index : option IndexFlatL2;
  context_texts : list pystr;
  files : disk;
  calls : list call
}.

(** State and exceptions: an exception keeps the state reached so far. *)
Definition M (A : Type) := world -> result A * world.

Definition ret {A : Type} (a : A) : M A := fun w => (Ok a, w).

Definition bind {A B : Type} (m : M A) (k : A -> M B) : M B :=
  fun w => match m w with
           | (Ok a, w') => k a w'
           | (Raise e, w') => (Raise e, w')
           end.

Definition raise {A : Type} (e : exn) : M A := fun w => (Raise e, w).

Definition lift {A : Type} (r : result A) : M A := fun w => (r, w).

Definition try_except {A : Type} (m : M A) (handler : exn -> M A) : M A :=
  fun w => match m w with
           | (Ok a, w') => (Ok a, w')
           | (Raise e, w') => handler e w'
           end.

Definition get : M world := fun w => (Ok w, w).

Definition record (c : call) : M unit :=
  fun w => (Ok tt, mk_world (embedding_model w) (faiss_index w) (context_texts w)
                            (files w) (c :: calls w)).

Definition set_embedding_model (m : option encoder) : M unit :=
  fun w => (Ok tt, mk_world m (faiss_index w) (context_texts w) (files w) (calls w)).

Definition set_faiss_index (i : option IndexFlatL2) : M unit :=
  fun w => (Ok tt, mk_world (embedding_model w) i (context_texts w) (files w) (calls w)).

Definition set_context_texts (t : list pystr) : M unit :=
  fun w => (Ok tt, mk_world (embedding_model w) (faiss_index w) t (files w) (calls w)).

Definition write_file (path : pystr) (f : file) : M unit :=
  fun w => (Ok tt, mk_world (embedding_model w) (faiss_index w) (context_texts w)
                            ((path, f) :: files w) (calls w)).

Declare Scope monad_scope.
Delimit Scope monad_scope with monad.
Notation "x <- m ;; k" := (bind m (fun x => k))
  (at level 61, m at next level, right associativity) : monad_scope.
Notation "m ;; k" := (bind m (fun _ => k))
  (at level 61, right associativity) : monad_scope.
Local Open Scope monad_scope.

(** ** gemini_utils.py *)

Definition EMBEDDING_MODEL_NAME : pystr := py "all-MiniLM-L6-v2".
Definition FAISS_INDEX_PATH : pystr := py "faiss_index.bin".
Definition CONTEXT_DATA_PATH : pystr := py "context_data.json".

(** [os.path.exists(path)] *)
Definition path_exists (path : pystr) (w : world) : bool :=
  match lookup path (files w) with Some _ => true | None => false end.

(** [faiss.read_index(path)] *)
Definition read_index (path : pystr) : M IndexFlatL2 :=
  fun w => match lookup path (files w) with
           | Some (IndexFile index) => (Ok index, w)
           | Some _ => (Raise (mk_exn RuntimeError (py "Error in faiss::read_index")), w)
           | None => (Raise (mk_exn RuntimeError (py "could not open file for reading")), w)
           end.

(** [with open(path, 'r') as f: json.load(f)] *)
Definition json_load (path : pystr) : M (list pystr) :=
  fun w => match lookup path (files w) with
           | Some (JsonFile texts) => (Ok texts, w)
           | Some _ => (Raise (mk_exn ValueError (py "Expecting value")), w)
           | None => (Raise (mk_exn OSError (py "No such file or directory")), w)
           end.

(** [embedding_model.encode(texts)] on the module's global. *)
Definition encode (texts : list pystr) : M (list vec) :=
  w <- get ;;
  match embedding_model w with
  | Some model => record (Encode texts) ;; lift (model texts)
  | None => raise (mk_exn AttributeError
                     (py "'NoneType' object has no attribute 'encode'"))
  end.

(** [embeddings.shape[1]] *)
Definition shape1 (embeddings : list vec) : result nat :=
  match embeddings with
  | v :: _ => Ok (length v)
  | [] => Raise (mk_exn IndexError (py "tuple index out of range"))
  end.

Definition knowledge_base_documents : list pystr :=
  [ py "Table: sales_summary, Columns: date (date), item_id (numeric ID), total_sales (numeric), total_units_ordered (numeric). Describes daily sales and units for items. Use for questions about sales, units, or item performance.";
    py "Table: ad_data, Columns: date (date), item_id (numeric ID), ad_sales (numeric), impressions (numeric), ad_spend (numeric), clicks (numeric), units_sold (numeric). Contains advertising performance metrics. Use for questions about ads, spend, impressions, clicks, or ad-related sales.";
    py "Table: eligibility_status, Columns: eligibility_datetime_utc (datetime), item_id (numeric ID), eligibility (text/boolean), message (text). Tracks item eligibility status. Use for questions about eligibility or status.";
    py "Q: What is the total revenue? A: SELECT SUM(total_sales) FROM sales_summary;";
    py "Q: Show all ad-related metrics. A: SELECT * FROM ad_data;";
    py "Q: Show eligibility status of items. A: SELECT item_id, eligibility, message FROM eligibility_status;";
    py "Q: What is the highest CPC? A: SELECT MAX(ad_spend / clicks) FROM ad_data WHERE clicks > 0;";
    py "Q: What is the total sales for each item? A: SELECT item_id, SUM(total_sales) AS total_sales_per_item FROM sales_summary GROUP BY item_id ORDER BY total_sales_per_item DESC;";
    py "Q: Show me monthly ad spend over time. A: SELECT TO_CHAR(date, 'YYYY-MM') AS month, SUM(ad_spend) AS monthly_ad_spend FROM ad_data GROUP BY TO_CHAR(date, 'YYYY-MM') ORDER BY TO_CHAR(date, 'YYYY-MM');";
    py "Q: Compare ad spend vs. ad sales for different items. A: SELECT item_id, SUM(ad_spend) AS total_ad_spend, SUM(ad_sales) AS total_ad_sales FROM ad_data GROUP BY item_id;";
    py "Q: What is the average daily units ordered? A: SELECT AVG(total_units_ordered) FROM sales_summary;";
    py "Q: Which item has the most impressions? A: SELECT item_id, SUM(impressions) AS total_impressions FROM ad_data GROUP BY item_id ORDER BY total_impressions DESC LIMIT 1;";
    py "Q: How many items are currently eligible? A: SELECT COUNT(DISTINCT item_id) FROM eligibility_status WHERE eligibility = 'true';";
    py "Column: total_sales (sales_summary) - monetary value of sales.";
    py "Column: total_units_ordered (sales_summary) - quantity of items sold.";
    py "Column: ad_spend (ad_data) - money spent on advertising campaigns.";
    py "Column: ad_sales (ad_data) - sales directly generated from ads.";
    py "Column: clicks (ad_data) - number of times ads were clicked.";
    py "Column: impressions (ad_data) - number of times ads were shown.";
    py "Column: units_sold (ad_data) - quantity of units sold through advertising.";
    py "Column: eligibility (eligibility_status) - status of an item's eligibility (e.g., 'true', 'false', 'eligible', 'not eligible').";
    py "Calculation: ROAS (Return on Ad Spend) = SUM(ad_sales) / SUM(ad_spend).";
    py "Calculation: CPC (Cost Per Click) = ad_spend / clicks.";
    py "Calculation: CTR (Click-Through Rate) = clicks / impressions.";
    py "Always use TO_CHAR(date_column, 'YYYY-MM') for monthly grouping in PostgreSQL." ].

(** Sequencing of fallible steps outside the state monad. *)
Definition and_then {A B : Type} (r : result A) (k : A -> result B) : result B :=
  match r with
  | Ok a => k a
  | Raise e => Raise e
  end.

Definition is_digit (c : N) : bool := ((48 <=? c) && (c <=? 57))%N.

(** [str.format] with keyword arguments, for templates whose fields are plain names:
    [{{] and [}}] stand for a brace, [{name}] for the argument of that name.
    [field] holds the characters of the field being read, if any. *)
Fixpoint format_from (kwargs : list (pystr * pystr)) (t : pystr) (field : option pystr)
  : result pystr :=
  match t, field with
  | [], None => Ok []
  | [], Some _ => Raise (mk_exn ValueError (py "expected '}' before end of string"))
  | c :: r, None =>
    if (c =? 123)%N then
      match r with
      | [] => Raise (mk_exn ValueError (py "Single '{' encountered in format string"))
      | c' :: r' =>
        if (c' =? 123)%N
        then and_then (format_from kwargs r' None) (fun s => Ok (c :: s))
        else format_from kwargs r (Some [])
      end
    else if (c =? 125)%N then
      match r with
      | c' :: r' =>
        if (c' =? 125)%N
        then and_then (format_from kwargs r' None) (fun s => Ok (c :: s))
        else Raise (mk_exn ValueError (py "Single '}' encountered in format string"))
      | [] => Raise (mk_exn ValueError (py "Single '}' encountered in format string"))
      end
    else and_then (format_from kwargs r None) (fun s => Ok (c :: s))
  | c :: r, Some name =>
    if (c =? 125)%N then
      if forallb is_digit name
      then Raise (mk_exn IndexError
                    (py "Replacement index out of range for positional args tuple"))
      else
        match lookup name kwargs with
        | Some v => and_then (format_from kwargs r None) (fun s => Ok (v ++ s))
        | None => Raise (mk_exn KeyError name)
        end
    else format_from kwargs r (Some (name ++ [c]))
  end.

Definition format (template : pystr) (kwargs : list (pystr * pystr)) : result pystr :=
  format_from kwargs template None.

(** Lines 113-161. *)
Definition SYSTEM_PROMPT_TEMPLATE : pystr := py "
You are a helpful and precise assistant that converts user questions into valid PostgreSQL SELECT queries.

You are working with a PostgreSQL database called `ecommerce_data` containing these **exact tables and columns**:

üìå Table: `sales_summary`
- date
- item_id
- total_sales
- total_units_ordered

üìå Table: `ad_data`
- date
- item_id
- ad_sales
- impressions
- ad_spend
- clicks
- units_sold

üìå Table: `eligibility_status`
- eligibility_datetime_utc
- item_id
- eligibility
- message

‚ö†Ô∏è Use these **exact table names**: `sales_summary`, `ad_data`, `eligibility_status`. Do NOT invent or singularize them (e.g., do NOT use `ad_sale` or `total_sale`).

üß† Rules:
- Only return valid **PostgreSQL** SELECT statements.
- Avoid division by zero. Use WHERE clause or CASE WHEN to prevent it.
- Do not explain or format output.
- Return pure SQL (no ```sql or comments).
- Do not add LIMIT unless explicitly asked.

{retrieved_context}

Here are some examples:
Q: What is the total revenue?
A: SELECT SUM(total_sales) FROM sales_summary;

Q: Show all ad-related metrics.
A: SELECT * FROM ad_data;

Q: Show eligibility status of items.
A: SELECT item_id, eligibility, message FROM eligibility_status;

Now convert the user's question to a valid SQL query.
".

(** Lines 183-184: the loop over [indices[0]]; [context_texts[idx]] raises
    [IndexError] when [idx] is out of range. *)
Fixpoint add_retrieved (texts : list pystr) (indices : list Z) (acc : pystr)
  : result pystr :=
  match indices with
  | [] => Ok acc
  | idx :: rest =>
    and_then (getitem texts idx)
      (fun doc => add_retrieved texts rest (acc ++ py "- " ++ doc ++ py "\n"))
  end.

(** Lines 181-190. *)
Definition build_prompt (texts : list pystr) (indices : list Z) (question : pystr)
  : result pystr :=
  and_then (add_retrieved texts indices (py "\n\nRelevant Context for your question:\n"))
    (fun retrieved_context_str =>
  and_then (format SYSTEM_PROMPT_TEMPLATE [(py "retrieved_context", retrieved_context_str)])
    (fun final_system_prompt =>
  Ok (final_system_prompt ++ py "\n\nUser Question: " ++ question ++ py "\nSQL Query:"))).

(** Line 195: [response.text.strip().strip("```sql").strip("```").strip()] *)
Definition extract_sql (text : pystr) : pystr :=
  strip (strip_chars (py "```") (strip_chars (py "```sql") (strip text))).

(** [faiss_index.search(xq, k)] on the module's global. *)
Definition index_search (xq : list vec) (k : nat)
  : M (list (list Q) * list (list Z)) :=
  w <- get ;;
  match faiss_index w with
  | Some index => record (Search xq k) ;; lift (search index xq k)
  | None => raise (mk_exn AttributeError
                     (py "'NoneType' object has no attribute 'search'"))
  end.

(** ** run.py *)

Definition VALID_TABLES : list pystr :=
  [py "sales_summary"; py "ad_data"; py "eligibility_status"].

(** What [jsonify] is given, with the status code of the response. *)
Inductive json_body :=
  | ErrorJson (error : pystr)
  | AnswerJson (question sql : pystr) (result : list row)
  | RowsJson (rows : list row).

Definition response := (json_body * nat)%type.

(** ** app.py: what the ask-button handler shows *)
Inductive shown :=
  | st_warning (msg : pystr)
  | st_error (msg : pystr)
  | st_success (body : json_body).

Section Pipeline.

Variable E : env.

(** Lines 32-40: the embedding model is loaded once; a failure is re-raised
    as a [RuntimeError]. *)
Definition load_embedding_model : M unit :=
  w <- get ;;
  match embedding_model w with
  | Some _ => ret tt
  | None =>
    try_except
      (model <- lift (SentenceTransformer E EMBEDDING_MODEL_NAME) ;;
       set_embedding_model (Some model))
      (fun e => raise (mk_exn RuntimeError
                         (py "Could not load embedding model: " ++ exn_str e)))
  end.

(** Lines 46-54: both artifacts are read; any exception resets the globals. *)
Definition load_from_disk : M unit :=
  try_except
    (index <- read_index FAISS_INDEX_PATH ;;
     set_faiss_index (Some index) ;;
     texts <- json_load CONTEXT_DATA_PATH ;;
     set_context_texts texts)
    (fun _ => set_faiss_index None ;; set_context_texts []).

(** Lines 57-106: the index is built from the constant corpus and both
    artifacts are written. *)
Definition create_and_save : M unit :=
  set_context_texts knowledge_base_documents ;;
  embeddings <- encode knowledge_base_documents ;;
  dimension <- lift (shape1 embeddings) ;;
  set_faiss_index (Some (mk_index dimension [])) ;;
  index <- lift (add (mk_index dimension []) embeddings) ;;
  set_faiss_index (Some index) ;;
  write_file FAISS_INDEX_PATH (IndexFile index) ;;
  w <- get ;;
  write_file CONTEXT_DATA_PATH (JsonFile (context_texts w)).

Definition initialize_rag_components : M unit :=
  load_embedding_model ;;
  w <- get ;;
  match faiss_index w with
  | Some _ => ret tt
  | None =>
    (if path_exists FAISS_INDEX_PATH w && path_exists CONTEXT_DATA_PATH w
     then load_from_disk else ret tt) ;;
    w' <- get ;;
    match faiss_index w' with
    | Some _ => ret tt
    | None => create_and_save
    end
  end.

(** [model.generate_content(prompt)] and its [.text]. *)
Definition model_generate_content (prompt : pystr) : M pystr :=
  record (Generate prompt) ;; lift (generate_content E prompt).

(** Lines 172-198: the body of the [try]. *)
Definition generate_sql (question : pystr) : M pystr :=
  w <- get ;;
  match embedding_model w, faiss_index w with
  | Some _, Some _ => ret tt
  | _, _ => initialize_rag_components
  end ;;
  query_embedding <- encode [question] ;;
  DI <- index_search query_embedding 3 ;;
  indices0 <- lift (getitem (snd DI) 0) ;;
  w' <- get ;;
  prompt <- lift (build_prompt (context_texts w') indices0 question) ;;
  text <- model_generate_content prompt ;;
  ret (extract_sql text).

(** Lines 166-201: [except Exception as e] turns every exception of the body
    into a returned string. *)
Definition get_sql_from_question (question : pystr) : M pystr :=
  try_except (generate_sql question)
    (fun e => ret (py "‚ùå Error generating SQL: " ++ exn_str e)).

(** [conn.execute(text(sql))] with the rows turned into dictionaries. *)
Definition conn_execute (sql : pystr) : M (list row) :=
  record (Execute sql) ;; lift (execute E sql).

(** run.py, lines 37-48: the route [/api/data/<table_name>]. *)
Definition get_table_data (table_name : pystr) : M response :=
  if negb (existsb (pystr_eqb table_name) VALID_TABLES)
  then ret (ErrorJson (py "Invalid table name."), 400)
  else
    try_except
      (rows <- conn_execute (py "SELECT * FROM " ++ table_name) ;;
       ret (RowsJson rows, 200))
      (fun e => ret (ErrorJson (exn_str e), 500)).

(** run.py, lines 50-81: the route [/api/ask].  [request_json] is what
    [request.get_json()] gives: an exception, or a JSON object whose members
    are strings.  [not question] holds of a missing and of an empty
    question. *)
Definition ask (request_json : result (list (pystr * pystr))) : M response :=
  try_except
    (data <- lift request_json ;;
     let question := lookup (py "question") data in
     match question with
     | Some (c :: q) =>
       sql_query <- get_sql_from_question (c :: q) ;;
       if startswith sql_query (py "❌ Error")
       then ret (ErrorJson sql_query, 500)
       else
         rows <- conn_execute sql_query ;;
         ret (AnswerJson (c :: q) sql_query rows, 200)
     | _ => ret (ErrorJson (py "No question provided."), 400)
     end)
    (fun e => ret (ErrorJson (exn_str e), 500)).

(** app.py, lines 108-118: the handler of the ask button; the POST reaches
    the route [/api/ask] of the running backend. *)
Definition ask_button (question : pystr) : M shown :=
  if is_empty (strip question)
  then ret (st_warning (py "⚠️ Please enter a question."))
  else
    r <- ask (Ok [(py "question", question)]) ;;
    match fst r with
    | ErrorJson error => ret (st_error (py "❌ " ++ error))
    | body => ret (st_success body)
    end.

End Pipeline.

(** ** dataload.py

    A data frame is its columns in order; a column is a pandas [Series] of
    one dtype.  float64 values are [NaN], an infinity or a rational; the
    float64 that a literal is read as is left to [float64] below.  An
    integer column is of dtype int64 or uint64. *)

Inductive number :=
  | NaN
  | Inf (negative : bool)
  | Num (q : Q).

(** A value of an [object] column: a string, a missing value, or an integer
    put there by [fillna(0)]. *)
Inductive object :=
  | Str (s : pystr)
  | Missing
  | IntObj (z : Z).

Inductive series :=
  | ObjectSeries (values : list object)
  | FloatSeries (values : list number)
  | IntSeries (values : list Z)
  | BoolSeries (values : list bool)
  | DatetimeSeries (values : list (option Z)).

Definition dataframe := list (pystr * series).

(** The parts of pandas and of Python that are left open: [pd.to_datetime]
    with [errors='coerce'], how [astype(str)] prints floats and timestamps,
    the float64 that [pd.to_numeric] makes of a decimal literal of a given
    value (the rounded value, or what an overflow gives), and [str.lower] on
    a string that is not ASCII, which follows the Unicode tables. *)
Record pandas := mk_pandas {
  to_datetime : series -> result series;
  float_str : number -> pystr;
  datetime_str : option Z -> pystr;
  float64 : Q -> number;
  unicode_lower : pystr -> pystr
}.

(** The letters [A] to [Z] in lower case; other characters are kept. *)
Definition ascii_lower (s : pystr) : pystr :=
  map (fun c => if ((65 <=? c) && (c <=? 90))%N then (c + 32)%N else c) s.

(** [s.isascii()] *)
Definition isascii (s : pystr) : bool := forallb (fun c => (c <? 128)%N) s.

(** [s.lower()]: on an ASCII string the letters [A] to [Z] are lowered. *)
Definition lower (P : pandas) (s : pystr) : pystr :=
  if isascii s then ascii_lower s else unicode_lower P s.

(** [s.replace(a, b)] for single characters. *)
Definition replace_char (a b : N) (s : pystr) : pystr :=
  map (fun c => if (c =? a)%N then b else c) s.

(** [str.replace(r'[...]', '', regex=True)]: the listed characters are removed. *)
Definition remove_chars (chars s : pystr) : pystr :=
  filter (fun c => negb (existsb (N.eqb c) chars)) s.

Fixpoint digits_of_uint (u : Decimal.uint) : pystr :=
  match u with
  | Decimal.Nil => []
  | Decimal.D0 r => 48%N :: digits_of_uint r
  | Decimal.D1 r => 49%N :: digits_of_uint r
  | Decimal.D2 r => 50%N :: digits_of_uint r
  | Decimal.D3 r => 51%N :: digits_of_uint r
  | Decimal.D4 r => 52%N :: digits_of_uint r
  | Decimal.D5 r => 53%N :: digits_of_uint r
  | Decimal.D6 r => 54%N :: digits_of_uint r
  | Decimal.D7 r => 55%N :: digits_of_uint r
  | Decimal.D8 r => 56%N :: digits_of_uint r
  | Decimal.D9 r => 57%N :: digits_of_uint r
  end.

(** [str(z)] *)
Definition str_of_Z (z : Z) : pystr :=
  match Z.to_int z with
  | Decimal.Pos u => digits_of_uint u
  | Decimal.Neg u => 45%N :: digits_of_uint u
  end.

Fixpoint read_digits (s : pystr) (acc : Z) (n : nat) : Z * nat * pystr :=
  match s with
  | c :: r =>
    if is_digit c then read_digits r (acc * 10 + Z.of_N (c - 48)) (S n)
    else (acc, n, s)
  | [] => (acc, n, [])
  end.

Definition read_sign (s : pystr) : bool * pystr :=
  match s with
  | c :: r => if (c =? 45)%N then (true, r) else if (c =? 43)%N then (false, r) else (false, s)
  | [] => (false, s)
  end.

Definition signed (negative : bool) (z : Z) : Z := if negative then (- z)%Z else z.

(** The whitespace of C's [isspace], which the parser of [pd.to_numeric]
    skips before and after a literal: tab, line feed, vertical tab, form
    feed, carriage return and space. *)
Definition is_c_space (c : N) : bool :=
  ((9 <=? c) && (c <=? 13) || (c =? 32))%N.

(** A string that is an integer literal: a sign and digits, with whitespace
    around them. *)
Definition read_int (s : pystr) : option Z :=
  let (neg, s1) := read_sign (strip_with is_c_space s) in
  match read_digits s1 0 0 with
  | (v, S _, []) => Some (signed neg v)
  | _ => None
  end.

(** A string that is a float literal: [nan], [inf], [infinity] in any case,
    or sign, digits, fraction and exponent, with whitespace around them.  A
    finite literal is read as its exact value. *)
Definition read_float (s : pystr) : option number :=
  let (neg, s1) := read_sign (strip_with is_c_space s) in
  if pystr_eqb (ascii_lower s1) (py "nan") then Some NaN
  else if pystr_eqb (ascii_lower s1) (py "inf")
          || pystr_eqb (ascii_lower s1) (py "infinity")
  then Some (Inf neg)
  else
    let '(ip, n1, s2) := read_digits s1 0 0 in
    let '(fp, n2, s3) :=
      match s2 with
      | c :: r => if (c =? 46)%N then read_digits r 0 0 else (0%Z, 0%nat, s2)
      | [] => (0%Z, 0%nat, s2)
      end in
    if Nat.eqb (n1 + n2) 0 then None
    else
      let mantissa := signed neg (ip * 10 ^ Z.of_nat n2 + fp)%Z in
      match s3 with
      | [] => Some (Num (inject_Z mantissa * Qpower (10 # 1) (- Z.of_nat n2))%Q)
      | c :: r =>
        if ((c =? 101) || (c =? 69))%N then
          let (eneg, r1) := read_sign r in
          match read_digits r1 0 0 with
          | (ev, S _, []) =>
            Some (Num (inject_Z mantissa
                       * Qpower (10 # 1) (signed eneg ev - Z.of_nat n2))%Q)
          | _ => None
          end
        else None
      end.

Fixpoint all_some {A : Type} (l : list (option A)) : option (list A) :=
  match l with
  | [] => Some []
  | Some a :: r => match all_some r with Some r' => Some (a :: r') | None => None end
  | None :: _ => None
  end.

(** [str(x)] for a value of an object column. *)
Definition object_str (x : object) : pystr :=
  match x with
  | Str s => s
  | Missing => py "nan"
  | IntObj z => str_of_Z z
  end.

Definition bool_str (b : bool) : pystr := if b then py "True" else py "False".

(** [series.astype(str)] *)
Definition astype_str (P : pandas) (s : series) : list pystr :=
  match s with
  | ObjectSeries v => map object_str v
  | FloatSeries v => map (float_str P) v
  | IntSeries v => map str_of_Z v
  | BoolSeries v => map bool_str v
  | DatetimeSeries v => map (datetime_str P) v
  end.

Definition INT64_MIN : Z := (-9223372036854775808)%Z.
Definition INT64_MAX : Z := 9223372036854775807%Z.
Definition UINT64_MAX : Z := 18446744073709551615%Z.

(** The float64 of a value that was read from a literal. *)
Definition as_float64 (P : pandas) (x : number) : number :=
  match x with
  | Num q => float64 P q
  | _ => x
  end.

(** [pd.to_numeric(strings, errors='coerce')]: an integer column when every
    string is an integer literal and all of them fit int64, or all of them
    fit uint64; float64 otherwise, with [NaN] for what is no number. *)
Definition to_numeric_strings (P : pandas) (strings : list pystr) : series :=
  let floats :=
    FloatSeries (map (fun s => match read_float s with
                               | Some x => as_float64 P x
                               | None => NaN
                               end)
                     strings) in
  match all_some (map read_int strings) with
  | Some ints =>
    if forallb (fun z => (INT64_MIN <=? z) && (z <=? INT64_MAX))%Z ints
       || forallb (fun z => (0 <=? z) && (z <=? UINT64_MAX))%Z ints
    then IntSeries ints
    else floats
  | None => floats
  end.

(** [pd.to_numeric(series, errors='coerce')] for a column that is not of
    dtype object: numbers and booleans are kept, timestamps become their
    int64 nanoseconds. *)
Definition to_numeric (s : series) : series :=
  match s with
  | DatetimeSeries v =>
    IntSeries (map (fun t => match t with Some ns => ns | None => INT64_MIN end) v)
  | _ => s
  end.

(** [series.fillna(0)] *)
Definition fillna0 (s : series) : series :=
  match s with
  | FloatSeries v =>
    FloatSeries (map (fun x => match x with NaN => Num 0 | _ => x end) v)
  | ObjectSeries v =>
    ObjectSeries (map (fun x => match x with Missing => IntObj 0 | _ => x end) v)
  | _ => s
  end.

Definition TIMESTAMP_1900 : Z := (-2208988800000000000)%Z.

(** [series.fillna(pd.Timestamp('1900-01-01'))] on a datetime column. *)
Definition fillna_timestamp (s : series) : series :=
  match s with
  | DatetimeSeries v =>
    DatetimeSeries (map (fun t => match t with None => Some TIMESTAMP_1900 | _ => t end) v)
  | _ => s
  end.

Definition is_object (s : series) : bool :=
  match s with ObjectSeries _ => true | _ => false end.

Definition is_datetime (s : series) : bool :=
  match s with DatetimeSeries _ => true | _ => false end.

(** [pd.api.types.is_numeric_dtype] *)
Definition is_numeric_dtype (s : series) : bool :=
  match s with
  | FloatSeries _ | IntSeries _ | BoolSeries _ => true
  | _ => false
  end.

(** Lines 43-71 for one column: the numeric conversion with its [fillna(0)],
    then the datetime conversion of a column that is still of dtype object. *)
Definition convert_column (P : pandas) (s : series) : series :=
  let s0 :=
    if is_object s
    then to_numeric_strings P (map (remove_chars (py "₹$,% ")) (astype_str P s))
    else to_numeric s in
  let s1 := if is_numeric_dtype s0 then fillna0 s0 else s0 in
  if is_object s1
  then match to_datetime P s1 with Ok s2 => s2 | Raise _ => s1 end
  else s1.

(** Line 106: the dictionary of the [.map] call. *)
Definition eligibility_words : list (pystr * Z) :=
  [ (py "true", 1%Z); (py "false", 0%Z); (py "yes", 1%Z); (py "no", 0%Z);
    (py "eligible", 1%Z); (py "not eligible", 0%Z) ].

(** Line 106:
    [.astype(str).str.lower().map(...).fillna(0).astype(int)] *)
Definition map_eligibility (P : pandas) (s : series) : series :=
  IntSeries (map (fun t => match lookup (lower P t) eligibility_words with
                           | Some v => v
                           | None => 0%Z
                           end)
                 (astype_str P s)).

(** [df[name] = f(df[name])] when [name in df.columns]. *)
Fixpoint update_column (name : pystr) (f : series -> result series) (df : dataframe)
  : result dataframe :=
  match df with
  | [] => Ok []
  | (n, s) :: r =>
    if pystr_eqb n name
    then and_then (f s) (fun s' => Ok ((n, s') :: r))
    else and_then (update_column name f r) (fun r' => Ok ((n, s) :: r'))
  end.

Definition total (f : series -> series) : series -> result series :=
  fun s => Ok (f s).

(** Rows, for [drop_duplicates]: two missing values count as equal. *)
Inductive cell :=
  | CObject (x : object)
  | CFloat (x : number)
  | CInt (z : Z)
  | CBool (b : bool)
  | CTime (t : option Z).

Definition cells (s : series) : list cell :=
  match s with
  | ObjectSeries v => map CObject v
  | FloatSeries v => map CFloat v
  | IntSeries v => map CInt v
  | BoolSeries v => map CBool v
  | DatetimeSeries v => map CTime v
  end.

Definition number_eqb (a b : number) : bool :=
  match a, b with
  | NaN, NaN => true
  | Inf x, Inf y => Bool.eqb x y
  | Num x, Num y => Qeq_bool x y
  | _, _ => false
  end.

Definition object_eqb (a b : object) : bool :=
  match a, b with
  | Str x, Str y => pystr_eqb x y
  | Missing, Missing => true
  | IntObj x, IntObj y => Z.eqb x y
  | _, _ => false
  end.

Definition cell_eqb (a b : cell) : bool :=
  match a, b with
  | CObject x, CObject y => object_eqb x y
  | CFloat x, CFloat y => number_eqb x y
  | CInt x, CInt y => Z.eqb x y
  | CBool x, CBool y => Bool.eqb x y
  | CTime (Some x), CTime (Some y) => Z.eqb x y
  | CTime None, CTime None => true
  | _, _ => false
  end.

Fixpoint row_eqb (a b : list cell) : bool :=
  match a, b with
  | [], [] => true
  | x :: a', y :: b' => cell_eqb x y && row_eqb a' b'
  | _, _ => false
  end.

Definition nrows (df : dataframe) : nat :=
  match df with
  | [] => 0
  | (_, s) :: _ => length (cells s)
  end.

Definition row_at (df : dataframe) (i : nat) : list cell :=
  map (fun c => nth i (cells (snd c)) (CObject Missing)) df.

(** For each row, whether it is the first of its kind. *)
Fixpoint first_occurrences (rows seen : list (list cell)) : list bool :=
  match rows with
  | [] => []
  | r :: rest =>
    if existsb (row_eqb r) seen
    then false :: first_occurrences rest seen
    else true :: first_occurrences rest (r :: seen)
  end.

Fixpoint keep {A : Type} (mask : list bool) (l : list A) : list A :=
  match mask, l with
  | true :: m, x :: r => x :: keep m r
  | false :: m, _ :: r => keep m r
  | _, _ => []
  end.

Definition keep_series (mask : list bool) (s : series) : series :=
  match s with
  | ObjectSeries v => ObjectSeries (keep mask v)
  | FloatSeries v => FloatSeries (keep mask v)
  | IntSeries v => IntSeries (keep mask v)
  | BoolSeries v => BoolSeries (keep mask v)
  | DatetimeSeries v => DatetimeSeries (keep mask v)
  end.

(** [df.drop_duplicates(inplace=True)] *)
Definition drop_duplicates (df : dataframe) : dataframe :=
  let mask := first_occurrences (map (row_at df) (seq 0 (nrows df))) [] in
  map (fun c => (fst c, keep_series mask (snd c))) df.

Fixpoint has_duplicates (names : list pystr) : bool :=
  match names with
  | [] => false
  | n :: r => existsb (pystr_eqb n) r || has_duplicates r
  end.

(** Lines 75-107: the rules of one table. *)
Definition table_rules (P : pandas) (table_name : pystr) (df : dataframe)
  : result dataframe :=
  let item_id_as_str :=
    update_column (py "item_id") (total (fun s => ObjectSeries (map Str (astype_str P s)))) in
  if pystr_eqb table_name (py "total_sales") then
    and_then (item_id_as_str df) (fun df1 =>
    update_column (py "date")
      (total (fun s => if is_datetime s then fillna_timestamp s else s)) df1)
  else if pystr_eqb table_name (py "ad_sales") then
    and_then (item_id_as_str df) (fun df1 =>
    and_then (update_column (py "ad_spend") (total fillna0) df1) (fun df2 =>
    update_column (py "ad_sales") (total fillna0) df2))
  else if pystr_eqb table_name (py "eligibility") then
    and_then (item_id_as_str df) (fun df1 =>
    and_then (update_column (py "eligibility_datetime_utc")
                (fun s => and_then (to_datetime P s) (fun s' => Ok (fillna_timestamp s')))
                df1) (fun df2 =>
    update_column (py "eligibility")
      (total (fun s => if is_object s then map_eligibility P s else s)) df2))
  else Ok df.

(** Lines 31-115.  With two columns of one name [df[col]] is a data frame,
    and reading its [dtype] at line 66 raises. *)
Definition preprocess_df (P : pandas) (df : dataframe) (table_name : pystr)
  : result dataframe :=
  let renamed :=
    map (fun c => (lower P (replace_char 32 95 (strip (fst c))), snd c)) df in
  if has_duplicates (map fst renamed)
  then Raise (mk_exn AttributeError (py "'DataFrame' object has no attribute 'dtype'"))
  else
    let converted := map (fun c => (fst c, convert_column P (snd c))) renamed in
    and_then (table_rules P table_name converted) (fun df' => Ok (drop_duplicates df')).

(** ** app.py: the session and its chat history *)

(** An entry of [st.session_state.chat_history]; [chat_data] is [None] when
    the response carries no result. *)
Record chat := mk_chat {
  chat_question : pystr;
  chat_answer : pystr;
  chat_sql : pystr;
  chat_data : option (list row)
}.

Record session_state := mk_session {
  chat_history : list chat;
  current_question_input : pystr
}.

(** A press of one of the two buttons. *)
Inductive press :=
  | AskBot (question : pystr)
  | ClearHistory.

Section Frontend.

Variable E : env.

(** Lines 124-143: the sentence chosen for a result; it depends on the JSON
    types of the values, which the rows do not record. *)
Variable answer_text : option (list row) -> pystr.

(** Lines 107-156: the ask button with the session state. *)
Definition ask_button_pressed (question : pystr) (st : session_state)
  : M (shown * session_state) :=
  if is_empty (strip question)
  then ret (st_warning (py "⚠️ Please enter a question."), st)
  else
    r <- ask E (Ok [(py "question", question)]) ;;
    match fst r with
    | ErrorJson error => ret (st_error (py "❌ " ++ error), st)
    | AnswerJson _ sql result =>
      ret (st_success (fst r),
           mk_session
             (chat_history st
                ++ [mk_chat question (answer_text (Some result)) sql (Some result)])
             [])
    | RowsJson _ =>
      ret (st_success (fst r),
           mk_session
             (chat_history st
                ++ [mk_chat question (answer_text None) (py "No SQL generated.") None])
             [])
    end.

(** Lines 157-161: the clear button. *)
Definition clear_history_pressed (st : session_state) : session_state :=
  mk_session [] [].

Definition pressed (p : press) (st : session_state) : M session_state :=
  match p with
  | AskBot question =>
    r <- ask_button_pressed question st ;; ret (snd r)
  | ClearHistory => ret (clear_history_pressed st)
  end.

(** A run of the page over a sequence of presses. *)
Fixpoint presses (ps : list press) (st : session_state) : M session_state :=
  match ps with
  | [] => ret st
  | p :: rest => st' <- pressed p st ;; presses rest st'
  end.

End Frontend.

(** ** app.py: the visual creator *)

Definition X_AXIS_PLACEHOLDER : pystr := py "--- Select X-axis ---".
Definition Y_AXIS_PLACEHOLDER : pystr := py "--- Select Y-axis ---".
Definition CHART_TYPE_PLACEHOLDER : pystr := py "--- Select Chart Type ---".

(** [s in l] *)
Definition contains (l : list pystr) (s : pystr) : bool :=
  existsb (pystr_eqb s) l.

(** Lines 203-218 for one column: as in the loader, without the [fillna]. *)
Definition viz_convert_column (P : pandas) (s : series) : series :=
  let s1 :=
    if is_object s
    then to_numeric_strings P (map (remove_chars (py "₹$,% ")) (astype_str P s))
    else to_numeric s in
  if is_object s1
  then match to_datetime P s1 with Ok s2 => s2 | Raise _ => s1 end
  else s1.

(** Lines 198-225: every column is converted, then [item_id] is made a
    column of strings when it is numeric. *)
Definition viz_convert (P : pandas) (df : dataframe) : dataframe :=
  map (fun c =>
         if pystr_eqb (fst c) (py "item_id") && is_numeric_dtype (snd c)
         then (fst c, ObjectSeries (map Str (astype_str P (snd c))))
         else c)
      (map (fun c => (fst c, viz_convert_column P (snd c))) df).

(** [series.isnull().all()] *)
Definition all_null (s : series) : bool :=
  match s with
  | ObjectSeries v => forallb (fun x => match x with Missing => true | _ => false end) v
  | FloatSeries v => forallb (fun x => match x with NaN => true | _ => false end) v
  | IntSeries v => forallb (fun _ => false) v
  | BoolSeries v => forallb (fun _ => false) v
  | DatetimeSeries v => forallb (fun t => match t with None => true | _ => false end) v
  end.

(** [select_dtypes(include=['number'])]: float64 and int64, not bool. *)
Definition is_number (s : series) : bool :=
  match s with FloatSeries _ | IntSeries _ => true | _ => false end.

(** Lines 229-236: the names of the columns of one kind that are not all
    null. *)
Definition columns_where (kind : series -> bool) (df : dataframe) : list pystr :=
  map fst (filter (fun c => kind (snd c) && negb (all_null (snd c))) df).

Definition numeric_cols (df : dataframe) : list pystr := columns_where is_number df.
Definition category_cols (df : dataframe) : list pystr := columns_where is_object df.
Definition datetime_cols (df : dataframe) : list pystr := columns_where is_datetime df.

(** Lines 264-270. *)
Definition x_axis_options (datetimes categories numerics : list pystr) : list pystr :=
  [X_AXIS_PLACEHOLDER] ++ datetimes ++ categories ++ numerics.

Definition y_axis_options (numerics : list pystr) : list pystr :=
  [Y_AXIS_PLACEHOLDER] ++ numerics.

(** Lines 278-298: the chart types offered for a choice of axes;
    [unique_x] is [len(df[x_axis].dropna().unique())]. *)
Definition chart_type_options
    (categories datetimes numerics : list pystr) (x_axis y_axis : pystr)
    (unique_x : nat) : list pystr :=
  let x_is_categorical := contains categories x_axis in
  let x_is_datetime := contains datetimes x_axis in
  let x_is_numeric := contains numerics x_axis in
  let y_is_numeric := contains numerics y_axis in
  [CHART_TYPE_PLACEHOLDER]
  ++ (if y_is_numeric then
        if x_is_categorical || x_is_datetime then
          [py "Bar Chart"; py "Line Chart"; py "Box Plot"]
          ++ (if x_is_categorical && Nat.leb unique_x 20 then [py "Pie Chart"] else [])
          ++ (if x_is_categorical then [py "Treemap"] else [])
        else if x_is_numeric then [py "Scatter Plot"; py "Line Chart"]
        else [py "Histogram"]
      else []).

(** Lines 302-313: what the press of the chart button decides. *)
Inductive chart_decision :=
  | ChartWarning (msg : pystr)
  | DrawChart.

Definition generate_chart (numerics : list pystr) (chart_type x_axis y_axis : pystr)
  : chart_decision :=
  let no_numeric_y :=
    pystr_eqb y_axis Y_AXIS_PLACEHOLDER || negb (contains numerics y_axis) in
  if pystr_eqb chart_type CHART_TYPE_PLACEHOLDER
  then ChartWarning (py "⚠️ Please select a chart type.")
  else if negb (pystr_eqb chart_type (py "Histogram")) && no_numeric_y
  then ChartWarning (py "⚠️ For most charts (Bar, Line, Scatter, Pie, Box, Treemap), a valid **numeric Y-axis** is required.")
  else if pystr_eqb chart_type (py "Histogram") && no_numeric_y
  then ChartWarning (py "⚠️ A Histogram requires a valid **numeric Y-axis**.")
  else if contains [py "Bar Chart"; py "Line Chart"; py "Pie Chart"; py "Box Plot";
                    py "Treemap"] chart_type
          && pystr_eqb x_axis X_AXIS_PLACEHOLDER
  then ChartWarning (py "⚠️ A " ++ chart_type ++ py " typically requires a valid **X-axis** (categorical or date) in addition to a numeric Y-axis.")
  else if pystr_eqb chart_type (py "Scatter Plot")
          && (pystr_eqb x_axis X_AXIS_PLACEHOLDER || pystr_eqb y_axis Y_AXIS_PLACEHOLDER
              || negb (contains numerics x_axis) || negb (contains numerics y_axis))
  then ChartWarning (py "⚠️ A Scatter Plot typically requires **two numeric axes** (X and Y).")
  else DrawChart.

(** The plotting functions of plotly express. *)
Inductive px :=
  | px_bar | px_line | px_pie | px_scatter | px_treemap | px_box | px_histogram.

(** Lines 318-346: the plotly function called for a chart type, if any;
    [None] is the branch that leaves [fig] unset. *)
Definition plotly_call (chart_type : pystr)
    (x_is_categorical x_is_numeric y_is_numeric : bool) : option px :=
  if pystr_eqb chart_type (py "Bar Chart") then Some px_bar
  else if pystr_eqb chart_type (py "Line Chart") then Some px_line
  else if pystr_eqb chart_type (py "Pie Chart")
  then if x_is_categorical && y_is_numeric then Some px_pie else None
  else if pystr_eqb chart_type (py "Scatter Plot")
  then if x_is_numeric && y_is_numeric then Some px_scatter else None
  else if pystr_eqb chart_type (py "Treemap")
  then if x_is_categorical && y_is_numeric then Some px_treemap else None
  else if pystr_eqb chart_type (py "Box Plot") then Some px_box
  else if pystr_eqb chart_type (py "Histogram") then Some px_histogram
  else None.

(** Lines 348-398: whether matplotlib plots the chart type; [false] is a
    branch that shows an error or a warning. *)
Definition matplotlib_plots (chart_type : pystr)
    (x_is_categorical x_is_datetime x_is_numeric y_is_numeric : bool) : bool :=
  if pystr_eqb chart_type (py "Bar Chart") then x_is_categorical && y_is_numeric
  else if pystr_eqb chart_type (py "Line Chart")
  then (x_is_categorical || x_is_datetime || x_is_numeric) && y_is_numeric
  else if pystr_eqb chart_type (py "Box Plot") then y_is_numeric
  else if pystr_eqb chart_type (py "Scatter Plot") then x_is_numeric && y_is_numeric
  else if pystr_eqb chart_type (py "Histogram") then y_is_numeric
  else false.

(** ** dataload.py: the upload *)

(** Lines 24-28. *)
Definition file_table_map : list (pystr * pystr) :=
  [ (py "../../datasets/Product-Level Total Sales and Metrics (mapped).csv",
     py "total_sales");
    (py "../../datasets/Product-Level Ad Sales and Metrics (mapped).csv",
     py "ad_sales");
    (py "../../datasets/Product-Level Eligibility Table (mapped).csv",
     py "eligibility") ].

(** The tables of the database, the newest content of a name first. *)
Definition database := list (pystr * dataframe).

(** What the loader finds around it: which paths exist, what [pd.read_csv]
    gives for a path, and the exception, if any, that writing a table
    raises. *)
Record loader := mk_loader {
  csv_exists : pystr -> bool;
  read_csv : pystr -> result dataframe;
  write_error : pystr -> option exn
}.

(** [df.to_sql(table_name, con=engine, if_exists='replace', index=False)] *)
Definition to_sql (L : loader) (df : dataframe) (table_name : pystr) (db : database)
  : result database :=
  match write_error L table_name with
  | Some e => Raise e
  | None => Ok ((table_name, df) :: db)
  end.

(** Lines 118-133: every exception is caught and printed. *)
Definition load_and_upload (L : loader) (P : pandas) (csv_path table_name : pystr)
    (db : database) : database :=
  match and_then (read_csv L csv_path) (fun df =>
        and_then (preprocess_df P df table_name) (fun df' =>
        to_sql L df' table_name db)) with
  | Ok db' => db'
  | Raise _ => db
  end.

(** Lines 136-140: the files of the map in turn. *)
Fixpoint process_files (L : loader) (P : pandas) (files : list (pystr * pystr))
    (db : database) : database :=
  match files with
  | [] => db
  | (path, table) :: rest =>
    process_files L P rest
      (if csv_exists L path then load_and_upload L P path table db else db)
  end.

(** ** Concrete surroundings, for running the model *)

(** An encoder with one-dimensional embeddings: the length of the text. *)
Definition length_encoder : encoder :=
  fun texts => Ok (map (fun t => [inject_Z (Z.of_nat (length t))]) texts).

(** Surroundings whose embedding model loads, whose generative model answers
    [reply] to every prompt and whose database is [db]. *)
Definition test_env (reply : result pystr) (db : pystr -> result (list row)) : env :=
  mk_env (fun _ => Ok length_encoder) (fun _ => reply) db.

Definition empty_db : pystr -> result (list row) := fun _ => Ok [].

Definition failing_db : pystr -> result (list row) :=
  fun _ => Raise (mk_exn OtherException (py "syntax error at or near")).

(** A process that has just started in an empty working directory. *)
Definition fresh_world : world := mk_world None None [] [] [].

(** An index of two one-dimensional vectors. *)
Definition two_vectors : IndexFlatL2 := mk_index 1 [[5 # 1]; [2 # 1]]%Q.

(** A working directory whose index holds two vectors and whose document
    list holds one text. *)
Definition mismatched_world : world :=
  mk_world None None []
    [ (FAISS_INDEX_PATH, IndexFile two_vectors);
      (CONTEXT_DATA_PATH, JsonFile [py "Table: sales_summary"]) ]
    [].

(** A working directory whose document list is damaged. *)
Definition damaged_world : world :=
  mk_world None None []
    [ (FAISS_INDEX_PATH, IndexFile two_vectors); (CONTEXT_DATA_PATH, Garbage) ]
    [].

(** Surroundings whose generative model is out of quota and whose database
    rejects what is no SQL. *)
Definition quota_env : env :=
  test_env (Raise (mk_exn OtherException (py "429 quota exceeded"))) failing_db.

(** Surroundings whose generative model answers with a statement over a
    table that is not one of the three. *)
Definition users_env : env :=
  test_env (Ok (py "SELECT * FROM users;")) empty_db.

(** A process that has started in an empty working directory. *)
Definition started_world : world :=
  snd (initialize_rag_components (test_env (Ok []) empty_db) fresh_world).

(** Surroundings of the loader in which every file exists and is an empty
    frame, and a pandas that converts nothing to datetimes, reads a literal
    as its exact value and leaves a string that is not ASCII as it is. *)
Definition empty_csvs : loader :=
  mk_loader (fun _ => true) (fun _ => Ok []) (fun _ => None).

Definition plain_pandas : pandas :=
  mk_pandas (fun s => Ok s) (fun _ => py "nan") (fun _ => py "NaT") Num (fun s => s).

(** ** Vocabulary of the statements *)

(** Ascending distance. *)
Definition dist_le (a b : Z * Q) : Prop := (snd a <= snd b)%Q.

(** An entry that names a stored vector and carries its squared L2 distance
    to the query. *)
Definition real_entry (index : IndexFlatL2) (q : vec) (p : Z * Q) : Prop :=
  exists v, (0 <= fst p < Z.of_nat (ntotal index))%Z
            /\ nth_error (xb index) (Z.to_nat (fst p)) = Some v
            /\ snd p = fvec_L2sqr q v.

(** A padding entry. *)
Definition padding : Z * Q := ((-1)%Z, FLT_MAX).

(** The template before and after its placeholder. *)
Fixpoint before (c : N) (s : pystr) : pystr :=
  match s with
  | [] => []
  | x :: r => if (x =? c)%N then [] else x :: before c r
  end.

Fixpoint after (c : N) (s : pystr) : pystr :=
  match s with
  | [] => []
  | x :: r => if (x =? c)%N then r else after c r
  end.

Definition template_head : pystr := before 123 SYSTEM_PROMPT_TEMPLATE.
Definition template_tail : pystr := after 125 SYSTEM_PROMPT_TEMPLATE.

(** The bulleted block of the retrieved documents. *)
Definition context_block (docs : list pystr) : pystr :=
  py "\n\nRelevant Context for your question:\n"
  ++ concat (map (fun doc => py "- " ++ doc ++ py "\n") docs).

(** [part] is a run of consecutive characters of [s]. *)
Definition infix (part s : pystr) : Prop :=
  exists a b, s = a ++ part ++ b.

(** The first and the last character of [s], if any, do not satisfy [p]. *)
Definition ends_outside (p : N -> bool) (s : pystr) : Prop :=
  (forall c r, s = c :: r -> p c = false)
  /\ (forall c r, s = r ++ [c] -> p c = false).

(** [c in chars] *)
Definition in_chars (chars : pystr) (c : N) : bool := existsb (N.eqb c) chars.

(** A chat entry whose question is not blank and whose SQL is not an error
    string of the route's marker. *)
Definition well_asked (c : chat) : Prop :=
  strip (chat_question c) <> []
  /\ startswith (chat_sql c) (py "❌ Error") = false.

(** Line 38: [col.strip().replace(" ", "_").lower()] *)
Definition clean_name (P : pandas) (name : pystr) : pystr :=
  lower P (replace_char 32 95 (strip name)).



(** What the upload of one file stores, if it succeeds. *)
Definition uploaded (L : loader) (P : pandas) (path table : pystr) : option dataframe :=
  if csv_exists L path then
    match and_then (read_csv L path) (fun df => preprocess_df P df table) with
    | Ok df' => match write_error L table with None => Some df' | Some _ => None end
    | Raise _ => None
    end
  else None.

(** The rows of a frame, and a frame whose columns have one length. *)
Definition rows (df : dataframe) : list (list cell) :=
  map (row_at df) (seq 0 (nrows df)).

Definition rectangular (df : dataframe) : Prop :=
  forall c, In c df -> length (cells (snd c)) = nrows df.

(** A column that holds no [NaN]. *)
Definition nan_free (s : series) : Prop :=
  match s with
  | FloatSeries v => ~ In NaN v
  | _ => True
  end.

(** ** Tactics for running the state monad *)

Ltac step :=
  unfold encode, bind, ret, get, lift, raise, try_except, record,
    set_embedding_model, set_faiss_index, set_context_texts, write_file,
    path_exists, read_index, json_load;
  cbn [embedding_model faiss_index context_texts files calls andb fst snd].

Ltac run :=
  unfold initialize_rag_components, load_embedding_model, load_from_disk,
    create_and_save;
  step.

(** Case analysis on a scrutinee that contains no other match. *)
Ltac innermost :=
  match goal with
  | |- context [match ?x with _ => _ end] =>
    lazymatch x with
    | context [match _ with _ => _ end] => fail
    | _ => destruct x eqn:?
    end
  end.

Ltac unfold_pipeline :=
  unfold get_sql_from_question, generate_sql, index_search, model_generate_content,
    initialize_rag_components, load_embedding_model, load_from_disk, create_and_save.

(** A trace of at most four calls, none of them a statement. *)
Ltac no_execute :=
  first
    [ exists (@nil call); split; [reflexivity | constructor]
    | eexists [_]; split; [reflexivity | repeat constructor; discriminate]
    | eexists [_; _]; split; [reflexivity | repeat constructor; discriminate]
    | eexists [_; _; _]; split; [reflexivity | repeat constructor; discriminate]
    | eexists [_; _; _; _]; split; [reflexivity | repeat constructor; discriminate] ].

(** Decides the comparisons of the widget labels and chart names. *)
Ltac chart_names :=
  unfold X_AXIS_PLACEHOLDER, Y_AXIS_PLACEHOLDER, CHART_TYPE_PLACEHOLDER in *;
  repeat match goal with
         | |- context [pystr_eqb (py ?a) (py ?b)] =>
           let v := eval vm_compute in (pystr_eqb (py a) (py b)) in
           replace (pystr_eqb (py a) (py b)) with v by (vm_compute; reflexivity)
         | |- context [contains ?l (py ?b)] =>
           let v := eval vm_compute in (contains l (py b)) in
           replace (contains l (py b)) with v by (vm_compute; reflexivity)
         end.

(** * Properties *)

(** ** The similarity search *)

Lemma insert_by_distance_perm (p : Z * Q) (l : list (Z * Q)) :
  Permutation (insert_by_distance p l) (p :: l).
Proof.
  induction l as [|h t IH]; simpl.
  - apply Permutation_refl.
  - destruct (Qle_bool (snd p) (snd h)).
    + apply Permutation_refl.
    + eapply Permutation_trans; [apply perm_skip, IH | apply perm_swap].
Qed.

Lemma sort_by_distance_perm (l : list (Z * Q)) :
  Permutation (sort_by_distance l) l.
Proof.
  induction l as [|h t IH]; simpl.
  - apply Permutation_refl.
  - eapply Permutation_trans; [apply insert_by_distance_perm | apply perm_skip, IH].
Qed.

Lemma insert_by_distance_sorted (p : Z * Q) (l : list (Z * Q)) :
  StronglySorted dist_le l -> StronglySorted dist_le (insert_by_distance p l).
Proof.
  induction 1 as [|h t Hs IH Hh]; simpl.
  - repeat constructor.
  - destruct (Qle_bool (snd p) (snd h)) eqn:Hle.
    + apply Qle_bool_iff in Hle.
      constructor; [constructor; assumption|].
      constructor; [exact Hle|].
      eapply Forall_impl; [|exact Hh].
      intros a Ha. unfold dist_le in *. eapply Qle_trans; eassumption.
    + constructor; [exact IH|].
      assert (Hhp : dist_le h p).
      { unfold dist_le. apply Qlt_le_weak, Qnot_le_lt.
        intro Hc. apply Qle_bool_iff in Hc. congruence. }
      apply Forall_forall. intros a Ha.
      apply (Permutation_in _ (insert_by_distance_perm p t)) in Ha.
      destruct Ha as [<-|Ha]; [exact Hhp|].
      rewrite Forall_forall in Hh. apply Hh, Ha.
Qed.

Lemma sort_by_distance_sorted (l : list (Z * Q)) :
  StronglySorted dist_le (sort_by_distance l).
Proof.
  induction l as [|h t IH]; simpl.
  - constructor.
  - apply insert_by_distance_sorted, IH.
Qed.

Lemma StronglySorted_firstn {A : Type} (R : A -> A -> Prop) (k : nat) (l : list A) :
  StronglySorted R l -> StronglySorted R (firstn k l).
Proof.
  intros H. revert k. induction H as [|h t Hs IH Hh]; intros [|k]; simpl;
    try constructor.
  - apply IH.
  - apply Forall_forall. intros a Ha.
    rewrite Forall_forall in Hh. apply Hh.
    rewrite <- (firstn_skipn k t). apply in_or_app. left. exact Ha.
Qed.

Lemma StronglySorted_split {A : Type} (R : A -> A -> Prop) (k : nat) (l : list A) :
  StronglySorted R l ->
  forall a b, In a (firstn k l) -> In b (skipn k l) -> R a b.
Proof.
  intros H. revert k. induction H as [|h t Hs IH Hh]; intros [|k] a b Ha Hb;
    simpl in *; try contradiction.
  destruct Ha as [<-|Ha].
  - rewrite Forall_forall in Hh. apply Hh.
    rewrite <- (firstn_skipn k t). apply in_or_app. right. exact Hb.
  - eapply IH; eassumption.
Qed.

Lemma NoDup_firstn {A : Type} (k : nat) (l : list A) :
  NoDup l -> NoDup (firstn k l).
Proof.
  intros H. rewrite <- (firstn_skipn k l) in H.
  apply NoDup_app_remove_r in H. exact H.
Qed.

Lemma enumerate_nth {A : Type} (f : A -> Q) (l : list A) (s j : nat) :
  nth_error (combine (map Z.of_nat (seq s (length l))) (map f l)) j
  = option_map (fun v => (Z.of_nat (s + j), f v)) (nth_error l j).
Proof.
  revert s j. induction l as [|a l IH]; intros s [|j]; simpl; try reflexivity.
  - rewrite Nat.add_0_r. reflexivity.
  - rewrite IH. rewrite Nat.add_succ_r. reflexivity.
Qed.

Lemma distances_to_nth (index : IndexFlatL2) (q : vec) (j : nat) :
  nth_error (distances_to index q) j
  = option_map (fun v => (Z.of_nat j, fvec_L2sqr q v)) (nth_error (xb index) j).
Proof. unfold distances_to, ntotal. apply enumerate_nth. Qed.

Lemma distances_to_length (index : IndexFlatL2) (q : vec) :
  length (distances_to index q) = ntotal index.
Proof.
  unfold distances_to, ntotal.
  rewrite length_combine, !length_map, length_seq. apply Nat.min_id.
Qed.

Lemma distances_to_labels (index : IndexFlatL2) (q : vec) :
  map fst (distances_to index q) = map Z.of_nat (seq 0 (ntotal index)).
Proof.
  unfold distances_to, ntotal. generalize 0%nat.
  induction (xb index) as [|v l IH]; intros s; simpl; [reflexivity|].
  rewrite IH. reflexivity.
Qed.

Lemma distances_to_real (index : IndexFlatL2) (q : vec) (p : Z * Q) :
  In p (distances_to index q) -> real_entry index q p.
Proof.
  intros Hin. apply In_nth_error in Hin. destruct Hin as [j Hj].
  rewrite distances_to_nth in Hj.
  destruct (nth_error (xb index) j) as [v|] eqn:Hv; simpl in Hj; [|discriminate].
  injection Hj as <-. exists v. simpl. rewrite Nat2Z.id.
  assert (j < ntotal index)%nat by (apply nth_error_Some; congruence).
  repeat split; try assumption; lia.
Qed.

Lemma distances_to_NoDup (index : IndexFlatL2) (q : vec) :
  NoDup (map fst (distances_to index q)).
Proof.
  rewrite distances_to_labels.
  apply Injective_map_NoDup; [|apply seq_NoDup].
  intros a b. apply Nat2Z.inj.
Qed.

Lemma sorted_real (index : IndexFlatL2) (q : vec) :
  Forall (real_entry index q) (sort_by_distance (distances_to index q)).
Proof.
  apply Forall_forall. intros p Hp. apply distances_to_real.
  eapply Permutation_in; [apply sort_by_distance_perm | exact Hp].
Qed.

Lemma sorted_NoDup (index : IndexFlatL2) (q : vec) :
  NoDup (map fst (sort_by_distance (distances_to index q))).
Proof.
  eapply Permutation_NoDup; [|apply distances_to_NoDup].
  apply Permutation_sym, Permutation_map, sort_by_distance_perm.
Qed.

Lemma sorted_length (index : IndexFlatL2) (q : vec) :
  length (sort_by_distance (distances_to index q)) = ntotal index.
Proof.
  rewrite (Permutation_length (sort_by_distance_perm _)).
  apply distances_to_length.
Qed.

(** With at least [k] stored vectors a row is the first [k] of the sorted
    distances. *)
Lemma search_row_enough (index : IndexFlatL2) (q : vec) (k : nat) :
  (k <= ntotal index)%nat ->
  search_row index q k = firstn k (sort_by_distance (distances_to index q)).
Proof.
  intros Hk. unfold search_row.
  rewrite length_firstn, sorted_length, Nat.min_l by exact Hk.
  rewrite Nat.sub_diag. simpl. apply app_nil_r.
Qed.

(** With fewer than [k] stored vectors a row is all sorted distances and then
    padding. *)
Lemma search_row_short (index : IndexFlatL2) (q : vec) (k : nat) :
  (ntotal index <= k)%nat ->
  search_row index q k
  = sort_by_distance (distances_to index q) ++ repeat padding (k - ntotal index).
Proof.
  intros Hk. unfold search_row.
  rewrite firstn_all2 by (rewrite sorted_length; exact Hk).
  rewrite sorted_length. reflexivity.
Qed.

Lemma search_one (index : IndexFlatL2) (q : vec) (k : nat) :
  length q = d index ->
  search index [q] k
  = Ok ([map snd (search_row index q k)], [map fst (search_row index q k)]).
Proof.
  intros Hq. unfold search. simpl. rewrite Hq, Nat.eqb_refl. reflexivity.
Qed.

Lemma sorted_labels_complete (index : IndexFlatL2) (q : vec) (j : nat) :
  (j < ntotal index)%nat ->
  In (Z.of_nat j) (map fst (sort_by_distance (distances_to index q))).
Proof.
  intros Hj.
  eapply Permutation_in.
  - apply Permutation_sym, Permutation_map, sort_by_distance_perm.
  - rewrite distances_to_labels. apply in_map, in_seq. lia.
Qed.

(** C4: with at least [k] stored vectors and a query of the index's
    dimension, the search raises nothing and returns exactly [k] pairs of a
    document id and its squared L2 distance to the query, the ids distinct,
    the distances non-decreasing, and no stored vector left out is closer
    than a returned one. *)
Theorem search_returns_k_nearest (index : IndexFlatL2) (q : vec) (k : nat) :
  (k <= ntotal index)%nat ->
  length q = d index ->
  let r := search_row index q k in
  search index [q] k = Ok ([map snd r], [map fst r])
  /\ length r = k
  /\ Forall (real_entry index q) r
  /\ NoDup (map fst r)
  /\ StronglySorted dist_le r
  /\ (forall j v, nth_error (xb index) j = Some v ->
                  ~ In (Z.of_nat j) (map fst r) ->
                  Forall (fun p => (snd p <= fvec_L2sqr q v)%Q) r).
Proof.
  intros Hk Hq r. subst r. split; [apply search_one, Hq|].
  rewrite (search_row_enough index q k Hk).
  set (l := sort_by_distance (distances_to index q)).
  split; [|split; [|split; [|split]]].
  - rewrite length_firstn. unfold l. rewrite sorted_length. apply Nat.min_l, Hk.
  - apply Forall_forall. intros p Hp.
    pose proof (sorted_real index q) as Hall. rewrite Forall_forall in Hall.
    apply Hall. fold l. rewrite <- (firstn_skipn k l). apply in_or_app. left. exact Hp.
  - rewrite <- firstn_map. apply NoDup_firstn, sorted_NoDup.
  - apply StronglySorted_firstn, sort_by_distance_sorted.
  - intros j v Hv Hout. apply Forall_forall. intros p Hp.
    assert (Hin : In (Z.of_nat j, fvec_L2sqr q v) l).
    { eapply Permutation_in; [apply Permutation_sym, sort_by_distance_perm|].
      eapply nth_error_In with (n := j). rewrite distances_to_nth, Hv. reflexivity. }
    rewrite <- (firstn_skipn k l) in Hin. apply in_app_or in Hin.
    destruct Hin as [Hin|Hin].
    + exfalso. apply Hout. apply (in_map fst) in Hin. exact Hin.
    + apply (StronglySorted_split dist_le k l (sort_by_distance_sorted _) p _ Hp Hin).
Qed.

Lemma search_returns_k_nearest_witness :
  (1 <= ntotal two_vectors)%nat
  /\ length [0%Q] = d two_vectors
  /\ search two_vectors [[0%Q]] 1
     = Ok ([map snd (search_row two_vectors [0%Q] 1)],
           [map fst (search_row two_vectors [0%Q] 1)]).
Proof.
  split; [apply le_S, le_n|]. split; [reflexivity|].
  exact (proj1 (search_returns_k_nearest two_vectors [0%Q] 1 (le_S 1 1 (le_n 1)) eq_refl)).
Defined.

(** C1, as the code has it: when [k] exceeds the number [n] of stored vectors
    the search raises nothing and returns [k] entries; the first [n] are the
    stored documents, each once, with their squared L2 distances in
    non-decreasing order, and the [k - n] others are padding entries with
    the label [-1]. *)
Theorem search_pads_beyond_corpus (index : IndexFlatL2) (q : vec) (k : nat) :
  (ntotal index < k)%nat ->
  length q = d index ->
  let r := search_row index q k in
  let found := firstn (ntotal index) r in
  search index [q] k = Ok ([map snd r], [map fst r])
  /\ length r = k
  /\ r = found ++ repeat padding (k - ntotal index)
  /\ length found = ntotal index
  /\ Forall (real_entry index q) found
  /\ NoDup (map fst found)
  /\ (forall j, (j < ntotal index)%nat -> In (Z.of_nat j) (map fst found))
  /\ StronglySorted dist_le found.
Proof.
  intros Hk Hq r found. subst found r. split; [apply search_one, Hq|].
  rewrite (search_row_short index q k) by lia.
  set (l := sort_by_distance (distances_to index q)).
  assert (Hl : length l = ntotal index) by apply sorted_length.
  assert (Hf : firstn (ntotal index) (l ++ repeat padding (k - ntotal index)) = l).
  { rewrite <- Hl at 1. rewrite firstn_app, Nat.sub_diag, firstn_all. simpl.
    apply app_nil_r. }
  rewrite Hf.
  split; [|split; [|split; [|split; [|split; [|split]]]]].
  - rewrite length_app, repeat_length, Hl. lia.
  - reflexivity.
  - exact Hl.
  - apply sorted_real.
  - apply sorted_NoDup.
  - intros j Hj. apply sorted_labels_complete, Hj.
  - apply sort_by_distance_sorted.
Qed.

Lemma search_pads_beyond_corpus_witness :
  (ntotal two_vectors < 3)%nat
  /\ length [0%Q] = d two_vectors
  /\ length (search_row two_vectors [0%Q] 3) = 3%nat.
Proof.
  split; [apply le_n|]. split; [reflexivity|].
  exact (proj1 (proj2 (search_pads_beyond_corpus two_vectors [0%Q] 3 (le_n 3) eq_refl))).
Defined.

(** C1, as stated, fails: on two stored vectors the search with [k = 3]
    returns three entries, the last one a padding entry that names no
    document. *)
Lemma search_pads_two_vectors :
  (ntotal two_vectors < 3)%nat
  /\ search two_vectors [[0%Q]] 3
     = Ok ([[4 # 1; 25 # 1; FLT_MAX]%Q], [[1; 0; -1]%Z])
  /\ length (search_row two_vectors [0%Q] 3) <> ntotal two_vectors
  /\ ~ Forall (real_entry two_vectors [0%Q]) (search_row two_vectors [0%Q] 3).
Proof.
  split; [apply le_n|]. split; [reflexivity|]. split; [discriminate|].
  intros H. change (search_row two_vectors [0%Q] 3)
    with [(1%Z, 4 # 1); (0%Z, 25 # 1); padding]%Q in H.
  rewrite Forall_forall in H.
  destruct (H padding) as [v [[Hneg _] _]]; [right; right; left; reflexivity|].
  simpl in Hneg. lia.
Qed.

(** ** The prompt assembler *)

Lemma add_retrieved_ok (texts : list pystr) (indices : list Z) (docs : list pystr) :
  Forall2 (fun idx doc => getitem texts idx = Ok doc) indices docs ->
  forall acc,
    add_retrieved texts indices acc
    = Ok (acc ++ concat (map (fun doc => py "- " ++ doc ++ py "\n") docs)).
Proof.
  induction 1 as [|idx doc indices docs Hget _ IH]; intros acc;
    cbn [add_retrieved map concat].
  - rewrite app_nil_r. reflexivity.
  - rewrite Hget. cbn [and_then]. rewrite IH. rewrite <- !app_assoc. reflexivity.
Qed.

Lemma format_template (retrieved_context_str : pystr) :
  format SYSTEM_PROMPT_TEMPLATE [(py "retrieved_context", retrieved_context_str)]
  = Ok (template_head ++ retrieved_context_str ++ template_tail).
Proof. vm_compute. reflexivity. Qed.

(** C9: the prompt is the template with the block of the retrieved documents
    in place of its one placeholder, then the question under its label; the
    documents stand in the order of the retrieved indices, each in full, and
    so does the question. *)
Theorem prompt_is_template_context_question
    (texts : list pystr) (indices : list Z) (docs : list pystr) (question : pystr) :
  Forall2 (fun idx doc => getitem texts idx = Ok doc) indices docs ->
  build_prompt texts indices question
  = Ok (template_head ++ context_block docs ++ template_tail
        ++ py "\n\nUser Question: " ++ question ++ py "\nSQL Query:")
  /\ SYSTEM_PROMPT_TEMPLATE
     = template_head ++ py "{retrieved_context}" ++ template_tail
  /\ ~ In 123%N (template_head ++ template_tail)
  /\ ~ In 125%N (template_head ++ template_tail).
Proof.
  intros Hdocs. split; [|split; [|split]].
  - unfold build_prompt.
    rewrite (add_retrieved_ok texts indices docs Hdocs). cbn [and_then].
    rewrite format_template. cbn [and_then]. unfold context_block.
    rewrite <- !app_assoc. reflexivity.
  - vm_compute. reflexivity.
  - intros Hin.
    assert (H : existsb (N.eqb 123) (template_head ++ template_tail) = true)
      by (apply existsb_exists; exists 123%N; split; [exact Hin | reflexivity]).
    vm_compute in H. discriminate.
  - intros Hin.
    assert (H : existsb (N.eqb 125) (template_head ++ template_tail) = true)
      by (apply existsb_exists; exists 125%N; split; [exact Hin | reflexivity]).
    vm_compute in H. discriminate.
Qed.

Lemma prompt_is_template_context_question_witness :
  Forall2 (fun idx doc => getitem [py "a"; py "b"] idx = Ok doc)
          [1; -1]%Z [py "b"; py "b"]
  /\ build_prompt [py "a"; py "b"] [1; -1]%Z (py "q")
     = Ok (template_head ++ context_block [py "b"; py "b"] ++ template_tail
           ++ py "\n\nUser Question: " ++ py "q" ++ py "\nSQL Query:").
Proof.
  assert (H : Forall2 (fun idx doc => getitem [py "a"; py "b"] idx = Ok doc)
                      [1; -1]%Z [py "b"; py "b"])
    by (repeat constructor).
  split; [exact H|].
  exact (proj1 (prompt_is_template_context_question
                  [py "a"; py "b"] [1; -1]%Z [py "b"; py "b"] (py "q") H)).
Defined.

(** In a started process the prompt handed to the generative model is the
    one assembled from the labels of the search, in the order of the search:
    by ascending distance. *)
Lemma pipeline_sends_assembled_prompt
    (E : env) (w : world) (model : encoder) (index : IndexFlatL2)
    (question : pystr) (qv : vec) (prompt : pystr) :
  embedding_model w = Some model ->
  faiss_index w = Some index ->
  model [question] = Ok [qv] ->
  length qv = d index ->
  build_prompt (context_texts w) (map fst (search_row index qv 3)) question
  = Ok prompt ->
  get_sql_from_question E question w
  = (Ok match generate_content E prompt with
        | Ok text => extract_sql text
        | Raise e => py "‚ùå Error generating SQL: " ++ exn_str e
        end,
     mk_world (embedding_model w) (faiss_index w) (context_texts w) (files w)
       (Generate prompt :: Search [qv] 3 :: Encode [question] :: calls w)).
Proof.
  destruct w as [em fi ct fs cs]. cbn [embedding_model faiss_index context_texts files calls].
  intros -> -> Henc Hdim Hprompt.
  unfold get_sql_from_question, generate_sql, index_search, model_generate_content.
  step. rewrite Henc. step. rewrite (search_one index qv 3 Hdim). step.
  cbn [getitem length Z.of_nat Z.ltb Z.leb Z.compare andb Z.to_nat nth_error
       Pos.of_succ_nat Pos.compare Pos.compare_cont].
  rewrite Hprompt. step.
  destruct (generate_content E prompt); reflexivity.
Qed.

(** ** Loading and building the index *)

Lemma paths_differ : pystr_eqb FAISS_INDEX_PATH CONTEXT_DATA_PATH = false.
Proof. reflexivity. Qed.

Lemma pystr_eqb_refl (s : pystr) : pystr_eqb s s = true.
Proof. unfold pystr_eqb. destruct (list_eq_dec N.eq_dec s s); congruence. Qed.

(** When both artifacts deserialize, the start adopts them and calls
    nothing. *)
Lemma initialize_loads_pair (E : env) (w : world) (model : encoder)
    (index : IndexFlatL2) (texts : list pystr) :
  faiss_index w = None ->
  embedding_model w = Some model
  \/ embedding_model w = None /\ SentenceTransformer E EMBEDDING_MODEL_NAME = Ok model ->
  lookup FAISS_INDEX_PATH (files w) = Some (IndexFile index) ->
  lookup CONTEXT_DATA_PATH (files w) = Some (JsonFile texts) ->
  initialize_rag_components E w
  = (Ok tt, mk_world (Some model) (Some index) texts (files w) (calls w)).
Proof.
  destruct w as [em fi ct fs cs]. cbn [embedding_model faiss_index files calls].
  intros -> Hmodel Hindex Htexts.
  destruct Hmodel as [-> | [-> Hload]]; run; try rewrite Hload; run;
    rewrite Hindex, Htexts; run; rewrite Hindex; run; rewrite Htexts; reflexivity.
Qed.

(** C7, as the code has it: when both artifacts deserialize, the start adopts
    the loaded index and the loaded texts as they are, whatever their sizes,
    writes nothing and encodes nothing. *)
Theorem loaded_pair_is_trusted (E : env) (w : world) (model : encoder)
    (index : IndexFlatL2) (texts : list pystr) :
  faiss_index w = None ->
  embedding_model w = Some model
  \/ embedding_model w = None /\ SentenceTransformer E EMBEDDING_MODEL_NAME = Ok model ->
  lookup FAISS_INDEX_PATH (files w) = Some (IndexFile index) ->
  lookup CONTEXT_DATA_PATH (files w) = Some (JsonFile texts) ->
  fst (initialize_rag_components E w) = Ok tt
  /\ faiss_index (snd (initialize_rag_components E w)) = Some index
  /\ context_texts (snd (initialize_rag_components E w)) = texts
  /\ files (snd (initialize_rag_components E w)) = files w
  /\ calls (snd (initialize_rag_components E w)) = calls w.
Proof.
  intros Hnone Hmodel Hindex Htexts.
  rewrite (initialize_loads_pair E w model index texts Hnone Hmodel Hindex Htexts).
  repeat split.
Qed.

Lemma loaded_pair_is_trusted_witness :
  faiss_index mismatched_world = None
  /\ lookup FAISS_INDEX_PATH (files mismatched_world) = Some (IndexFile two_vectors)
  /\ lookup CONTEXT_DATA_PATH (files mismatched_world)
     = Some (JsonFile [py "Table: sales_summary"])
  /\ context_texts (snd (initialize_rag_components (test_env (Ok []) empty_db)
                                                   mismatched_world))
     = [py "Table: sales_summary"].
Proof.
  split; [reflexivity|]. split; [reflexivity|]. split; [reflexivity|].
  exact (proj1 (proj2 (proj2
    (loaded_pair_is_trusted (test_env (Ok []) empty_db) mismatched_world
       length_encoder two_vectors [py "Table: sales_summary"]
       eq_refl (or_intror (conj eq_refl eq_refl)) eq_refl eq_refl)))).
Defined.

(** C7, as stated, fails: an index of two vectors and a list of one text are
    both adopted; nothing is rebuilt. *)
Lemma mismatched_pair_is_adopted :
  ntotal two_vectors <> length [py "Table: sales_summary"]
  /\ initialize_rag_components (test_env (Ok []) empty_db) mismatched_world
     = (Ok tt,
        mk_world (Some length_encoder) (Some two_vectors)
                 [py "Table: sales_summary"] (files mismatched_world) []).
Proof. split; [discriminate | reflexivity]. Qed.

Lemma shape1_rows (embeddings : list vec) (dimension : nat) :
  embeddings <> [] ->
  Forall (fun v => length v = dimension) embeddings ->
  shape1 embeddings = Ok dimension
  /\ add (mk_index dimension []) embeddings = Ok (mk_index dimension embeddings).
Proof.
  intros Hne Hall. split.
  - destruct embeddings as [|v r]; [congruence|].
    inversion Hall; subst. reflexivity.
  - unfold add. cbn [d xb app].
    replace (forallb (fun v => Nat.eqb (length v) dimension) embeddings) with true;
      [reflexivity|].
    symmetry. apply forallb_forall. intros v Hv.
    rewrite Forall_forall in Hall. apply Nat.eqb_eq, Hall, Hv.
Qed.

(** A start that finds no usable pair of artifacts builds the index from the
    constant corpus and writes both artifacts. *)
Lemma initialize_rebuilds (E : env) (w : world) (model : encoder)
    (embeddings : list vec) (dimension : nat) :
  faiss_index w = None ->
  embedding_model w = Some model
  \/ embedding_model w = None /\ SentenceTransformer E EMBEDDING_MODEL_NAME = Ok model ->
  (forall index, lookup FAISS_INDEX_PATH (files w) <> Some (IndexFile index))
  \/ (forall texts, lookup CONTEXT_DATA_PATH (files w) <> Some (JsonFile texts)) ->
  model knowledge_base_documents = Ok embeddings ->
  embeddings <> [] ->
  Forall (fun v => length v = dimension) embeddings ->
  initialize_rag_components E w
  = (Ok tt,
     mk_world (Some model) (Some (mk_index dimension embeddings))
       knowledge_base_documents
       ((CONTEXT_DATA_PATH, JsonFile knowledge_base_documents)
          :: (FAISS_INDEX_PATH, IndexFile (mk_index dimension embeddings))
          :: files w)
       (Encode knowledge_base_documents :: calls w)).
Proof.
  destruct w as [em fi ct fs cs]. cbn [embedding_model faiss_index files calls].
  intros -> Hmodel Hbad Henc Hne Hall.
  destruct (shape1_rows embeddings dimension Hne Hall) as [Hshape Hadd].
  assert (Hbuild : forall ct',
    create_and_save (mk_world (Some model) None ct' fs cs)
    = (Ok tt,
       mk_world (Some model) (Some (mk_index dimension embeddings))
         knowledge_base_documents
         ((CONTEXT_DATA_PATH, JsonFile knowledge_base_documents)
            :: (FAISS_INDEX_PATH, IndexFile (mk_index dimension embeddings)) :: fs)
         (Encode knowledge_base_documents :: cs))).
  { intros ct'. run. rewrite Henc. run. rewrite Hshape. run. rewrite Hadd. reflexivity. }
  assert (Hstart : load_embedding_model E (mk_world em None ct fs cs)
                   = (Ok tt, mk_world (Some model) None ct fs cs)).
  { destruct Hmodel as [-> | [-> Hload]]; run; [reflexivity|].
    rewrite Hload. reflexivity. }
  assert (Hload : exists ct',
    ((if path_exists FAISS_INDEX_PATH (mk_world (Some model) None ct fs cs)
          && path_exists CONTEXT_DATA_PATH (mk_world (Some model) None ct fs cs)
      then load_from_disk else ret tt) (mk_world (Some model) None ct fs cs))
    = (Ok tt, mk_world (Some model) None ct' fs cs)).
  { unfold load_from_disk.
    destruct (lookup FAISS_INDEX_PATH fs) as [[index|texts0|]|] eqn:Hindex;
      destruct (lookup CONTEXT_DATA_PATH fs) as [[index1|texts|]|] eqn:Htexts;
      do 4 (step; rewrite ?Hindex, ?Htexts);
      try (eexists; reflexivity).
    exfalso. destruct Hbad as [Hbad|Hbad]; [eapply Hbad | eapply Hbad]; reflexivity. }
  destruct Hload as [ct' Hload].
  unfold initialize_rag_components. unfold bind at 1. rewrite Hstart.
  unfold bind at 1. unfold get at 1. cbn [faiss_index].
  unfold bind at 1. rewrite Hload.
  unfold bind at 1. unfold get at 1. cbn [faiss_index].
  apply Hbuild.
Qed.

Lemma lookup_written (a b : file) (fs : disk) :
  lookup FAISS_INDEX_PATH ((CONTEXT_DATA_PATH, a) :: (FAISS_INDEX_PATH, b) :: fs) = Some b
  /\ lookup CONTEXT_DATA_PATH ((CONTEXT_DATA_PATH, a) :: (FAISS_INDEX_PATH, b) :: fs)
     = Some a.
Proof.
  cbn [lookup]. rewrite paths_differ, !pystr_eqb_refl. split; reflexivity.
Qed.

(** C8: a start that finds an artifact missing or damaged builds the index
    from the constant corpus and writes both artifacts, given that the
    embedding model is there and encodes the corpus; the next process then
    loads the pair and encodes nothing. *)
Theorem rebuild_on_failed_load (E : env) (w : world) (model : encoder)
    (embeddings : list vec) (dimension : nat) :
  faiss_index w = None ->
  embedding_model w = Some model
  \/ embedding_model w = None /\ SentenceTransformer E EMBEDDING_MODEL_NAME = Ok model ->
  (forall index, lookup FAISS_INDEX_PATH (files w) <> Some (IndexFile index))
  \/ (forall texts, lookup CONTEXT_DATA_PATH (files w) <> Some (JsonFile texts)) ->
  model knowledge_base_documents = Ok embeddings ->
  embeddings <> [] ->
  Forall (fun v => length v = dimension) embeddings ->
  let w' := snd (initialize_rag_components E w) in
  let index := mk_index dimension embeddings in
  fst (initialize_rag_components E w) = Ok tt
  /\ faiss_index w' = Some index
  /\ context_texts w' = knowledge_base_documents
  /\ lookup FAISS_INDEX_PATH (files w') = Some (IndexFile index)
  /\ lookup CONTEXT_DATA_PATH (files w') = Some (JsonFile knowledge_base_documents)
  /\ (forall E2 model2,
        SentenceTransformer E2 EMBEDDING_MODEL_NAME = Ok model2 ->
        initialize_rag_components E2 (mk_world None None [] (files w') [])
        = (Ok tt,
           mk_world (Some model2) (Some index) knowledge_base_documents (files w') [])).
Proof.
  intros Hnone Hmodel Hbad Henc Hne Hall w' index. subst w' index.
  rewrite (initialize_rebuilds E w model embeddings dimension
             Hnone Hmodel Hbad Henc Hne Hall).
  cbn [fst snd faiss_index context_texts files].
  destruct (lookup_written (JsonFile knowledge_base_documents)
              (IndexFile (mk_index dimension embeddings)) (files w)) as [Hi Ht].
  repeat split; try assumption.
  intros E2 model2 Hload.
  exact (initialize_loads_pair E2
           (mk_world None None []
              ((CONTEXT_DATA_PATH, JsonFile knowledge_base_documents)
                 :: (FAISS_INDEX_PATH, IndexFile (mk_index dimension embeddings))
                 :: files w) [])
           model2 (mk_index dimension embeddings) knowledge_base_documents
           eq_refl (or_intror (conj eq_refl Hload)) Hi Ht).
Qed.

Lemma rebuild_on_failed_load_witness :
  faiss_index damaged_world = None
  /\ lookup CONTEXT_DATA_PATH (files damaged_world) = Some Garbage
  /\ length_encoder knowledge_base_documents
     = Ok (map (fun t => [inject_Z (Z.of_nat (length t))]) knowledge_base_documents)
  /\ context_texts (snd (initialize_rag_components (test_env (Ok []) empty_db)
                                                   damaged_world))
     = knowledge_base_documents.
Proof.
  split; [reflexivity|]. split; [reflexivity|]. split; [reflexivity|].
  refine (proj1 (proj2 (proj2
    (rebuild_on_failed_load (test_env (Ok []) empty_db) damaged_world length_encoder
       (map (fun t => [inject_Z (Z.of_nat (length t))]) knowledge_base_documents) 1
       eq_refl (or_intror (conj eq_refl eq_refl)) (or_intror _) eq_refl _ _)))).
  - intros texts H. vm_compute in H. discriminate H.
  - intros H. vm_compute in H. discriminate H.
  - apply Forall_forall. intros v Hv. apply in_map_iff in Hv.
    destruct Hv as [t [<- _]]. reflexivity.
Defined.

(** ** The SQL extractor *)

Lemma lstrip_with_suffix (p : N -> bool) (s : pystr) :
  exists a, s = a ++ lstrip_with p s.
Proof.
  induction s as [|c r [a IH]]; simpl.
  - exists []. reflexivity.
  - destruct (p c).
    + exists (c :: a). simpl. rewrite <- IH. reflexivity.
    + exists []. reflexivity.
Qed.

Lemma strip_with_infix (p : N -> bool) (s : pystr) : infix (strip_with p s) s.
Proof.
  unfold strip_with, rstrip_with.
  destruct (lstrip_with_suffix p s) as [a Ha].
  destruct (lstrip_with_suffix p (rev (lstrip_with p s))) as [b Hb].
  exists a, (rev b).
  rewrite <- rev_app_distr, <- Hb, rev_involutive. exact Ha.
Qed.

Lemma infix_trans (a b c : pystr) : infix a b -> infix b c -> infix a c.
Proof.
  intros [x [y ->]] [u [v ->]]. exists (u ++ x), (y ++ v).
  rewrite <- !app_assoc. reflexivity.
Qed.

(** Whatever the extractor returns is one run of the response: characters
    are removed at the two ends only. *)
Lemma extract_sql_infix (text : pystr) : infix (extract_sql text) text.
Proof.
  unfold extract_sql, strip, strip_chars.
  eapply infix_trans; [apply strip_with_infix|].
  eapply infix_trans; [apply strip_with_infix|].
  eapply infix_trans; [apply strip_with_infix|].
  apply strip_with_infix.
Qed.

(** C3: the fenced example of the specification is extracted as stated, but
    the enclosed SQL is not always left unchanged: [strip] takes its argument
    as a set of characters, so a statement loses every backquote, s, q and l
    at its two ends. *)
Theorem extract_sql_eats_sql_letters :
  extract_sql (py "```sql\nSELECT 1;\n```") = py "SELECT 1;"
  /\ extract_sql (py "SELECT * FROM eligibility_status")
     = py "SELECT * FROM eligibility_statu"
  /\ extract_sql (py "```sql select item_id from sales_summary order by total_sales```")
     = py "select item_id from sales_summary order by total_sale".
Proof. repeat split; vm_compute; reflexivity. Qed.

(** ** The pipeline boundary *)

(** The pipeline returns a string whatever happens inside it. *)
Lemma get_sql_from_question_returns (E : env) (question : pystr) (w : world) :
  exists sql, fst (get_sql_from_question E question w) = Ok sql.
Proof.
  unfold get_sql_from_question, try_except.
  destruct (generate_sql E question w) as [[sql|e] w']; eexists; reflexivity.
Qed.

(** An exception of the body is turned into the literal of line 201 followed
    by its message. *)
Lemma get_sql_from_question_on_exception
    (E : env) (question : pystr) (w w' : world) (e : exn) :
  generate_sql E question w = (Raise e, w') ->
  get_sql_from_question E question w
  = (Ok (py "‚ùå Error generating SQL: " ++ exn_str e), w').
Proof.
  intros H. unfold get_sql_from_question, try_except. rewrite H. reflexivity.
Qed.

(** The literal of gemini_utils.py, line 201, does not start with the marker
    that run.py, line 64, tests for. *)
Lemma returned_marker_is_not_tested_marker (msg : pystr) :
  startswith (py "‚ùå Error generating SQL: " ++ msg) (py "‚ùå Error") = true
  /\ startswith (py "‚ùå Error generating SQL: " ++ msg) (py "❌ Error") = false.
Proof. split; reflexivity. Qed.

(** C2: when the model call raises, the pipeline returns a string and raises
    nothing, but the string starts with the characters U+201A, U+00F9, U+00E5
    of the literal of line 201, not with the marker U+274C that the route
    tests for: the route takes the string for SQL and hands it to the
    database. *)
Theorem error_string_misses_route_marker :
  fst (generate_sql quota_env (py "What is the total revenue?") fresh_world)
  = Raise (mk_exn OtherException (py "429 quota exceeded"))
  /\ fst (get_sql_from_question quota_env (py "What is the total revenue?") fresh_world)
     = Ok (py "‚ùå Error generating SQL: 429 quota exceeded")
  /\ startswith (py "‚ùå Error generating SQL: 429 quota exceeded") (py "❌ Error")
     = false
  /\ fst (ask quota_env (Ok [(py "question", py "What is the total revenue?")])
              fresh_world)
     = Ok (ErrorJson (py "syntax error at or near"), 500)
  /\ hd_error (calls (snd (ask quota_env
                             (Ok [(py "question", py "What is the total revenue?")])
                             fresh_world)))
     = Some (Execute (py "‚ùå Error generating SQL: 429 quota exceeded")).
Proof. repeat split; vm_compute; reflexivity. Qed.

(** ** The routes and the ask button *)

Lemma pystr_eqb_eq (a b : pystr) : pystr_eqb a b = true <-> a = b.
Proof.
  unfold pystr_eqb. destruct (list_eq_dec N.eq_dec a b); split; congruence.
Qed.

(** The route [/api/ask] hands the generated SQL to the database as it is. *)
Lemma ask_executes_generated_sql
    (E : env) (question sql : pystr) (w w' : world) :
  question <> [] ->
  get_sql_from_question E question w = (Ok sql, w') ->
  startswith sql (py "❌ Error") = false ->
  calls (snd (ask E (Ok [(py "question", question)]) w)) = Execute sql :: calls w'.
Proof.
  intros Hq Hsql Hmark. destruct question as [|c q]; [congruence|].
  unfold ask, try_except. unfold bind at 1. unfold lift at 1.
  cbn [lookup]. rewrite pystr_eqb_refl.
  unfold bind at 1. rewrite Hsql. rewrite Hmark.
  unfold conn_execute, bind, record, lift, ret.
  destruct (execute E sql); reflexivity.
Qed.

(** C5, as the code has it: the allow-list guards the table name of the route
    [/api/data/<table_name>], which rejects any other name before executing
    anything; the route [/api/ask] executes the SQL it is given whatever
    tables it names. *)
Theorem allow_list_guards_table_route (E : env) (w : world) :
  (forall table_name,
      ~ In table_name VALID_TABLES ->
      get_table_data E table_name w
      = (Ok (ErrorJson (py "Invalid table name."), 400), w))
  /\ (forall question sql w',
         question <> [] ->
         get_sql_from_question E question w = (Ok sql, w') ->
         startswith sql (py "❌ Error") = false ->
         calls (snd (ask E (Ok [(py "question", question)]) w))
         = Execute sql :: calls w').
Proof.
  split.
  - intros table_name Hout. unfold get_table_data.
    destruct (existsb (pystr_eqb table_name) VALID_TABLES) eqn:Hin; [|reflexivity].
    exfalso. apply Hout. apply existsb_exists in Hin.
    destruct Hin as [t [Ht Heq]]. apply pystr_eqb_eq in Heq. subst t. exact Ht.
  - intros question sql w'. apply ask_executes_generated_sql.
Qed.

Lemma allow_list_guards_table_route_witness :
  ~ In (py "users") VALID_TABLES
  /\ get_table_data users_env (py "users") fresh_world
     = (Ok (ErrorJson (py "Invalid table name."), 400), fresh_world).
Proof.
  assert (H : ~ In (py "users") VALID_TABLES).
  { intros H. vm_compute in H. intuition discriminate. }
  split; [exact H|].
  exact (proj1 (allow_list_guards_table_route users_env fresh_world) (py "users") H).
Defined.

(** C5, as stated, fails: the route [/api/ask] executes a statement over the
    table [users], which is not one of the three, and answers with status
    200. *)
Lemma ask_executes_unlisted_table :
  ~ In (py "users") VALID_TABLES
  /\ fst (ask users_env (Ok [(py "question", py "Show all users")]) fresh_world)
     = Ok (AnswerJson (py "Show all users") (py "SELECT * FROM users;") [], 200)
  /\ hd_error (calls (snd (ask users_env (Ok [(py "question", py "Show all users")])
                               fresh_world)))
     = Some (Execute (py "SELECT * FROM users;")).
Proof.
  split; [|split; vm_compute; reflexivity].
  intros H. vm_compute in H. intuition discriminate.
Qed.

(** The route [/api/ask], case by case. *)
Lemma ask_cases (E : env) (request_json : result (list (pystr * pystr))) (w : world) :
  ask E request_json w
  = match request_json with
    | Raise e => (Ok (ErrorJson (exn_str e), 500), w)
    | Ok data =>
      match lookup (py "question") data with
      | Some (c :: q) =>
        let (r, w1) := get_sql_from_question E (c :: q) w in
        let w2 := mk_world (embedding_model w1) (faiss_index w1) (context_texts w1)
                           (files w1) in
        match r with
        | Raise e => (Ok (ErrorJson (exn_str e), 500), w1)
        | Ok sql =>
          if startswith sql (py "❌ Error") then (Ok (ErrorJson sql, 500), w1)
          else
            match execute E sql with
            | Ok rows => (Ok (AnswerJson (c :: q) sql rows, 200),
                          w2 (Execute sql :: calls w1))
            | Raise e => (Ok (ErrorJson (exn_str e), 500),
                          w2 (Execute sql :: calls w1))
            end
        end
      | _ => (Ok (ErrorJson (py "No question provided."), 400), w)
      end
    end.
Proof.
  unfold ask, try_except, conn_execute, bind, lift, ret, record.
  destruct request_json as [data|e]; [|reflexivity].
  destruct (lookup (py "question") data) as [[|c q]|]; try reflexivity.
  destruct (get_sql_from_question E (c :: q) w) as [[sql|e] w1]; [|reflexivity].
  destruct (startswith sql (py "❌ Error")); [reflexivity|].
  destruct (execute E sql); reflexivity.
Qed.

(** C6: a question that is empty or all whitespace is turned down by the ask
    button with a warning: nothing is posted, the state is as before and no
    search is made.  The route turns down a request whose question is
    missing or empty with status 400, again with no call made; a question of
    whitespace that is not empty it does not turn down: it answers with
    another status and runs the pipeline on that question. *)
Theorem blank_question_is_rejected (E : env) (question : pystr) (w : world) :
  strip question = [] ->
  ask_button E question w = (Ok (st_warning (py "⚠️ Please enter a question.")), w)
  /\ calls (snd (ask_button E question w)) = calls w
  /\ (forall data : list (pystr * pystr),
        lookup (py "question") data = None \/ lookup (py "question") data = Some [] ->
        ask E (Ok data) w = (Ok (ErrorJson (py "No question provided."), 400), w))
  /\ (question <> [] ->
      forall data : list (pystr * pystr),
        lookup (py "question") data = Some question ->
        (forall body, fst (ask E (Ok data) w) <> Ok (body, 400))
        /\ exists new,
             calls (snd (ask E (Ok data) w))
             = new ++ calls (snd (get_sql_from_question E question w))).
Proof.
  intros Hblank. unfold ask_button. rewrite Hblank. cbn [is_empty].
  split; [reflexivity|]. split; [reflexivity|]. split.
  - intros data Hq. rewrite ask_cases. destruct Hq as [-> | ->]; reflexivity.
  - intros Hne data Hq. rewrite ask_cases, Hq.
    destruct question as [|c q]; [congruence|].
    destruct (get_sql_from_question E (c :: q) w) as [[sql|e] w1]; cbn [fst snd].
    + destruct (startswith sql (py "❌ Error")).
      * split; [intros body H; discriminate H | exists []; reflexivity].
      * destruct (execute E sql); cbn [fst snd calls];
          (split; [intros body H; discriminate H | exists [Execute sql]; reflexivity]).
    + split; [intros body H; discriminate H | exists []; reflexivity].
Qed.

Lemma blank_question_is_rejected_witness :
  strip (py "  \n ") = []
  /\ ask_button users_env (py "  \n ") fresh_world
     = (Ok (st_warning (py "⚠️ Please enter a question.")), fresh_world).
Proof.
  split; [reflexivity|].
  exact (proj1 (blank_question_is_rejected users_env (py "  \n ") fresh_world eq_refl)).
Defined.

(** C6, as the specification states it, fails at the route: a question of
    one space, posted to [/api/ask], is not turned down; it is answered with
    status 200 after the similarity search has been made for it. *)
Lemma route_searches_for_blank_question :
  strip (py " ") = []
  /\ fst (ask users_env (Ok [(py "question", py " ")]) fresh_world)
     = Ok (AnswerJson (py " ") (py "SELECT * FROM users;") [], 200)
  /\ exists xq,
       In (Search xq 3)
          (calls (snd (ask users_env (Ok [(py "question", py " ")]) fresh_world))).
Proof.
  split; [vm_compute; reflexivity|]. split; [vm_compute; reflexivity|].
  exists [[inject_Z 1]]. vm_compute. right. right. left. reflexivity.
Qed.

(** ** The data loader *)

(** *** The rows that are uploaded *)

Lemma all_some_length {A : Type} (l : list (option A)) (r : list A) :
  all_some l = Some r -> length r = length l.
Proof.
  revert r. induction l as [|[a|] l IH]; intros r; cbn [all_some].
  - intros H. injection H as <-. reflexivity.
  - destruct (all_some l) as [r'|]; [|discriminate].
    intros H. injection H as <-. cbn [length]. rewrite (IH r' eq_refl). reflexivity.
  - discriminate.
Qed.

(** [pd.to_numeric] on strings gives an integer or a float column. *)
Lemma to_numeric_strings_kind (P : pandas) (strings : list pystr) :
  (exists ints, to_numeric_strings P strings = IntSeries ints
                /\ length ints = length strings)
  \/ (exists floats, to_numeric_strings P strings = FloatSeries floats
                     /\ length floats = length strings).
Proof.
  unfold to_numeric_strings.
  destruct (all_some (map read_int strings)) as [ints|] eqn:H.
  - destruct (_ || _).
    + left. exists ints. split; [reflexivity|].
      rewrite (all_some_length _ _ H). apply length_map.
    + right. eexists. split; [reflexivity | apply length_map].
  - right. eexists. split; [reflexivity | apply length_map].
Qed.

(** The general conversion leaves no column of dtype object: strings that
    are no numbers become [NaN] and then [0]. *)
Lemma convert_column_not_object (P : pandas) (s : series) :
  is_object (convert_column P s) = false.
Proof.
  unfold convert_column.
  destruct s as [v|v|v|v|v]; cbn [is_object to_numeric]; try reflexivity.
  destruct (to_numeric_strings_kind P (map (remove_chars (py "₹$,% "))
                                           (astype_str P (ObjectSeries v))))
    as [[x [-> _]]|[x [-> _]]]; reflexivity.
Qed.

(** So the rule of line 106 never finds a column of dtype object to map. *)
Lemma eligibility_rule_is_idle (P : pandas) (s : series) :
  (if is_object (convert_column P s)
   then map_eligibility P (convert_column P s)
   else convert_column P s)
  = convert_column P s.
Proof. rewrite convert_column_not_object. reflexivity. Qed.

(** Each of the six words of the dictionary is read as [0.0] by the general
    conversion, in any case of its letters spelled here. *)
Lemma eligibility_words_read_as_zero (P : pandas) (word : pystr) :
  In word (map fst eligibility_words) ->
  convert_column P (ObjectSeries [Str word]) = FloatSeries [Num 0].
Proof.
  intros H. cbn [map fst eligibility_words In] in H.
  repeat (destruct H as [<-|H]; [vm_compute; reflexivity|]).
  contradiction.
Qed.

(** C10: on an eligibility table whose column holds the words [yes] and
    [no], [preprocess_df] returns the column as floats that are all [0.0]:
    the general conversion has turned the strings into [NaN] and filled them
    with [0] before the rule of line 106 looks for a column of strings, so
    [yes] is not mapped to [1]. *)
Theorem eligible_words_are_zeroed (P : pandas) :
  preprocess_df P
    [ (py "item_id", IntSeries [101; 102]%Z);
      (py "eligibility", ObjectSeries [Str (py "yes"); Str (py "no")]) ]
    (py "eligibility")
  = Ok [ (py "item_id", ObjectSeries [Str (py "101"); Str (py "102")]);
         (py "eligibility", FloatSeries [Num 0; Num 0]) ].
Proof. vm_compute. reflexivity. Qed.

(** * Further properties *)

(** ** Starting the process *)

(** A start that returns has set both globals; the only call it can make is
    the encoding of the corpus. *)
Lemma initialize_effect (E : env) (w : world) :
  (fst (initialize_rag_components E w) = Ok tt ->
     embedding_model (snd (initialize_rag_components E w)) <> None
     /\ faiss_index (snd (initialize_rag_components E w)) <> None)
  /\ (calls (snd (initialize_rag_components E w)) = calls w
      \/ calls (snd (initialize_rag_components E w))
         = Encode knowledge_base_documents :: calls w).
Proof.
  destruct w as [em fi ct fs cs]. unfold_pipeline.
  repeat (step; try innermost); cbn [fst snd embedding_model faiss_index calls];
    (split; [intros; try discriminate; split; congruence | auto]).
Qed.

Lemma initialize_started (E : env) (w : world) :
  embedding_model w <> None ->
  faiss_index w <> None ->
  initialize_rag_components E w = (Ok tt, w).
Proof.
  destruct w as [[model|] [index|] ct fs cs];
    cbn [embedding_model faiss_index]; try congruence.
  intros _ _. reflexivity.
Qed.

(** X1: a start that succeeds leaves the process started: starting again
    returns at once, changes no global and no file and makes no call. *)
Theorem initialize_twice (E : env) (w : world) :
  fst (initialize_rag_components E w) = Ok tt ->
  initialize_rag_components E (snd (initialize_rag_components E w))
  = (Ok tt, snd (initialize_rag_components E w)).
Proof.
  intros Hok. destruct (proj1 (initialize_effect E w) Hok) as [Hm Hi].
  apply initialize_started; assumption.
Qed.

Lemma initialize_twice_witness :
  fst (initialize_rag_components (test_env (Ok []) empty_db) fresh_world) = Ok tt
  /\ initialize_rag_components (test_env (Ok []) empty_db)
       (snd (initialize_rag_components (test_env (Ok []) empty_db) fresh_world))
     = (Ok tt, snd (initialize_rag_components (test_env (Ok []) empty_db) fresh_world)).
Proof.
  assert (H : fst (initialize_rag_components (test_env (Ok []) empty_db) fresh_world)
              = Ok tt) by reflexivity.
  split; [exact H|].
  exact (initialize_twice (test_env (Ok []) empty_db) fresh_world H).
Defined.

(** X2: when the embedding model cannot be loaded the start raises a
    [RuntimeError] that carries the cause, and leaves every global, the files
    and the calls as they were; a question asked then is answered with that
    message, again with no call made. *)
Theorem model_load_failure (E : env) (w : world) (e : exn) (question : pystr) :
  embedding_model w = None ->
  SentenceTransformer E EMBEDDING_MODEL_NAME = Raise e ->
  initialize_rag_components E w
  = (Raise (mk_exn RuntimeError (py "Could not load embedding model: " ++ exn_str e)), w)
  /\ get_sql_from_question E question w
     = (Ok (py "‚ùå Error generating SQL: "
            ++ py "Could not load embedding model: " ++ exn_str e), w).
Proof.
  destruct w as [em fi ct fs cs]. cbn [embedding_model]. intros -> Hload.
  unfold_pipeline. step. rewrite Hload. step. split; reflexivity.
Qed.

Lemma model_load_failure_witness :
  embedding_model fresh_world = None
  /\ initialize_rag_components
       (mk_env (fun _ => Raise (mk_exn OSError (py "no network"))) (fun _ => Ok [])
               empty_db)
       fresh_world
     = (Raise (mk_exn RuntimeError (py "Could not load embedding model: no network")),
        fresh_world).
Proof.
  split; [reflexivity|].
  exact (proj1 (model_load_failure
                  (mk_env (fun _ => Raise (mk_exn OSError (py "no network")))
                          (fun _ => Ok []) empty_db)
                  fresh_world (mk_exn OSError (py "no network")) [] eq_refl eq_refl)).
Defined.

(** X3: when the encoder fails on the corpus the start raises the encoder's
    exception and writes no artifact; the index stays unset, so that the next
    question starts the process again. *)
Theorem failed_build_writes_nothing (E : env) (w : world) (model : encoder) (e : exn) :
  faiss_index w = None ->
  embedding_model w = Some model ->
  (forall index, lookup FAISS_INDEX_PATH (files w) <> Some (IndexFile index))
  \/ (forall texts, lookup CONTEXT_DATA_PATH (files w) <> Some (JsonFile texts)) ->
  model knowledge_base_documents = Raise e ->
  fst (initialize_rag_components E w) = Raise e
  /\ files (snd (initialize_rag_components E w)) = files w
  /\ faiss_index (snd (initialize_rag_components E w)) = None.
Proof.
  destruct w as [em fi ct fs cs]. cbn [embedding_model faiss_index files].
  intros -> -> Hbad Henc. unfold_pipeline.
  repeat (step; rewrite ?Henc; try innermost);
    cbn [fst snd files faiss_index]; try (repeat split; reflexivity).
  exfalso.
  repeat match goal with H : Some _ = Some _ |- _ => injection H as H; subst end.
  destruct Hbad as [Hbad|Hbad]; [eapply Hbad | eapply Hbad]; reflexivity.
Qed.

Lemma failed_build_writes_nothing_witness :
  faiss_index (mk_world (Some (fun _ => Raise (mk_exn OtherException (py "out of memory"))))
                        None [] [] []) = None
  /\ fst (initialize_rag_components (test_env (Ok []) empty_db)
            (mk_world (Some (fun _ => Raise (mk_exn OtherException (py "out of memory"))))
                      None [] [] []))
     = Raise (mk_exn OtherException (py "out of memory")).
Proof.
  split; [reflexivity|].
  refine (proj1 (failed_build_writes_nothing (test_env (Ok []) empty_db)
            (mk_world (Some (fun _ => Raise (mk_exn OtherException (py "out of memory"))))
                      None [] [] [])
            (fun _ => Raise (mk_exn OtherException (py "out of memory")))
            (mk_exn OtherException (py "out of memory"))
            eq_refl eq_refl (or_introl _) eq_refl)).
  intros index H. discriminate H.
Defined.

(** ** A question in a started process *)

(** The pipeline sends nothing to the database, in any state: the calls it
    adds are encodings, searches and prompts. *)
Lemma pipeline_never_executes (E : env) (question : pystr) (w : world) :
  exists new,
    calls (snd (get_sql_from_question E question w)) = new ++ calls w
    /\ Forall (fun c => forall sql, c <> Execute sql) new.
Proof.
  destruct w as [em fi ct fs cs]. unfold_pipeline.
  repeat (step; try innermost); cbn [fst snd calls]; no_execute.
Qed.

(** X4: once the process is started a question changes neither the
    embedding model, nor the index, nor the documents, nor any file, whatever
    fails on the way; the calls it adds are the encoding of the question, then
    at most one search with [k = 3], then at most one prompt. *)
Theorem question_keeps_started_process
    (E : env) (question : pystr) (w : world) (model : encoder) (index : IndexFlatL2) :
  embedding_model w = Some model ->
  faiss_index w = Some index ->
  let w' := snd (get_sql_from_question E question w) in
  embedding_model w' = Some model
  /\ faiss_index w' = Some index
  /\ context_texts w' = context_texts w
  /\ files w' = files w
  /\ (calls w' = Encode [question] :: calls w
      \/ (exists xq, calls w' = Search xq 3 :: Encode [question] :: calls w)
      \/ (exists xq prompt,
            calls w' = Generate prompt :: Search xq 3 :: Encode [question] :: calls w)).
Proof.
  destruct w as [em fi ct fs cs]. cbn [embedding_model faiss_index context_texts files calls].
  intros -> ->. cbv zeta. unfold_pipeline.
  repeat (step; try innermost);
    cbn [fst snd embedding_model faiss_index context_texts files calls];
    repeat split; eauto.
Qed.

Lemma question_keeps_started_process_witness :
  embedding_model started_world = Some length_encoder
  /\ faiss_index started_world
     = Some (mk_index 1 (map (fun t => [inject_Z (Z.of_nat (length t))])
                             knowledge_base_documents))
  /\ files (snd (get_sql_from_question users_env (py "How many items?") started_world))
     = files started_world.
Proof.
  split; [reflexivity|]. split; [reflexivity|].
  exact (proj1 (proj2 (proj2 (proj2
    (question_keeps_started_process users_env (py "How many items?") started_world
       length_encoder
       (mk_index 1 (map (fun t => [inject_Z (Z.of_nat (length t))])
                        knowledge_base_documents))
       eq_refl eq_refl))))).
Defined.

(** ** The routes *)

(** X5: whatever table name the URL carries, the route
    [/api/data/<table_name>] raises nothing, answers with status 200, 400 or
    500, and sends the database at most one statement, which is
    [SELECT * FROM] one of the three listed tables; for a listed table it
    sends exactly that statement and answers with its rows, or with the
    database's error and status 500. *)
Theorem table_route_statements (E : env) (table_name : pystr) (w : world) :
  (calls (snd (get_table_data E table_name w)) = calls w
   /\ fst (get_table_data E table_name w)
      = Ok (ErrorJson (py "Invalid table name."), 400)
   /\ ~ In table_name VALID_TABLES)
  \/ (In table_name VALID_TABLES
      /\ calls (snd (get_table_data E table_name w))
         = Execute (py "SELECT * FROM " ++ table_name) :: calls w
      /\ fst (get_table_data E table_name w)
         = match execute E (py "SELECT * FROM " ++ table_name) with
           | Ok rows => Ok (RowsJson rows, 200)
           | Raise e => Ok (ErrorJson (exn_str e), 500)
           end).
Proof.
  unfold get_table_data.
  destruct (existsb (pystr_eqb table_name) VALID_TABLES) eqn:Hin; cbn [negb].
  - right. split.
    + apply existsb_exists in Hin. destruct Hin as [t [Ht Heq]].
      apply pystr_eqb_eq in Heq. subst t. exact Ht.
    + unfold try_except, conn_execute, bind, record, lift, ret.
      destruct (execute E (py "SELECT * FROM " ++ table_name)); split; reflexivity.
  - left. repeat split. intros Hc.
    assert (Ht : existsb (pystr_eqb table_name) VALID_TABLES = true).
    { apply existsb_exists. exists table_name. split; [exact Hc|].
      apply pystr_eqb_refl. }
    congruence.
Qed.

(** X6: the route [/api/ask] raises nothing and answers with status 200, 400
    or 500.  It answers 200 only with the question of the request, the string
    the pipeline returned, which does not start with the route's error
    marker, and the rows the database gave for that string.  A request sends
    the database at most one statement, after every call of the pipeline. *)
Theorem ask_answers (E : env) (request_json : result (list (pystr * pystr)))
    (w : world) :
  exists body status,
    fst (ask E request_json w) = Ok (body, status)
    /\ (status = 200 \/ status = 400 \/ status = 500)
    /\ (status = 200 ->
        exists data question sql rows,
          request_json = Ok data
          /\ lookup (py "question") data = Some question
          /\ question <> []
          /\ fst (get_sql_from_question E question w) = Ok sql
          /\ startswith sql (py "❌ Error") = false
          /\ execute E sql = Ok rows
          /\ body = AnswerJson question sql rows)
    /\ (status <> 200 -> exists error, body = ErrorJson error)
    /\ exists new,
         Forall (fun c => forall sql, c <> Execute sql) new
         /\ (calls (snd (ask E request_json w)) = new ++ calls w
             \/ exists sql, calls (snd (ask E request_json w))
                            = Execute sql :: new ++ calls w).
Proof.
  assert (Herr : forall msg status new w',
    status = 400 \/ status = 500 ->
    Forall (fun c => forall sql, c <> Execute sql) new ->
    (calls w' = new ++ calls w \/ exists sql, calls w' = Execute sql :: new ++ calls w) ->
    exists body status0,
      fst (Ok (ErrorJson msg, status), w') = Ok (body, status0)
      /\ (status0 = 200 \/ status0 = 400 \/ status0 = 500)
      /\ (status0 = 200 ->
          exists data question sql rows,
            request_json = Ok data
            /\ lookup (py "question") data = Some question
            /\ question <> []
            /\ fst (get_sql_from_question E question w) = Ok sql
            /\ startswith sql (py "❌ Error") = false
            /\ execute E sql = Ok rows
            /\ body = AnswerJson question sql rows)
      /\ (status0 <> 200 -> exists error, body = ErrorJson error)
      /\ exists new0,
           Forall (fun c => forall sql, c <> Execute sql) new0
           /\ (calls (snd (@Ok response (ErrorJson msg, status), w')) = new0 ++ calls w
               \/ exists sql, calls (snd (@Ok response (ErrorJson msg, status), w'))
                              = Execute sql :: new0 ++ calls w)).
  { intros msg status new w' Hstatus Hnew Hcalls.
    exists (ErrorJson msg), status. cbn [fst snd].
    split; [reflexivity|]. split; [tauto|].
    split; [intros ->; destruct Hstatus; discriminate|].
    split; [intros _; eexists; reflexivity|].
    exists new. split; assumption. }
  rewrite ask_cases.
  destruct request_json as [data|e].
  2: { apply (Herr _ 500 []); [tauto | constructor | left; reflexivity]. }
  destruct (lookup (py "question") data) as [[|c q]|] eqn:Hq.
  1, 3: apply (Herr _ 400 []); [tauto | constructor | left; reflexivity].
  destruct (get_sql_from_question_returns E (c :: q) w) as [sql Hsql].
  destruct (pipeline_never_executes E (c :: q) w) as [new [Hcalls Hnew]].
  destruct (get_sql_from_question E (c :: q) w) as [r w1] eqn:Hrun.
  cbn [fst snd] in Hsql, Hcalls. subst r. cbv zeta.
  destruct (startswith sql (py "❌ Error")) eqn:Hmark.
  - apply (Herr _ 500 new); [tauto | exact Hnew | left; exact Hcalls].
  - destruct (execute E sql) as [rows|e] eqn:Hexec.
    + exists (AnswerJson (c :: q) sql rows), 200. cbn [fst snd calls].
      split; [reflexivity|]. split; [tauto|].
      split; [|split; [congruence|]].
      * intros _. exists data, (c :: q), sql, rows.
        repeat split; try reflexivity; try assumption; try discriminate.
        rewrite Hrun. reflexivity.
      * exists new. split; [exact Hnew|]. right. exists sql. rewrite Hcalls. reflexivity.
    + apply (Herr _ 500 new); [tauto | exact Hnew |].
      right. exists sql. cbn [calls]. rewrite Hcalls. reflexivity.
Qed.

(** ** The SQL extractor, continued *)

Lemma lstrip_with_all (p : N -> bool) (a : pystr) :
  forallb p a = true -> lstrip_with p a = [].
Proof.
  induction a as [|c a IH]; cbn [forallb lstrip_with]; [reflexivity|].
  intros H. apply andb_prop in H. destruct H as [-> H]. apply IH, H.
Qed.

Lemma lstrip_with_skip (p : N -> bool) (a s : pystr) :
  forallb p a = true -> lstrip_with p (a ++ s) = lstrip_with p s.
Proof.
  induction a as [|c a IH]; cbn [forallb lstrip_with app]; [reflexivity|].
  intros H. apply andb_prop in H. destruct H as [-> H]. apply IH, H.
Qed.

Lemma rstrip_with_skip (p : N -> bool) (s b : pystr) :
  forallb p b = true -> rstrip_with p (s ++ b) = rstrip_with p s.
Proof.
  intros H. unfold rstrip_with. rewrite rev_app_distr, lstrip_with_skip; [reflexivity|].
  rewrite forallb_forall in *. intros x Hx. apply H, in_rev, Hx.
Qed.

Lemma rstrip_with_all (p : N -> bool) (b : pystr) :
  forallb p b = true -> rstrip_with p b = [].
Proof.
  intros H. rewrite <- (app_nil_l b). rewrite rstrip_with_skip by exact H. reflexivity.
Qed.

(** Characters to strip around a string do not change what is left. *)
Lemma strip_with_pad (p : N -> bool) (a s b : pystr) :
  forallb p a = true -> forallb p b = true ->
  strip_with p (a ++ s ++ b) = strip_with p s.
Proof.
  intros Ha Hb. unfold strip_with. rewrite lstrip_with_skip by exact Ha.
  induction s as [|c s IH]; cbn [app lstrip_with].
  - rewrite lstrip_with_all by exact Hb. reflexivity.
  - destruct (p c); [exact IH|].
    change (c :: s ++ b) with ((c :: s) ++ b). apply rstrip_with_skip, Hb.
Qed.

Lemma lstrip_with_head (p : N -> bool) (s : pystr) (c : N) (r : pystr) :
  lstrip_with p s = c :: r -> p c = false.
Proof.
  induction s as [|x s IH]; cbn [lstrip_with]; [discriminate|].
  destruct (p x) eqn:Hx; [exact IH|]. intros H. injection H as <- _. exact Hx.
Qed.

Lemma rstrip_with_prefix (p : N -> bool) (s : pystr) :
  exists b, s = rstrip_with p s ++ b.
Proof.
  unfold rstrip_with. destruct (lstrip_with_suffix p (rev s)) as [a Ha].
  exists (rev a). rewrite <- rev_app_distr, <- Ha, rev_involutive. reflexivity.
Qed.

Lemma rstrip_with_last (p : N -> bool) (s r : pystr) (c : N) :
  rstrip_with p s = r ++ [c] -> p c = false.
Proof.
  unfold rstrip_with. intros H.
  apply (f_equal (@rev N)) in H. rewrite rev_involutive, rev_app_distr in H.
  cbn [rev app] in H. eapply lstrip_with_head, H.
Qed.

(** What [strip] leaves has none of the stripped characters at its ends. *)
Lemma strip_with_ends (p : N -> bool) (s : pystr) : ends_outside p (strip_with p s).
Proof.
  unfold strip_with. split; intros c r H.
  - destruct (rstrip_with_prefix p (lstrip_with p s)) as [b Hb].
    rewrite H in Hb. cbn [app] in Hb. eapply lstrip_with_head, Hb.
  - eapply rstrip_with_last, H.
Qed.

(** A string with none of the characters at its ends is left as it is. *)
Lemma strip_with_fixed (p : N -> bool) (s : pystr) :
  ends_outside p s -> strip_with p s = s.
Proof.
  intros [Hhead Hlast]. unfold strip_with.
  assert (Hl : lstrip_with p s = s).
  { destruct s as [|c r]; [reflexivity|]. cbn [lstrip_with].
    rewrite (Hhead c r eq_refl). reflexivity. }
  rewrite Hl. unfold rstrip_with.
  destruct (rev s) as [|c r] eqn:Hrev.
  - apply (f_equal (@rev N)) in Hrev. rewrite rev_involutive in Hrev. subst s. reflexivity.
  - cbn [lstrip_with].
    assert (Hs : s = rev r ++ [c]).
    { apply (f_equal (@rev N)) in Hrev. rewrite rev_involutive in Hrev. exact Hrev. }
    rewrite (Hlast c (rev r) Hs). cbn [rev]. symmetry. exact Hs.
Qed.

Lemma ends_outside_weaken (p p' : N -> bool) (s : pystr) :
  (forall c, p' c = true -> p c = true) ->
  ends_outside p s -> ends_outside p' s.
Proof.
  intros Hsub [Hhead Hlast]. split; intros c r H.
  - destruct (p' c) eqn:Hc; [|reflexivity].
    apply Hsub in Hc. rewrite (Hhead c r H) in Hc. discriminate.
  - destruct (p' c) eqn:Hc; [|reflexivity].
    apply Hsub in Hc. rewrite (Hlast c r H) in Hc. discriminate.
Qed.

(** X7: what the extractor returns neither starts nor ends with a
    whitespace character, and is a run of consecutive characters of the
    response. *)
Theorem extract_sql_is_trimmed (text : pystr) :
  ends_outside is_space (extract_sql text) /\ infix (extract_sql text) text.
Proof.
  split; [|apply extract_sql_infix].
  unfold extract_sql, strip. apply strip_with_ends.
Qed.

(** X8: a response whose first and last characters, whitespace apart, are
    none of the backquote, s, q and l is returned as [strip()] leaves it:
    the statement inside is not touched. *)
Theorem extract_sql_safe (text : pystr) :
  ends_outside (in_chars (py "```sql")) (strip text) ->
  extract_sql text = strip text.
Proof.
  intros Hends. unfold extract_sql, strip_chars.
  fold (in_chars (py "```sql")). fold (in_chars (py "```")).
  rewrite (strip_with_fixed (in_chars (py "```sql")) _ Hends).
  rewrite (strip_with_fixed (in_chars (py "```"))).
  - unfold strip at 1. apply strip_with_fixed. unfold strip. apply strip_with_ends.
  - eapply ends_outside_weaken; [|exact Hends].
    intros c Hc. unfold in_chars in *. apply existsb_exists in Hc.
    destruct Hc as [x [Hx Hcx]]. apply existsb_exists. exists x. split; [|exact Hcx].
    vm_compute in Hx. vm_compute. tauto.
Qed.

Lemma ends_of_wrapped (p : N -> bool) (c e : N) (m : pystr) :
  p c = false -> p e = false -> ends_outside p (c :: m ++ [e]).
Proof.
  intros Hc He. split; intros x r H.
  - injection H as <- _. exact Hc.
  - change (c :: m ++ [e]) with ((c :: m) ++ [e]) in H.
    apply app_inj_tail in H. destruct H as [_ <-]. exact He.
Qed.

Lemma extract_sql_safe_witness :
  ends_outside (in_chars (py "```sql")) (strip (py " SELECT COUNT(*) FROM ad_data;\n"))
  /\ extract_sql (py " SELECT COUNT(*) FROM ad_data;\n")
     = strip (py " SELECT COUNT(*) FROM ad_data;\n").
Proof.
  assert (H : ends_outside (in_chars (py "```sql"))
                (strip (py " SELECT COUNT(*) FROM ad_data;\n"))).
  { assert (Hs : strip (py " SELECT COUNT(*) FROM ad_data;\n")
                 = 83%N :: py "ELECT COUNT(*) FROM ad_data" ++ [59%N])
      by (vm_compute; reflexivity).
    rewrite Hs. apply ends_of_wrapped; vm_compute; reflexivity. }
  split; [exact H|].
  exact (extract_sql_safe (py " SELECT COUNT(*) FROM ad_data;\n") H).
Defined.

(** X9: a statement between the fence lines [```sql] and [```] is returned
    exactly, whenever it neither starts nor ends with whitespace. *)
Theorem extract_sql_fenced (sql : pystr) :
  ends_outside is_space sql ->
  extract_sql (py "```sql\n" ++ sql ++ py "\n```") = sql.
Proof.
  intros Hsql. unfold extract_sql, strip, strip_chars.
  fold (in_chars (py "```sql")). fold (in_chars (py "```")).
  assert (Hopen : py "```sql\n" = py "```sql" ++ [10%N]) by (vm_compute; reflexivity).
  assert (Hclose : py "\n```" = [10%N] ++ py "```") by (vm_compute; reflexivity).
  set (body := [10%N] ++ sql ++ [10%N]).
  assert (Htext : py "```sql\n" ++ sql ++ py "\n```" = py "```sql" ++ body ++ py "```").
  { subst body. rewrite Hopen, Hclose, <- !app_assoc. reflexivity. }
  assert (Hbody : forall p, p 10%N = false -> strip_with p body = body).
  { intros p Hp. apply strip_with_fixed. subst body. apply ends_of_wrapped; exact Hp. }
  assert (Hspace : strip_with is_space (py "```sql" ++ body ++ py "```")
                   = py "```sql" ++ body ++ py "```").
  { apply strip_with_fixed.
    assert (Hs : py "```sql" ++ body ++ py "```"
                 = 96%N :: (py "``sql" ++ body ++ py "``") ++ [96%N]).
    { assert (H1 : py "```sql" = 96%N :: py "``sql") by (vm_compute; reflexivity).
      assert (H2 : py "```" = py "``" ++ [96%N]) by (vm_compute; reflexivity).
      rewrite H1, H2, <- !app_assoc. reflexivity. }
    rewrite Hs. apply ends_of_wrapped; vm_compute; reflexivity. }
  rewrite Htext, Hspace.
  rewrite (strip_with_pad (in_chars (py "```sql")))
    by (vm_compute; reflexivity).
  rewrite (Hbody (in_chars (py "```sql"))) by (vm_compute; reflexivity).
  rewrite (Hbody (in_chars (py "```"))) by (vm_compute; reflexivity).
  subst body.
  rewrite (strip_with_pad is_space) by (vm_compute; reflexivity).
  apply strip_with_fixed, Hsql.
Qed.

Lemma extract_sql_fenced_witness :
  ends_outside is_space (py "SELECT 1;")
  /\ extract_sql (py "```sql\n" ++ py "SELECT 1;" ++ py "\n```") = py "SELECT 1;".
Proof.
  assert (H : ends_outside is_space (py "SELECT 1;")).
  { assert (Hs : py "SELECT 1;" = 83%N :: py "ELECT 1" ++ [59%N])
      by (vm_compute; reflexivity).
    rewrite Hs. apply ends_of_wrapped; vm_compute; reflexivity. }
  split; [exact H|]. exact (extract_sql_fenced (py "SELECT 1;") H).
Defined.

(** ** Fewer documents than [k] *)

Lemma getitem_in_range {A : Type} (l : list A) (i : Z) (d : A) :
  (0 <= i < Z.of_nat (length l))%Z ->
  getitem l i = Ok (nth (Z.to_nat i) l d).
Proof.
  intros Hi. unfold getitem.
  destruct (Z.ltb_spec i 0) as [Hneg|_]; [lia|].
  destruct (Z.leb_spec 0 i) as [_|Hneg]; [|lia].
  destruct (Z.ltb_spec i (Z.of_nat (length l))) as [_|Hbig]; [|lia].
  cbn [andb].
  rewrite (nth_error_nth' l d) by lia. reflexivity.
Qed.

(** The label [-1] of a padding entry reads the last element of a list that
    is not empty. *)
Lemma getitem_minus_one {A : Type} (l : list A) (d : A) :
  l <> [] -> getitem l (-1) = Ok (last l d).
Proof.
  intros Hne. unfold getitem.
  assert (Hlen : (0 < length l)%nat) by (destruct l; [congruence | cbn; lia]).
  change (-1 <? 0)%Z with true. cbv iota.
  destruct (Z.leb_spec 0 (-1 + Z.of_nat (length l))) as [_|Hneg]; [|lia].
  destruct (Z.ltb_spec (-1 + Z.of_nat (length l)) (Z.of_nat (length l))) as [_|Hbig];
    [|lia].
  cbn [andb].
  replace (Z.to_nat (-1 + Z.of_nat (length l))) with (length l - 1)%nat by lia.
  rewrite (nth_error_nth' l d) by lia.
  destruct (exists_last Hne) as [l' [a ->]].
  rewrite last_last, length_app, app_nth2 by (cbn; lia).
  cbn [length]. replace (length l' + 1 - 1 - length l')%nat with 0%nat by lia.
  reflexivity.
Qed.

Lemma getitem_empty {A : Type} (i : Z) :
  getitem (@nil A) i = Raise (mk_exn IndexError (py "list index out of range")).
Proof.
  unfold getitem. cbn [length Z.of_nat].
  destruct (i <? 0)%Z;
    [destruct ((0 <=? i + 0) && (i + 0 <? 0))%Z eqn:H
    |destruct ((0 <=? i) && (i <? 0))%Z eqn:H]; try reflexivity;
    apply andb_prop in H; destruct H as [H1 H2];
    apply Z.leb_le in H1; apply Z.ltb_lt in H2; lia.
Qed.

(** X10: with fewer than three stored vectors and a list of documents that
    is not empty and names each of them, the prompt is assembled without an
    error: its block lists the stored documents by ascending distance and
    then, for each padding label [-1], the last document of the list once
    more. *)
Theorem short_corpus_repeats_last_document
    (index : IndexFlatL2) (q : vec) (texts : list pystr) (question : pystr) :
  (ntotal index < 3)%nat ->
  (ntotal index <= length texts)%nat ->
  texts <> [] ->
  build_prompt texts (map fst (search_row index q 3)) question
  = Ok (template_head
        ++ context_block
             (map (fun p => nth (Z.to_nat (fst p)) texts [])
                  (sort_by_distance (distances_to index q))
              ++ repeat (last texts []) (3 - ntotal index))
        ++ template_tail
        ++ py "\n\nUser Question: " ++ question ++ py "\nSQL Query:").
Proof.
  intros Hshort Hnamed Hne.
  rewrite (search_row_short index q 3) by lia.
  set (found := sort_by_distance (distances_to index q)).
  assert (Hdocs : Forall2 (fun idx doc => getitem texts idx = Ok doc)
                    (map fst (found ++ repeat padding (3 - ntotal index)))
                    (map (fun p => nth (Z.to_nat (fst p)) texts []) found
                     ++ repeat (last texts []) (3 - ntotal index))).
  { rewrite map_app. apply Forall2_app.
    - pose proof (sorted_real index q) as Hreal. fold found in Hreal.
      induction Hreal as [|p l [v [Hrange _]] _ IH]; cbn [map]; constructor.
      + apply getitem_in_range. lia.
      + exact IH.
    - induction (3 - ntotal index)%nat as [|n IH]; cbn [repeat map]; constructor.
      + apply getitem_minus_one, Hne.
      + exact IH. }
  unfold build_prompt.
  rewrite (add_retrieved_ok texts _ _ Hdocs). cbn [and_then].
  rewrite format_template. cbn [and_then]. unfold context_block.
  rewrite <- !app_assoc. reflexivity.
Qed.

Lemma short_corpus_repeats_last_document_witness :
  (ntotal two_vectors < 3)%nat
  /\ (ntotal two_vectors <= length [py "first"; py "second"])%nat
  /\ build_prompt [py "first"; py "second"] (map fst (search_row two_vectors [0%Q] 3))
                  (py "q")
     = Ok (template_head
           ++ context_block
                (map (fun p => nth (Z.to_nat (fst p)) [py "first"; py "second"] [])
                     (sort_by_distance (distances_to two_vectors [0%Q]))
                 ++ repeat (last [py "first"; py "second"] []) (3 - ntotal two_vectors))
           ++ template_tail
           ++ py "\n\nUser Question: " ++ py "q" ++ py "\nSQL Query:").
Proof.
  split; [apply le_n|]. split; [apply le_n|].
  refine (short_corpus_repeats_last_document two_vectors [0%Q]
            [py "first"; py "second"] (py "q") (le_n 3) (le_n 2) _).
  discriminate.
Defined.

Lemma getitem_out_of_range {A : Type} (l : list A) (i : Z) :
  ~ (- Z.of_nat (length l) <= i < Z.of_nat (length l))%Z ->
  getitem l i = Raise (mk_exn IndexError (py "list index out of range")).
Proof.
  intros Hout. unfold getitem.
  destruct (Z.ltb_spec i 0) as [Hneg|Hpos].
  - destruct (Z.leb_spec 0 (i + Z.of_nat (length l))) as [H1|H1]; [lia|]. reflexivity.
  - destruct (Z.ltb_spec i (Z.of_nat (length l))) as [H1|H1]; [lia|].
    rewrite andb_false_r. reflexivity.
Qed.

Lemma getitem_cases {A : Type} (l : list A) (i : Z) :
  (exists x, getitem l i = Ok x)
  \/ getitem l i = Raise (mk_exn IndexError (py "list index out of range")).
Proof.
  unfold getitem.
  destruct ((0 <=? (if (i <? 0)%Z then (i + Z.of_nat (length l))%Z else i))%Z
            && ((if (i <? 0)%Z then (i + Z.of_nat (length l))%Z else i)
                <? Z.of_nat (length l))%Z); [|right; reflexivity].
  destruct (nth_error l _); [left; eexists; reflexivity | right; reflexivity].
Qed.

Lemma add_retrieved_out_of_range (texts : list pystr) (indices : list Z) (idx : Z) :
  In idx indices ->
  ~ (- Z.of_nat (length texts) <= idx < Z.of_nat (length texts))%Z ->
  forall acc,
    add_retrieved texts indices acc
    = Raise (mk_exn IndexError (py "list index out of range")).
Proof.
  intros Hin Hout. induction indices as [|i rest IH]; [destruct Hin|].
  intros acc. cbn [add_retrieved].
  destruct (getitem_cases texts i) as [[doc Hdoc]|Hraise].
  - rewrite Hdoc. cbn [and_then]. destruct Hin as [->|Hin].
    + rewrite getitem_out_of_range in Hdoc by exact Hout. discriminate.
    + apply IH, Hin.
  - rewrite Hraise. reflexivity.
Qed.

(** X11: in a started process, when a label of the search names no
    document of the list, as happens when the loaded list is shorter than
    the loaded index or is empty, the question is answered with the error
    string of an [IndexError] and no prompt is sent to the generative
    model. *)
Theorem unnamed_document_answers_index_error
    (E : env) (w : world) (model : encoder) (index : IndexFlatL2)
    (question : pystr) (qv : vec) (idx : Z) :
  embedding_model w = Some model ->
  faiss_index w = Some index ->
  model [question] = Ok [qv] ->
  length qv = d index ->
  In idx (map fst (search_row index qv 3)) ->
  ~ (- Z.of_nat (length (context_texts w)) <= idx
     < Z.of_nat (length (context_texts w)))%Z ->
  fst (get_sql_from_question E question w)
  = Ok (py "‚ùå Error generating SQL: " ++ py "list index out of range")
  /\ calls (snd (get_sql_from_question E question w))
     = Search [qv] 3 :: Encode [question] :: calls w.
Proof.
  destruct w as [em fi ct fs cs].
  cbn [embedding_model faiss_index context_texts calls].
  intros -> -> Henc Hdim Hin Hout.
  unfold get_sql_from_question, generate_sql, index_search, model_generate_content.
  step. rewrite Henc. step. rewrite (search_one index qv 3 Hdim). step.
  cbn [getitem length Z.of_nat Z.ltb Z.leb Z.compare andb Z.to_nat nth_error
       Pos.of_succ_nat Pos.compare Pos.compare_cont].
  unfold build_prompt.
  rewrite (add_retrieved_out_of_range ct _ idx Hin Hout). cbn [and_then]. step.
  split; reflexivity.
Qed.

Lemma unnamed_document_answers_index_error_witness :
  In 1%Z (map fst (search_row two_vectors [0%Q] 3))
  /\ fst (get_sql_from_question users_env (py "q")
            (mk_world (Some (fun _ => Ok [[0%Q]])) (Some two_vectors)
                      [py "Table: sales_summary"] [] []))
     = Ok (py "‚ùå Error generating SQL: " ++ py "list index out of range").
Proof.
  assert (Hin : In 1%Z (map fst (search_row two_vectors [0%Q] 3)))
    by (left; reflexivity).
  split; [exact Hin|].
  refine (proj1 (unnamed_document_answers_index_error users_env
                   (mk_world (Some (fun _ => Ok [[0%Q]])) (Some two_vectors)
                             [py "Table: sales_summary"] [] [])
                   (fun _ => Ok [[0%Q]]) two_vectors (py "q") [0%Q] 1%Z
                   eq_refl eq_refl eq_refl eq_refl Hin _)).
  cbn [context_texts length Z.of_nat]. lia.
Defined.

(** ** The ask button and the chat history *)

(** X12: a press of the ask button with a question that is not blank adds
    one entry to the chat history, with the question as typed, the SQL that
    was executed and its rows, and clears the input, exactly when the route
    answers 200; when the route answers with an error the session is left
    as it was. *)
Theorem ask_button_history (E : env) (answer_text : option (list row) -> pystr)
    (question : pystr) (st : session_state) (w : world) :
  strip question <> [] ->
  (exists sql rows,
      fst (ask E (Ok [(py "question", question)]) w)
      = Ok (AnswerJson question sql rows, 200)
      /\ fst (ask_button_pressed E answer_text question st w)
         = Ok (st_success (AnswerJson question sql rows),
               mk_session
                 (chat_history st
                    ++ [mk_chat question (answer_text (Some rows)) sql (Some rows)])
                 []))
  \/ (exists error status,
         fst (ask E (Ok [(py "question", question)]) w) = Ok (ErrorJson error, status)
         /\ fst (ask_button_pressed E answer_text question st w)
            = Ok (st_error (py "❌ " ++ error), st)).
Proof.
  intros Hq. unfold ask_button_pressed.
  destruct (strip question) as [|c r] eqn:Hs; [congruence|]. cbn [is_empty].
  unfold bind. rewrite ask_cases. cbn [lookup]. rewrite pystr_eqb_refl.
  destruct question as [|c0 q0]; [discriminate Hs|].
  destruct (get_sql_from_question E (c0 :: q0) w) as [[sql|e] w1]; cbv zeta.
  - destruct (startswith sql (py "❌ Error")).
    + right. eexists _, _. split; reflexivity.
    + destruct (execute E sql) as [rows|e].
      * left. exists sql, rows. split; reflexivity.
      * right. eexists _, _. split; reflexivity.
  - right. eexists _, _. split; reflexivity.
Qed.

Lemma ask_button_history_witness :
  strip (py "Show all users") <> []
  /\ exists sql rows,
       fst (ask_button_pressed users_env (fun _ => []) (py "Show all users")
              (mk_session [] (py "Show all users")) fresh_world)
       = Ok (st_success (AnswerJson (py "Show all users") sql rows),
             mk_session [mk_chat (py "Show all users") [] sql (Some rows)] []).
Proof.
  assert (H : strip (py "Show all users") <> []) by (vm_compute; discriminate).
  split; [exact H|].
  destruct (ask_button_history users_env (fun _ => []) (py "Show all users")
              (mk_session [] (py "Show all users")) fresh_world H)
    as [[sql [rows [_ Hst]]] | [error [status [Hask _]]]].
  - exists sql, rows. exact Hst.
  - vm_compute in Hask. discriminate Hask.
Defined.

Lemma pressed_keeps_well_asked (E : env) (answer_text : option (list row) -> pystr)
    (p : press) (st : session_state) (w : world) :
  Forall well_asked (chat_history st) ->
  exists st', fst (pressed E answer_text p st w) = Ok st'
              /\ Forall well_asked (chat_history st').
Proof.
  intros Hst. destruct p as [question|]; cbn [pressed].
  2: { exists (clear_history_pressed st). split; [reflexivity | constructor]. }
  unfold ask_button_pressed.
  destruct (strip question) as [|c r] eqn:Hs; cbn [is_empty].
  { exists st. split; [reflexivity | exact Hst]. }
  unfold bind. rewrite ask_cases. cbn [lookup]. rewrite pystr_eqb_refl.
  destruct question as [|c0 q0]; [discriminate Hs|].
  destruct (get_sql_from_question E (c0 :: q0) w) as [[sql|e] w1]; cbv zeta;
    try (exists st; split; [reflexivity | exact Hst]).
  destruct (startswith sql (py "❌ Error")) eqn:Hmark;
    try (exists st; split; [reflexivity | exact Hst]).
  destruct (execute E sql) as [rows|e];
    try (exists st; split; [reflexivity | exact Hst]).
  eexists. split; [reflexivity|]. cbn [ret fst snd chat_history].
  apply Forall_app. split; [exact Hst|].
  constructor; [|constructor]. split; cbn [chat_question chat_sql].
  - rewrite Hs. discriminate.
  - exact Hmark.
Qed.

(** X13: over any sequence of presses of the two buttons the page raises
    nothing, and every entry of the chat history keeps a question that is not
    blank and an SQL string that does not start with the route's error
    marker. *)
Theorem chat_history_invariant (E : env) (answer_text : option (list row) -> pystr)
    (ps : list press) (st : session_state) (w : world) :
  Forall well_asked (chat_history st) ->
  exists st', fst (presses E answer_text ps st w) = Ok st'
              /\ Forall well_asked (chat_history st').
Proof.
  revert st w. induction ps as [|p ps IH]; intros st w Hst; cbn [presses].
  - exists st. split; [reflexivity | exact Hst].
  - unfold bind.
    destruct (pressed_keeps_well_asked E answer_text p st w Hst) as [st1 [Hp Hst1]].
    destruct (pressed E answer_text p st w) as [r w1]. cbn [fst] in Hp. subst r.
    apply IH, Hst1.
Qed.

Lemma chat_history_invariant_witness :
  Forall well_asked (chat_history (mk_session [] []))
  /\ exists st',
       fst (presses users_env (fun _ => [])
              [AskBot (py "Show all users"); AskBot (py "  "); ClearHistory]
              (mk_session [] []) fresh_world) = Ok st'
       /\ Forall well_asked (chat_history st').
Proof.
  split; [constructor|].
  exact (chat_history_invariant users_env (fun _ => [])
           [AskBot (py "Show all users"); AskBot (py "  "); ClearHistory]
           (mk_session [] []) fresh_world (Forall_nil well_asked)).
Defined.

(** ** The visual creator *)

Lemma contains_In (l : list pystr) (s : pystr) : contains l s = true <-> In s l.
Proof.
  unfold contains. rewrite existsb_exists. split.
  - intros [x [Hx Heq]]. apply pystr_eqb_eq in Heq. subst x. exact Hx.
  - intros H. exists s. split; [exact H | apply pystr_eqb_refl].
Qed.

Lemma pystr_eqb_neq (a b : pystr) : a <> b -> pystr_eqb a b = false.
Proof.
  intros H. destruct (pystr_eqb a b) eqn:E; [|reflexivity].
  apply pystr_eqb_eq in E. congruence.
Qed.

(** X14: the chart button draws only for a selected chart type and a
    y-axis that is a numeric column; a scatter plot needs a numeric x-axis
    as well, and bar, line, pie, box and treemap charts need some x-axis. *)
Theorem drawn_chart_has_numeric_y (numerics : list pystr) (chart_type x_axis y_axis : pystr) :
  generate_chart numerics chart_type x_axis y_axis = DrawChart ->
  chart_type <> CHART_TYPE_PLACEHOLDER
  /\ y_axis <> Y_AXIS_PLACEHOLDER
  /\ In y_axis numerics
  /\ (chart_type = py "Scatter Plot" -> x_axis <> X_AXIS_PLACEHOLDER /\ In x_axis numerics)
  /\ (In chart_type [py "Bar Chart"; py "Line Chart"; py "Pie Chart"; py "Box Plot";
                     py "Treemap"] -> x_axis <> X_AXIS_PLACEHOLDER).
Proof.
  unfold generate_chart.
  destruct (pystr_eqb chart_type CHART_TYPE_PLACEHOLDER) eqn:Hct; [discriminate|].
  destruct (pystr_eqb y_axis Y_AXIS_PLACEHOLDER) eqn:Hy;
    destruct (contains numerics y_axis) eqn:Hny;
    destruct (pystr_eqb chart_type (py "Histogram")) eqn:Hh;
    cbn [negb orb andb]; try discriminate.
  - destruct (contains [py "Bar Chart"; py "Line Chart"; py "Pie Chart"; py "Box Plot";
                        py "Treemap"] chart_type) eqn:Hx;
      destruct (pystr_eqb x_axis X_AXIS_PLACEHOLDER) eqn:Hxp;
      destruct (pystr_eqb chart_type (py "Scatter Plot")) eqn:Hsc;
      destruct (contains numerics x_axis) eqn:Hnx;
      cbn [negb orb andb]; try discriminate; intros _;
      (split; [intros ->; rewrite pystr_eqb_refl in Hct; discriminate|]);
      (split; [intros ->; rewrite pystr_eqb_refl in Hy; discriminate|]);
      (split; [apply contains_In, Hny|]);
      (split;
       [intros Hsp; try (rewrite Hsp, pystr_eqb_refl in Hsc; discriminate);
        apply pystr_eqb_eq in Hh; try (rewrite Hh in Hsp; vm_compute in Hsp; discriminate)
       |intros Hin; try (apply contains_In in Hin; congruence)]).
    all: try (intros ->; rewrite pystr_eqb_refl in Hxp; discriminate).
    all: try (split; [intros ->; rewrite pystr_eqb_refl in Hxp; discriminate
                     | apply contains_In; assumption]).
  - destruct (contains [py "Bar Chart"; py "Line Chart"; py "Pie Chart"; py "Box Plot";
                        py "Treemap"] chart_type) eqn:Hx;
      destruct (pystr_eqb x_axis X_AXIS_PLACEHOLDER) eqn:Hxp;
      destruct (pystr_eqb chart_type (py "Scatter Plot")) eqn:Hsc;
      destruct (contains numerics x_axis) eqn:Hnx;
      cbn [negb orb andb]; try discriminate; intros _;
      (split; [intros ->; rewrite pystr_eqb_refl in Hct; discriminate|]);
      (split; [intros ->; rewrite pystr_eqb_refl in Hy; discriminate|]);
      (split; [apply contains_In, Hny|]);
      (split;
       [intros Hsp; try (rewrite Hsp, pystr_eqb_refl in Hsc; discriminate)
       |intros Hin; try (apply contains_In in Hin; congruence)]).
    all: try (intros ->; rewrite pystr_eqb_refl in Hxp; discriminate).
    all: try (split; [intros ->; rewrite pystr_eqb_refl in Hxp; discriminate
                     | apply contains_In; assumption]).
Qed.

(** X15: when no column carries the name of a placeholder, every chart
    type the selector offers for the chosen axes passes the checks of the
    chart button, and plotly has a function for it; matplotlib plots it
    unless it is a pie chart, a treemap, or a bar chart over an x-axis that
    is not categorical. *)
Theorem offered_chart_is_drawn
    (categories datetimes numerics : list pystr) (x_axis y_axis : pystr)
    (unique_x : nat) (chart_type : pystr) :
  ~ In X_AXIS_PLACEHOLDER (categories ++ datetimes ++ numerics) ->
  ~ In Y_AXIS_PLACEHOLDER numerics ->
  In chart_type
     (chart_type_options categories datetimes numerics x_axis y_axis unique_x) ->
  chart_type <> CHART_TYPE_PLACEHOLDER ->
  generate_chart numerics chart_type x_axis y_axis = DrawChart
  /\ plotly_call chart_type (contains categories x_axis) (contains numerics x_axis)
                 (contains numerics y_axis) <> None
  /\ matplotlib_plots chart_type (contains categories x_axis) (contains datetimes x_axis)
                      (contains numerics x_axis) (contains numerics y_axis)
     = negb (pystr_eqb chart_type (py "Pie Chart")
             || pystr_eqb chart_type (py "Treemap")
             || (pystr_eqb chart_type (py "Bar Chart")
                 && negb (contains categories x_axis))).
Proof.
  intros Hxcols Hycols Hin Hct.
  unfold chart_type_options in Hin.
  destruct (contains numerics y_axis) eqn:Hny.
  2: { cbn [app In] in Hin. destruct Hin as [Hin|[]]. congruence. }
  assert (Hy : pystr_eqb y_axis Y_AXIS_PLACEHOLDER = false).
  { apply pystr_eqb_neq. intros ->. apply Hycols, contains_In, Hny. }
  assert (Hx : contains categories x_axis || contains datetimes x_axis
               || contains numerics x_axis = true ->
               pystr_eqb x_axis X_AXIS_PLACEHOLDER = false).
  { intros H. apply pystr_eqb_neq. intros ->. apply Hxcols.
    rewrite !in_app_iff, <- !contains_In.
    destruct (contains categories X_AXIS_PLACEHOLDER),
             (contains datetimes X_AXIS_PLACEHOLDER),
             (contains numerics X_AXIS_PLACEHOLDER); cbn in H; auto; discriminate. }
  unfold generate_chart, plotly_call, matplotlib_plots. rewrite Hy, Hny.
  destruct (contains categories x_axis) eqn:Hxc;
    destruct (contains datetimes x_axis) eqn:Hxd;
    destruct (contains numerics x_axis) eqn:Hxn;
    destruct (Nat.leb unique_x 20);
    cbn [orb andb app In] in Hin;
    try (rewrite (Hx eq_refl));
    repeat (destruct Hin as [Hin|Hin]; [try congruence |]);
    try contradiction;
    try (subst chart_type; chart_names; cbn [negb orb andb];
         repeat split; try reflexivity; discriminate).
Qed.

Lemma offered_chart_is_drawn_witness :
  ~ In X_AXIS_PLACEHOLDER ([py "item_id"] ++ [] ++ [py "total_sales"])
  /\ In (py "Pie Chart")
        (chart_type_options [py "item_id"] [] [py "total_sales"]
           (py "item_id") (py "total_sales") 5)
  /\ generate_chart [py "total_sales"] (py "Pie Chart") (py "item_id") (py "total_sales")
     = DrawChart.
Proof.
  assert (Hx : ~ In X_AXIS_PLACEHOLDER ([py "item_id"] ++ [] ++ [py "total_sales"])).
  { intros H. vm_compute in H. intuition discriminate. }
  assert (Hy : ~ In Y_AXIS_PLACEHOLDER [py "total_sales"]).
  { intros H. vm_compute in H. intuition discriminate. }
  assert (Hin : In (py "Pie Chart")
                   (chart_type_options [py "item_id"] [] [py "total_sales"]
                      (py "item_id") (py "total_sales") 5)).
  { vm_compute. tauto. }
  assert (Hct : py "Pie Chart" <> CHART_TYPE_PLACEHOLDER) by (vm_compute; discriminate).
  split; [exact Hx|]. split; [exact Hin|].
  exact (proj1 (offered_chart_is_drawn [py "item_id"] [] [py "total_sales"]
                  (py "item_id") (py "total_sales") 5 (py "Pie Chart") Hx Hy Hin Hct)).
Defined.

Lemma drawn_chart_has_numeric_y_witness :
  generate_chart [py "ad_spend"; py "clicks"] (py "Scatter Plot") (py "clicks")
                 (py "ad_spend") = DrawChart
  /\ In (py "ad_spend") [py "ad_spend"; py "clicks"].
Proof.
  assert (H : generate_chart [py "ad_spend"; py "clicks"] (py "Scatter Plot")
                (py "clicks") (py "ad_spend") = DrawChart) by (vm_compute; reflexivity).
  split; [exact H|].
  exact (proj1 (proj2 (proj2 (drawn_chart_has_numeric_y [py "ad_spend"; py "clicks"]
                                (py "Scatter Plot") (py "clicks") (py "ad_spend") H)))).
Defined.

Lemma viz_convert_column_kind (P : pandas) (s : series) :
  is_object (viz_convert_column P s) = false
  /\ is_datetime (viz_convert_column P s) = false.
Proof.
  unfold viz_convert_column.
  destruct s as [v|v|v|v|v]; cbn [is_object to_numeric is_datetime]; try (split; reflexivity).
  destruct (to_numeric_strings_kind P (map (remove_chars (py "₹$,% "))
                                           (astype_str P (ObjectSeries v))))
    as [[x [-> _]]|[x [-> _]]]; split; reflexivity.
Qed.

(** X16: after the conversions of the visual creator no column is a
    datetime column, and the only column that can be offered as a category
    is [item_id]: every column of strings has been read as numbers. *)
Theorem only_item_id_is_categorical (P : pandas) (df : dataframe) :
  (forall name, In name (category_cols (viz_convert P df)) -> name = py "item_id")
  /\ datetime_cols (viz_convert P df) = [].
Proof.
  unfold category_cols, datetime_cols, columns_where, viz_convert. split.
  - intros name Hin. apply in_map_iff in Hin. destruct Hin as [c [<- Hc]].
    apply filter_In in Hc. destruct Hc as [Hc Hkind].
    apply andb_prop in Hkind. destruct Hkind as [Hobj _].
    apply in_map_iff in Hc. destruct Hc as [c1 [<- Hc1]].
    apply in_map_iff in Hc1. destruct Hc1 as [c0 [<- _]]. cbn [fst snd] in *.
    destruct (pystr_eqb (fst c0) (py "item_id")) eqn:Hname; cbn [andb] in *.
    + destruct (is_numeric_dtype (viz_convert_column P (snd c0)));
        cbn [fst]; apply pystr_eqb_eq, Hname.
    + cbn [snd] in Hobj.
      rewrite (proj1 (viz_convert_column_kind P (snd c0))) in Hobj. discriminate.
  - induction df as [|c0 df IH]; cbn [map filter]; [reflexivity|].
    cbn [fst snd].
    destruct (pystr_eqb (fst c0) (py "item_id")
              && is_numeric_dtype (viz_convert_column P (snd c0))); cbn [snd is_datetime andb].
    + exact IH.
    + rewrite (proj2 (viz_convert_column_kind P (snd c0))). cbn [andb]. exact IH.
Qed.

(** ** The data loader, continued *)

Lemma update_column_names (name : pystr) (f : series -> result series)
    (df df' : dataframe) :
  update_column name f df = Ok df' -> map fst df' = map fst df.
Proof.
  revert df'. induction df as [|[n s] r IH]; intros df'; cbn [update_column].
  - intros H. injection H as <-. reflexivity.
  - destruct (pystr_eqb n name).
    + destruct (f s); cbn [and_then]; [|discriminate].
      intros H. injection H as <-. reflexivity.
    + destruct (update_column name f r) as [r'|e]; cbn [and_then]; [|discriminate].
      intros H. injection H as <-. cbn [map fst]. rewrite (IH r' eq_refl). reflexivity.
Qed.

Lemma table_rules_names (P : pandas) (table_name : pystr) (df df' : dataframe) :
  table_rules P table_name df = Ok df' -> map fst df' = map fst df.
Proof.
  unfold table_rules.
  destruct (pystr_eqb table_name (py "total_sales")).
  { destruct (update_column (py "item_id") _ df) as [df1|e] eqn:H1; cbn [and_then];
      [|discriminate].
    intros H2. apply update_column_names in H1, H2. congruence. }
  destruct (pystr_eqb table_name (py "ad_sales")).
  { destruct (update_column (py "item_id") _ df) as [df1|e] eqn:H1; cbn [and_then];
      [|discriminate].
    destruct (update_column (py "ad_spend") _ df1) as [df2|e] eqn:H2; cbn [and_then];
      [|discriminate].
    intros H3. apply update_column_names in H1, H2, H3. congruence. }
  destruct (pystr_eqb table_name (py "eligibility")).
  { destruct (update_column (py "item_id") _ df) as [df1|e] eqn:H1; cbn [and_then];
      [|discriminate].
    destruct (update_column (py "eligibility_datetime_utc") _ df1) as [df2|e] eqn:H2;
      cbn [and_then]; [|discriminate].
    intros H3. apply update_column_names in H1, H2, H3. congruence. }
  intros H. injection H as <-. reflexivity.
Qed.

Lemma isascii_clean (name : pystr) :
  isascii name = true -> isascii (replace_char 32 95 (strip name)) = true.
Proof.
  unfold isascii, replace_char. intros H.
  destruct (strip_with_infix is_space name) as [a [b Hname]].
  rewrite Hname, !forallb_app in H.
  apply andb_true_iff in H. destruct H as [_ H].
  apply andb_true_iff in H. destruct H as [H _].
  unfold strip. rewrite forallb_forall in *. intros c Hc.
  apply in_map_iff in Hc. destruct Hc as [x [<- Hx]].
  destruct (N.eqb_spec x 32); [reflexivity | exact (H x Hx)].
Qed.

Lemma clean_name_chars (P : pandas) (name : pystr) (c : N) :
  isascii name = true ->
  In c (clean_name P name) -> c <> 32%N /\ ~ (65 <= c <= 90)%N.
Proof.
  intros Hascii. unfold clean_name, lower. rewrite (isascii_clean name Hascii).
  unfold ascii_lower, replace_char. rewrite map_map. intros H.
  apply in_map_iff in H. destruct H as [x [<- _]].
  destruct (N.eqb_spec x 32) as [->|Hx].
  - vm_compute. split; [discriminate|]. intros [H1 H2]. apply H2. reflexivity.
  - destruct (N.leb_spec 65 x), (N.leb_spec x 90); cbn [andb]; split; lia.
Qed.

(** X17: when [preprocess_df] returns, the frame has the columns of the
    input in their order, each under its cleaned name; the cleaned name of
    an ASCII name holds no space and no capital letter. *)
Theorem preprocess_df_names (P : pandas) (df out : dataframe) (table_name : pystr) :
  preprocess_df P df table_name = Ok out ->
  map fst out = map (clean_name P) (map fst df)
  /\ Forall (fun name => isascii name = true ->
                         forall c, In c (clean_name P name) ->
                                   c <> 32%N /\ ~ (65 <= c <= 90)%N)
            (map fst df).
Proof.
  intros H. split.
  - unfold preprocess_df in H.
    destruct (has_duplicates _); [discriminate|].
    destruct (table_rules P table_name _) as [df'|e] eqn:Hrules; cbn [and_then] in H;
      [|discriminate].
    injection H as <-. apply table_rules_names in Hrules.
    assert (Hdd : map fst (drop_duplicates df') = map fst df')
      by (unfold drop_duplicates; rewrite map_map; reflexivity).
    rewrite Hdd, Hrules, !map_map. reflexivity.
  - apply Forall_forall. intros name _ Hascii c. apply clean_name_chars, Hascii.
Qed.

Lemma preprocess_df_names_witness :
  preprocess_df plain_pandas
    [(py " Item ID", IntSeries [7]%Z); (py "Total Sales ", FloatSeries [Num 1])]
    (py "total_sales")
  = Ok [(py "item_id", ObjectSeries [Str (py "7")]);
        (py "total_sales", FloatSeries [Num 1])]
  /\ map fst [(py "item_id", ObjectSeries [Str (py "7")]);
              (py "total_sales", FloatSeries [Num 1])]
     = map (clean_name plain_pandas)
           (map fst [(py " Item ID", IntSeries [7]%Z);
                     (py "Total Sales ", FloatSeries [Num 1])]).
Proof.
  assert (H : preprocess_df plain_pandas
                [(py " Item ID", IntSeries [7]%Z); (py "Total Sales ", FloatSeries [Num 1])]
                (py "total_sales")
              = Ok [(py "item_id", ObjectSeries [Str (py "7")]);
                    (py "total_sales", FloatSeries [Num 1])])
    by (vm_compute; reflexivity).
  split; [exact H|].
  exact (proj1 (preprocess_df_names _ _ _ _ H)).
Defined.

Lemma load_and_upload_lookup (L : loader) (P : pandas) (path table t : pystr)
    (db : database) :
  csv_exists L path = true ->
  lookup t (load_and_upload L P path table db)
  = if pystr_eqb t table
    then match uploaded L P path table with
         | Some df' => Some df'
         | None => lookup t db
         end
    else lookup t db.
Proof.
  intros Hex. unfold load_and_upload, uploaded, to_sql. rewrite Hex.
  destruct (read_csv L path) as [df|e]; cbn [and_then];
    try (destruct (pystr_eqb t table); reflexivity);
    destruct (preprocess_df P df table) as [df'|e]; cbn [and_then];
    try (destruct (pystr_eqb t table); reflexivity);
    destruct (write_error L table); cbn [lookup];
    destruct (pystr_eqb t table); reflexivity.
Qed.

(** One turn of the loop at lines 136-140, seen from the table [t]. *)
Lemma process_files_turn (L : loader) (P : pandas) (t path table : pystr)
    (db : database) :
  lookup t (if csv_exists L path then load_and_upload L P path table db else db)
  = if pystr_eqb t table
    then match uploaded L P path table with
         | Some df' => Some df'
         | None => lookup t db
         end
    else lookup t db.
Proof.
  destruct (csv_exists L path) eqn:Hex.
  - apply load_and_upload_lookup, Hex.
  - unfold uploaded. rewrite Hex. destruct (pystr_eqb t table); reflexivity.
Qed.

(** X18: the upload treats each file on its own: after the run a table of
    the map holds the preprocessed frame of its file when the file exists,
    is read, is preprocessed and is written without an exception, and
    otherwise what it held before, whatever happened to the other files; a
    table that is not in the map is never touched. *)
Theorem upload_is_per_table (L : loader) (P : pandas) (db : database) (t : pystr) :
  (forall path, In (path, t) file_table_map ->
     lookup t (process_files L P file_table_map db)
     = match uploaded L P path t with
       | Some df' => Some df'
       | None => lookup t db
       end)
  /\ ((forall path, ~ In (path, t) file_table_map) ->
      lookup t (process_files L P file_table_map db) = lookup t db).
Proof.
  unfold file_table_map. cbn [process_files]. rewrite !process_files_turn.
  split.
  - intros path Hin. cbn [In] in Hin.
    destruct Hin as [H|[H|[H|[]]]]; injection H as <- <-;
      rewrite ?pystr_eqb_refl;
      repeat match goal with
             | |- context [pystr_eqb (py ?a) (py ?b)] =>
               let v := eval vm_compute in (pystr_eqb (py a) (py b)) in
               replace (pystr_eqb (py a) (py b)) with v by (vm_compute; reflexivity)
             end;
      reflexivity.
  - intros Hout.
    repeat match goal with
           | |- context [pystr_eqb t ?x] =>
             let H := fresh "H" in
             destruct (pystr_eqb t x) eqn:H;
             [apply pystr_eqb_eq in H; exfalso; eapply Hout; rewrite H; cbn [In]; eauto|]
           end.
    reflexivity.
Qed.

(** X19: no table that the upload can change is served by the route
    [/api/data/<table_name>]: the names the loader writes are none of the
    three of the allow-list, so the route answers each with status 400. *)
Theorem uploaded_tables_are_not_served
    (L : loader) (P : pandas) (db : database) (t : pystr) (E : env) (w : world) :
  lookup t (process_files L P file_table_map db) <> lookup t db ->
  get_table_data E t w = (Ok (ErrorJson (py "Invalid table name."), 400), w).
Proof.
  intros Hchanged.
  assert (Hin : exists path, In (path, t) file_table_map).
  { destruct (pystr_eqb t (py "total_sales")) eqn:H1;
      [apply pystr_eqb_eq in H1; subst t; eexists; left; reflexivity|].
    destruct (pystr_eqb t (py "ad_sales")) eqn:H2;
      [apply pystr_eqb_eq in H2; subst t; eexists; right; left; reflexivity|].
    destruct (pystr_eqb t (py "eligibility")) eqn:H3;
      [apply pystr_eqb_eq in H3; subst t; eexists; right; right; left; reflexivity|].
    exfalso. apply Hchanged.
    unfold file_table_map. cbn [process_files].
    rewrite !process_files_turn, H1, H2, H3. reflexivity. }
  destruct Hin as [path Hin]. cbn [In file_table_map] in Hin.
  destruct Hin as [H|[H|[H|[]]]]; injection H as _ <-; vm_compute; reflexivity.
Qed.

Lemma uploaded_tables_are_not_served_witness :
  lookup (py "ad_sales") (process_files empty_csvs plain_pandas file_table_map [])
  <> lookup (py "ad_sales") []
  /\ get_table_data users_env (py "ad_sales") fresh_world
     = (Ok (ErrorJson (py "Invalid table name."), 400), fresh_world).
Proof.
  assert (H : lookup (py "ad_sales")
                (process_files empty_csvs plain_pandas file_table_map [])
              <> lookup (py "ad_sales") []) by (vm_compute; discriminate).
  split; [exact H|].
  exact (uploaded_tables_are_not_served empty_csvs plain_pandas [] (py "ad_sales")
           users_env fresh_world H).
Defined.

(** *** Columns of text *)












(** *** Duplicate rows *)

Lemma keep_map {A B : Type} (f : A -> B) (mask : list bool) (l : list A) :
  keep mask (map f l) = map f (keep mask l).
Proof.
  revert l. induction mask as [|b m IH]; intros [|x r]; cbn [keep map]; try reflexivity.
  - destruct b; reflexivity.
  - destruct b; rewrite IH; reflexivity.
Qed.

Lemma keep_In {A : Type} (mask : list bool) (l : list A) (x : A) :
  In x (keep mask l) -> In x l.
Proof.
  revert l. induction mask as [|b m IH]; intros [|y r]; cbn [keep].
  - intros [].
  - intros [].
  - destruct b; intros [].
  - destruct b; cbn [In]; intros H; [destruct H as [H|H]; [left; exact H|]|];
      right; apply IH, H.
Qed.

Lemma cells_keep_series (mask : list bool) (s : series) :
  cells (keep_series mask s) = keep mask (cells s).
Proof. destruct s; cbn [keep_series cells]; rewrite keep_map; reflexivity. Qed.

(** What is kept of a list is the list read at the kept positions. *)
Lemma keep_positions {A : Type} (d : A) (mask : list bool) (l : list A) (s : nat) :
  length l = length mask ->
  keep mask l = map (fun i => nth (i - s) l d) (keep mask (seq s (length mask))).
Proof.
  revert l s. induction mask as [|b m IH]; intros [|x r] s Hlen; cbn [length] in Hlen;
    try discriminate; cbn [keep length seq map]; [reflexivity|].
  injection Hlen as Hlen.
  assert (Htail : keep m r = map (fun i => nth (i - s) (x :: r) d)
                                 (keep m (seq (S s) (length m)))).
  { rewrite (IH r (S s) Hlen). apply map_ext_in. intros i Hi.
    apply keep_In, in_seq in Hi.
    replace (i - s)%nat with (S (i - S s)) by lia. reflexivity. }
  destruct b; cbn [map]; [|exact Htail].
  rewrite Nat.sub_diag. cbn [nth]. f_equal. exact Htail.
Qed.

Lemma map_nth_seq {A : Type} (d : A) (l : list A) :
  map (fun j => nth j l d) (seq 0 (length l)) = l.
Proof.
  apply (nth_ext _ _ d d).
  - rewrite length_map, length_seq. reflexivity.
  - intros n Hn. rewrite length_map, length_seq in Hn.
    rewrite (nth_indep _ _ (nth 0 l d)) by (rewrite length_map, length_seq; exact Hn).
    rewrite (map_nth (fun j => nth j l d) (seq 0 (length l)) 0%nat n).
    rewrite seq_nth by exact Hn. reflexivity.
Qed.

(** On a rectangular frame the rows left by [keep_series] are the kept
    rows. *)
Lemma rows_keep (mask : list bool) (df : dataframe) :
  rectangular df ->
  length mask = nrows df ->
  rows (map (fun c => (fst c, keep_series mask (snd c))) df) = keep mask (rows df).
Proof.
  intros Hrect Hmask. unfold rows at 2. rewrite keep_map.
  set (K := keep mask (seq 0 (nrows df))).
  assert (Hcol : forall c, In c df ->
            keep mask (cells (snd c))
            = map (fun i => nth i (cells (snd c)) (CObject Missing)) K).
  { intros c Hc. subst K. rewrite <- Hmask.
    rewrite (keep_positions (CObject Missing) mask (cells (snd c)) 0)
      by (rewrite (Hrect c Hc); symmetry; exact Hmask).
    apply map_ext. intros i. rewrite Nat.sub_0_r. reflexivity. }
  assert (Hn : nrows (map (fun c => (fst c, keep_series mask (snd c))) df)
               = match df with [] => 0%nat | _ => length K end).
  { destruct df as [|c r]; [reflexivity|]. cbn [map nrows fst snd].
    rewrite cells_keep_series, (Hcol c (or_introl eq_refl)), length_map. reflexivity. }
  destruct df as [|c0 r0] eqn:Hdf.
  { subst K. cbn [nrows] in *. destruct mask; [reflexivity | discriminate]. }
  rewrite <- Hdf in *. unfold rows. rewrite Hn.
  rewrite <- (map_nth_seq 0%nat K) at 2. rewrite map_map.
  apply map_ext_in. intros j Hj. apply in_seq in Hj.
  unfold row_at. rewrite map_map. apply map_ext_in. intros c Hc. cbn [snd].
  rewrite cells_keep_series, (Hcol c Hc).
  rewrite (nth_indep _ _ (nth 0 (cells (snd c)) (CObject Missing)))
    by (rewrite length_map; lia).
  apply (map_nth (fun i => nth i (cells (snd c)) (CObject Missing)) K 0%nat j).
Qed.

Lemma object_eqb_refl (x : object) : object_eqb x x = true.
Proof. destruct x; cbn; [apply pystr_eqb_refl | reflexivity | apply Z.eqb_refl]. Qed.

Lemma number_eqb_refl (x : number) : number_eqb x x = true.
Proof.
  destruct x; cbn; [reflexivity | apply eqb_reflx | apply Qeq_bool_iff, Qeq_refl].
Qed.

Lemma row_eqb_refl (r : list cell) : row_eqb r r = true.
Proof.
  induction r as [|c r' IH]; cbn [row_eqb]; [reflexivity|]. rewrite IH, andb_true_r.
  destruct c as [x|x|z|b|[t|]]; cbn [cell_eqb];
    [apply object_eqb_refl | apply number_eqb_refl | apply Z.eqb_refl
    | apply eqb_reflx | apply Z.eqb_refl | reflexivity].
Qed.

Lemma first_occurrences_length (rs seen : list (list cell)) :
  length (first_occurrences rs seen) = length rs.
Proof.
  revert seen. induction rs as [|r rest IH]; intros seen; cbn [first_occurrences length];
    [reflexivity|].
  destruct (existsb (row_eqb r) seen); cbn [length]; rewrite IH; reflexivity.
Qed.

Lemma first_occurrences_spec (rs seen : list (list cell)) :
  let kept := keep (first_occurrences rs seen) rs in
  ForallOrdPairs (fun a b => row_eqb b a = false) kept
  /\ Forall (fun r => existsb (row_eqb r) seen = false) kept
  /\ (forall r, In r rs ->
        existsb (row_eqb r) seen = true
        \/ exists r', In r' kept /\ row_eqb r r' = true).
Proof.
  revert seen. induction rs as [|r rest IH]; intros seen; cbn [first_occurrences keep].
  - split; [constructor|]. split; [constructor|]. intros x [].
  - destruct (existsb (row_eqb r) seen) eqn:Hseen; cbn [keep].
    + destruct (IH seen) as [Hpairs [Hfree Hcover]].
      split; [exact Hpairs|]. split; [exact Hfree|].
      intros x [<-|Hx]; [left; exact Hseen | apply Hcover, Hx].
    + destruct (IH (r :: seen)) as [Hpairs [Hfree Hcover]].
      split; [|split].
      * constructor; [|exact Hpairs].
        eapply Forall_impl; [|exact Hfree]. intros a Ha. cbn [existsb] in Ha.
        apply orb_false_elim in Ha. tauto.
      * constructor; [exact Hseen|].
        eapply Forall_impl; [|exact Hfree]. intros a Ha. cbn [existsb] in Ha.
        apply orb_false_elim in Ha. tauto.
      * intros x [<-|Hx].
        -- right. exists r. split; [left; reflexivity | apply row_eqb_refl].
        -- destruct (Hcover x Hx) as [Hs|[r' [Hr' Heq]]].
           ++ cbn [existsb] in Hs. apply orb_true_elim in Hs. destruct Hs as [Hs|Hs].
              ** right. exists r. split; [left; reflexivity | exact Hs].
              ** left. exact Hs.
           ++ right. exists r'. split; [right; exact Hr' | exact Heq].
Qed.

(** On a frame whose columns have one length, [drop_duplicates] leaves rows
    of the frame, in which no row equals an earlier one, and every row of
    the frame equals a row that is left. *)
Lemma drop_duplicates_distinct (df : dataframe) :
  rectangular df ->
  ForallOrdPairs (fun a b => row_eqb b a = false) (rows (drop_duplicates df))
  /\ (forall r, In r (rows df) ->
        exists r', In r' (rows (drop_duplicates df)) /\ row_eqb r r' = true)
  /\ (forall r, In r (rows (drop_duplicates df)) -> In r (rows df)).
Proof.
  intros Hrect. unfold drop_duplicates. fold (rows df).
  rewrite (rows_keep _ df Hrect)
    by (rewrite first_occurrences_length; unfold rows; rewrite length_map, length_seq;
        reflexivity).
  destruct (first_occurrences_spec (rows df) []) as [Hpairs [_ Hcover]].
  split; [exact Hpairs|]. split.
  - intros r Hr. destruct (Hcover r Hr) as [Hs|H]; [discriminate Hs | exact H].
  - intros r. apply keep_In.
Qed.

(** *** Missing numbers *)

Lemma fillna0_nan_free (s : series) : nan_free (fillna0 s).
Proof.
  destruct s as [v|v|v|v|v]; cbn [fillna0 nan_free]; try exact I.
  intros H. apply in_map_iff in H. destruct H as [x [Hx _]].
  destruct x; discriminate.
Qed.

Lemma convert_column_nan_free (P : pandas) (s : series) : nan_free (convert_column P s).
Proof.
  unfold convert_column.
  destruct s as [v|v|v|v|v]; cbn [is_object to_numeric is_numeric_dtype];
    try apply fillna0_nan_free; try exact I.
  destruct (to_numeric_strings_kind P (map (remove_chars (py "₹$,% "))
                                           (astype_str P (ObjectSeries v))))
    as [[x [-> _]]|[x [-> _]]]; cbn [is_numeric_dtype is_object];
    apply fillna0_nan_free.
Qed.

Lemma update_column_keeps (R : pystr * series -> Prop) (name : pystr)
    (f : series -> result series) (df df' : dataframe) :
  (forall n s s', pystr_eqb n name = true -> f s = Ok s' -> R (n, s) -> R (n, s')) ->
  update_column name f df = Ok df' ->
  Forall R df -> Forall R df'.
Proof.
  intros Hf. revert df'. induction df as [|[n s] r IH]; intros df'; cbn [update_column].
  - intros H _. injection H as <-. constructor.
  - intros H Hall. inversion Hall as [|? ? Hhead Htail]; subst.
    destruct (pystr_eqb n name) eqn:Hn.
    + destruct (f s) as [s'|e] eqn:Hs; cbn [and_then] in H; [|discriminate].
      injection H as <-. constructor; [eapply Hf; eassumption | exact Htail].
    + destruct (update_column name f r) as [r'|e]; cbn [and_then] in H; [|discriminate].
      injection H as <-. constructor; [exact Hhead | apply IH; [reflexivity | exact Htail]].
Qed.

Lemma keep_series_nan_free (mask : list bool) (s : series) :
  nan_free s -> nan_free (keep_series mask s).
Proof.
  destruct s as [v|v|v|v|v]; cbn [keep_series nan_free]; auto.
  intros H Hin. apply H. eapply keep_In, Hin.
Qed.

(** X22: when [preprocess_df] returns, no column holds a [NaN], the
    column [eligibility_datetime_utc] apart, which [pd.to_datetime] fills:
    every missing or unreadable number has become [0]. *)
Theorem preprocess_df_leaves_no_nan (P : pandas) (df out : dataframe)
    (table_name : pystr) :
  preprocess_df P df table_name = Ok out ->
  Forall (fun c => fst c = py "eligibility_datetime_utc" \/ nan_free (snd c)) out.
Proof.
  set (R := fun c : pystr * series =>
              fst c = py "eligibility_datetime_utc" \/ nan_free (snd c)).
  unfold preprocess_df. destruct (has_duplicates _); [discriminate|].
  set (converted := map _ (map _ df)).
  assert (Hconv : Forall R converted).
  { subst converted. apply Forall_forall. intros c Hc.
    apply in_map_iff in Hc. destruct Hc as [c0 [<- _]]. right. cbn [snd].
    apply convert_column_nan_free. }
  assert (Htotal : forall name g df1 df2,
            (forall s, nan_free s -> nan_free (g s)) ->
            update_column name (total g) df1 = Ok df2 -> Forall R df1 -> Forall R df2).
  { intros name g df1 df2 Hg. apply update_column_keeps.
    intros n s s' _ Hs [Hname|Hfree]; [left; exact Hname|].
    unfold total in Hs. injection Hs as <-. right. apply Hg, Hfree. }
  assert (Hid : forall s, nan_free s -> nan_free (ObjectSeries (map Str (astype_str P s))))
    by (intros; exact I).
  assert (Hfill : forall s, nan_free s -> nan_free (fillna0 s))
    by (intros; apply fillna0_nan_free).
  assert (Hrules : forall df', table_rules P table_name converted = Ok df' -> Forall R df').
  { intros df'. unfold table_rules.
    destruct (pystr_eqb table_name (py "total_sales")).
    { destruct (update_column (py "item_id") _ converted) as [df1|e] eqn:H1;
        cbn [and_then]; [|discriminate].
      intros H2. apply (Htotal _ _ _ _ Hid) in H1; [|exact Hconv].
      revert H2 H1. apply Htotal.
      intros s Hs. destruct s; cbn [is_datetime fillna_timestamp nan_free] in *; auto. }
    destruct (pystr_eqb table_name (py "ad_sales")).
    { destruct (update_column (py "item_id") _ converted) as [df1|e] eqn:H1;
        cbn [and_then]; [|discriminate].
      destruct (update_column (py "ad_spend") _ df1) as [df2|e] eqn:H2;
        cbn [and_then]; [|discriminate].
      intros H3. apply (Htotal _ _ _ _ Hid) in H1; [|exact Hconv].
      apply (Htotal _ _ _ _ Hfill) in H2; [|exact H1].
      revert H3 H2. apply Htotal, Hfill. }
    destruct (pystr_eqb table_name (py "eligibility")).
    { destruct (update_column (py "item_id") _ converted) as [df1|e] eqn:H1;
        cbn [and_then]; [|discriminate].
      destruct (update_column (py "eligibility_datetime_utc") _ df1) as [df2|e] eqn:H2;
        cbn [and_then]; [|discriminate].
      intros H3. apply (Htotal _ _ _ _ Hid) in H1; [|exact Hconv].
      assert (Hdf2 : Forall R df2).
      { revert H2 H1. apply update_column_keeps.
        intros n s s' Hn _ _. left. cbn [fst]. apply pystr_eqb_eq, Hn. }
      revert H3 Hdf2. apply Htotal.
      intros s Hs. destruct (is_object s); [exact I | exact Hs]. }
    intros H. injection H as <-. exact Hconv. }
  destruct (table_rules P table_name converted) as [df'|e] eqn:Ht; cbn [and_then];
    [|discriminate].
  intros H. injection H as <-. specialize (Hrules df' eq_refl).
  unfold drop_duplicates. apply Forall_forall. intros c Hc.
  apply in_map_iff in Hc. destruct Hc as [c0 [<- Hc0]].
  rewrite Forall_forall in Hrules. destruct (Hrules c0 Hc0) as [Hname|Hfree].
  - left. exact Hname.
  - right. cbn [snd]. apply keep_series_nan_free, Hfree.
Qed.

Lemma preprocess_df_leaves_no_nan_witness :
  preprocess_df plain_pandas
    [(py "ad_spend", ObjectSeries [Str (py "$1,200"); Missing]);
     (py "clicks", FloatSeries [NaN; Num 3])]
    (py "ad_sales")
  = Ok [(py "ad_spend", FloatSeries [Num (1200 # 1); Num 0]);
        (py "clicks", FloatSeries [Num 0; Num 3])]
  /\ Forall (fun c => fst c = py "eligibility_datetime_utc" \/ nan_free (snd c))
            [(py "ad_spend", FloatSeries [Num (1200 # 1); Num 0]);
             (py "clicks", FloatSeries [Num 0; Num 3])].
Proof.
  assert (H : preprocess_df plain_pandas
                [(py "ad_spend", ObjectSeries [Str (py "$1,200"); Missing]);
                 (py "clicks", FloatSeries [NaN; Num 3])]
                (py "ad_sales")
              = Ok [(py "ad_spend", FloatSeries [Num (1200 # 1); Num 0]);
                    (py "clicks", FloatSeries [Num 0; Num 3])])
    by (vm_compute; reflexivity).
  split; [exact H|].
  exact (preprocess_df_leaves_no_nan _ _ _ _ H).
Defined.

(** *** Columns of strings *)

Lemma keep_series_kind (mask : list bool) (s : series) :
  is_object (keep_series mask s) = is_object s.
Proof. destruct s; reflexivity. Qed.

(** X23: when [preprocess_df] returns, no column is of dtype object
    except [item_id] and, if [pd.to_datetime] makes it one,
    [eligibility_datetime_utc]: every other column of strings has been read
    as numbers, so the mapping of the eligibility words at line 106 finds no
    column of strings. *)
Theorem preprocess_df_leaves_no_text (P : pandas) (df out : dataframe)
    (table_name : pystr) :
  preprocess_df P df table_name = Ok out ->
  Forall (fun c => fst c = py "item_id" \/ fst c = py "eligibility_datetime_utc"
                   \/ is_object (snd c) = false) out.
Proof.
  set (R := fun c : pystr * series =>
              fst c = py "item_id" \/ fst c = py "eligibility_datetime_utc"
              \/ is_object (snd c) = false).
  unfold preprocess_df. destruct (has_duplicates _); [discriminate|].
  set (converted := map _ (map _ df)).
  assert (Hconv : Forall R converted).
  { subst converted. apply Forall_forall. intros c Hc.
    apply in_map_iff in Hc. destruct Hc as [c0 [<- _]]. right. right. cbn [snd].
    apply convert_column_not_object. }
  assert (Hnamed : forall name f df1 df2,
            name = py "item_id" \/ name = py "eligibility_datetime_utc" ->
            update_column name f df1 = Ok df2 -> Forall R df1 -> Forall R df2).
  { intros name f df1 df2 Hname. apply update_column_keeps.
    intros n s s' Hn _ _. apply pystr_eqb_eq in Hn. subst n.
    destruct Hname as [->| ->]; [left | right; left]; reflexivity. }
  assert (Htotal : forall name g df1 df2,
            (forall s, is_object s = false -> is_object (g s) = false) ->
            update_column name (total g) df1 = Ok df2 -> Forall R df1 -> Forall R df2).
  { intros name g df1 df2 Hg. apply update_column_keeps.
    intros n s s' _ Hs [Hname|[Hname|Hkind]]; [left; exact Hname | right; left; exact Hname|].
    unfold total in Hs. injection Hs as <-. right. right. apply Hg, Hkind. }
  assert (Hfill : forall s, is_object s = false -> is_object (fillna0 s) = false)
    by (intros [v|v|v|v|v]; cbn; congruence).
  assert (Hrules : forall df', table_rules P table_name converted = Ok df' -> Forall R df').
  { intros df'. unfold table_rules.
    destruct (pystr_eqb table_name (py "total_sales")).
    { destruct (update_column (py "item_id") _ converted) as [df1|e] eqn:H1;
        cbn [and_then]; [|discriminate].
      intros H2. apply Hnamed in H1; [|left; reflexivity | exact Hconv].
      revert H2 H1. apply Htotal.
      intros [v|v|v|v|v]; cbn; congruence. }
    destruct (pystr_eqb table_name (py "ad_sales")).
    { destruct (update_column (py "item_id") _ converted) as [df1|e] eqn:H1;
        cbn [and_then]; [|discriminate].
      destruct (update_column (py "ad_spend") _ df1) as [df2|e] eqn:H2;
        cbn [and_then]; [|discriminate].
      intros H3. apply Hnamed in H1; [|left; reflexivity | exact Hconv].
      apply (Htotal _ _ _ _ Hfill) in H2; [|exact H1].
      revert H3 H2. apply Htotal, Hfill. }
    destruct (pystr_eqb table_name (py "eligibility")).
    { destruct (update_column (py "item_id") _ converted) as [df1|e] eqn:H1;
        cbn [and_then]; [|discriminate].
      destruct (update_column (py "eligibility_datetime_utc") _ df1) as [df2|e] eqn:H2;
        cbn [and_then]; [|discriminate].
      intros H3. apply Hnamed in H1; [|left; reflexivity | exact Hconv].
      apply Hnamed in H2; [|right; reflexivity | exact H1].
      revert H3 H2. apply Htotal.
      intros s Hs. rewrite Hs. exact Hs. }
    intros H. injection H as <-. exact Hconv. }
  destruct (table_rules P table_name converted) as [df'|e] eqn:Ht; cbn [and_then];
    [|discriminate].
  intros H. injection H as <-. specialize (Hrules df' eq_refl).
  unfold drop_duplicates. apply Forall_forall. intros c Hc.
  apply in_map_iff in Hc. destruct Hc as [c0 [<- Hc0]].
  rewrite Forall_forall in Hrules. specialize (Hrules c0 Hc0).
  unfold R in *. cbn [fst snd]. rewrite keep_series_kind. exact Hrules.
Qed.

Lemma preprocess_df_leaves_no_text_witness :
  preprocess_df plain_pandas
    [(py "message", ObjectSeries [Str (py "ok"); Str (py "late")]);
     (py "eligibility", ObjectSeries [Str (py "TRUE"); Str (py "no")])]
    (py "eligibility")
  = Ok [(py "message", FloatSeries [Num 0]); (py "eligibility", FloatSeries [Num 0])]
  /\ Forall (fun c => fst c = py "item_id" \/ fst c = py "eligibility_datetime_utc"
                      \/ is_object (snd c) = false)
            [(py "message", FloatSeries [Num 0]); (py "eligibility", FloatSeries [Num 0])].
Proof.
  assert (H : preprocess_df plain_pandas
                [(py "message", ObjectSeries [Str (py "ok"); Str (py "late")]);
                 (py "eligibility", ObjectSeries [Str (py "TRUE"); Str (py "no")])]
                (py "eligibility")
              = Ok [(py "message", FloatSeries [Num 0]);
                    (py "eligibility", FloatSeries [Num 0])])
    by (vm_compute; reflexivity).
  split; [exact H|].
  exact (preprocess_df_leaves_no_text _ _ _ _ H).
Defined.

(** ** The similarity search, continued *)

Lemma fvec_L2sqr_nonneg (x y : vec) : (0 <= fvec_L2sqr x y)%Q.
Proof.
  revert y. induction x as [|a x IH]; intros [|b y]; cbn [fvec_L2sqr];
    try apply Qle_refl.
  rewrite <- (Qplus_0_r 0). apply Qplus_le_compat; [|apply IH].
  destruct (Qlt_le_dec (a - b) 0) as [Hneg|Hpos].
  - setoid_replace ((a - b) * (a - b))%Q with ((- (a - b)) * (- (a - b)))%Q by ring.
    apply Qmult_le_0_compat; apply Qlt_le_weak;
      setoid_replace 0%Q with (- 0)%Q by ring; apply Qopp_lt_compat, Hneg.
  - apply Qmult_le_0_compat; exact Hpos.
Qed.

Lemma fvec_L2sqr_self (x : vec) : (fvec_L2sqr x x == 0)%Q.
Proof.
  induction x as [|a x IH]; cbn [fvec_L2sqr]; [reflexivity|]. rewrite IH. ring.
Qed.

(** X24: a query that equals a stored vector is answered first with a
    document at distance zero: an exact match, or a document with the same
    embedding, leads the retrieved context. *)
Theorem exact_match_is_first (index : IndexFlatL2) (j : nat) (v : vec) (k : nat) :
  nth_error (xb index) j = Some v ->
  (1 <= k)%nat ->
  exists p rest,
    search_row index v k = p :: rest
    /\ real_entry index v p
    /\ (snd p == 0)%Q.
Proof.
  intros Hv Hk.
  assert (Hin : In (Z.of_nat j, fvec_L2sqr v v) (sort_by_distance (distances_to index v))).
  { eapply Permutation_in; [apply Permutation_sym, sort_by_distance_perm|].
    eapply nth_error_In with (n := j). rewrite distances_to_nth, Hv. reflexivity. }
  pose proof (sort_by_distance_sorted (distances_to index v)) as Hsorted.
  pose proof (sorted_real index v) as Hreal.
  unfold search_row.
  destruct (sort_by_distance (distances_to index v)) as [|p l] eqn:Hs; [destruct Hin|].
  destruct k as [|k]; [lia|]. cbn [firstn app].
  exists p. eexists. split; [reflexivity|].
  inversion Hreal as [|? ? Hp _]; subst. split; [exact Hp|].
  apply Qle_antisym.
  - destruct Hin as [->|Hin].
    + cbn [snd]. rewrite fvec_L2sqr_self. apply Qle_refl.
    + inversion Hsorted as [|? ? _ Hall]; subst. rewrite Forall_forall in Hall.
      specialize (Hall _ Hin). unfold dist_le in Hall. cbn [snd] in Hall.
      rewrite fvec_L2sqr_self in Hall. exact Hall.
  - destruct Hp as [u [_ [_ ->]]]. apply fvec_L2sqr_nonneg.
Qed.

Lemma exact_match_is_first_witness :
  nth_error (xb two_vectors) 0 = Some [5 # 1]%Q
  /\ exists p rest,
       search_row two_vectors [5 # 1]%Q 3 = p :: rest
       /\ real_entry two_vectors [5 # 1]%Q p
       /\ (snd p == 0)%Q.
Proof.
  split; [reflexivity|].
  exact (exact_match_is_first two_vectors 0 [5 # 1]%Q 3 eq_refl (le_S _ _ (le_S _ _ (le_n 1)))).
Defined.

(** ** The item ids *)

Lemma update_first_unique (name : pystr) (g : series -> series) (df df' : dataframe) :
  has_duplicates (map fst df) = false ->
  update_column name (total g) df = Ok df' ->
  Forall (fun c => fst c = name -> exists s0, snd c = g s0) df'.
Proof.
  revert df'. induction df as [|[n s] r IH]; intros df' Hdup; cbn [update_column].
  - intros H. injection H as <-. constructor.
  - cbn [map fst has_duplicates] in Hdup. apply orb_false_elim in Hdup.
    destruct Hdup as [Hhead Htail].
    destruct (pystr_eqb n name) eqn:Hn.
    + unfold total at 1. cbn [and_then]. intros H. injection H as <-.
      constructor; [intros _; eexists; reflexivity|].
      apply Forall_forall. intros c Hc Hname. exfalso.
      apply pystr_eqb_eq in Hn. subst n.
      assert (Hex : existsb (pystr_eqb name) (map fst r) = true).
      { apply existsb_exists. exists (fst c). split; [apply in_map, Hc|].
        rewrite Hname. apply pystr_eqb_refl. }
      congruence.
    + destruct (update_column name (total g) r) as [r'|e] eqn:Hr; cbn [and_then];
        [|discriminate].
      intros H. injection H as <-. constructor.
      * cbn [fst]. intros ->. rewrite pystr_eqb_refl in Hn. discriminate.
      * apply IH; [exact Htail | reflexivity].
Qed.

(** X25: for each of the three tables, when [preprocess_df] returns, a
    column [item_id] is a column of strings, whatever it held: the ids are
    never uploaded as numbers. *)
Theorem item_id_is_text (P : pandas) (df out : dataframe) (table_name : pystr)
    (s : series) :
  In table_name [py "total_sales"; py "ad_sales"; py "eligibility"] ->
  preprocess_df P df table_name = Ok out ->
  In (py "item_id", s) out ->
  exists v, s = ObjectSeries (map Str v).
Proof.
  intros Htable Hrun Hin.
  set (R := fun c : pystr * series =>
              fst c = py "item_id" -> exists v, snd c = ObjectSeries (map Str v)).
  assert (Hout : Forall R out).
  { unfold preprocess_df in Hrun.
    destruct (has_duplicates (map fst _)) eqn:Hdup; [discriminate|].
    set (renamed := map (fun c : pystr * series =>
                           (lower P (replace_char 32 95 (strip (fst c))), snd c)) df) in *.
    set (converted := map (fun c : pystr * series => (fst c, convert_column P (snd c)))
                          renamed) in *.
    assert (Hdup' : has_duplicates (map fst converted) = false).
    { subst converted. rewrite map_map. cbn [fst]. exact Hdup. }
    assert (Hother : forall name f df1 df2,
              pystr_eqb name (py "item_id") = false ->
              update_column name f df1 = Ok df2 -> Forall R df1 -> Forall R df2).
    { intros name f df1 df2 Hname. apply update_column_keeps.
      intros n s0 s' Hn _ _ Hid. cbn [fst] in Hid. subst n.
      apply pystr_eqb_eq in Hn. subst name. rewrite pystr_eqb_refl in Hname.
      discriminate. }
    assert (Hrules : forall df', table_rules P table_name converted = Ok df' ->
                                 Forall R df').
    { intros df'. unfold table_rules.
      destruct (pystr_eqb table_name (py "total_sales")) eqn:Hts.
      { destruct (update_column (py "item_id") _ converted) as [df1|e] eqn:H1;
          cbn [and_then]; [|discriminate].
        intros H2. apply (update_first_unique _ _ _ _ Hdup') in H1.
        revert H2. intros H2. eapply (Hother _ _ _ _ _ H2).
        eapply Forall_impl; [|exact H1]. intros c Hc Hid.
        destruct (Hc Hid) as [s0 ->]. eexists. reflexivity. }
      destruct (pystr_eqb table_name (py "ad_sales")) eqn:Has.
      { destruct (update_column (py "item_id") _ converted) as [df1|e] eqn:H1;
          cbn [and_then]; [|discriminate].
        destruct (update_column (py "ad_spend") _ df1) as [df2|e] eqn:H2;
          cbn [and_then]; [|discriminate].
        intros H3. apply (update_first_unique _ _ _ _ Hdup') in H1.
        eapply (Hother _ _ _ _ _ H3). eapply (Hother _ _ _ _ _ H2).
        eapply Forall_impl; [|exact H1]. intros c Hc Hid.
        destruct (Hc Hid) as [s0 ->]. eexists. reflexivity. }
      destruct (pystr_eqb table_name (py "eligibility")) eqn:Hel.
      { destruct (update_column (py "item_id") _ converted) as [df1|e] eqn:H1;
          cbn [and_then]; [|discriminate].
        destruct (update_column (py "eligibility_datetime_utc") _ df1) as [df2|e] eqn:H2;
          cbn [and_then]; [|discriminate].
        intros H3. apply (update_first_unique _ _ _ _ Hdup') in H1.
        eapply (Hother _ _ _ _ _ H3). eapply (Hother _ _ _ _ _ H2).
        eapply Forall_impl; [|exact H1]. intros c Hc Hid.
        destruct (Hc Hid) as [s0 ->]. eexists. reflexivity. }
      exfalso. cbn [In] in Htable.
      destruct Htable as [<-|[<-|[<-|[]]]];
        [rewrite pystr_eqb_refl in Hts | rewrite pystr_eqb_refl in Has
        | rewrite pystr_eqb_refl in Hel]; discriminate. }
    destruct (table_rules P table_name converted) as [df'|e] eqn:Ht; cbn [and_then] in Hrun;
      [|discriminate].
    injection Hrun as <-. specialize (Hrules df' eq_refl).
    unfold drop_duplicates. apply Forall_forall. intros c Hc.
    apply in_map_iff in Hc. destruct Hc as [c0 [<- Hc0]].
    rewrite Forall_forall in Hrules. specialize (Hrules c0 Hc0).
    unfold R in *. cbn [fst snd]. intros Hid. destruct (Hrules Hid) as [v ->].
    cbn [keep_series]. rewrite keep_map. eexists. reflexivity. }
  rewrite Forall_forall in Hout. exact (Hout _ Hin eq_refl).
  Unshelve. all: vm_compute; reflexivity.
Qed.

Lemma item_id_is_text_witness :
  In (py "ad_sales") [py "total_sales"; py "ad_sales"; py "eligibility"]
  /\ preprocess_df plain_pandas
       [(py "Item ID", IntSeries [7; 8]%Z); (py "clicks", IntSeries [1; 2]%Z)]
       (py "ad_sales")
     = Ok [(py "item_id", ObjectSeries [Str (py "7"); Str (py "8")]);
           (py "clicks", IntSeries [1; 2]%Z)]
  /\ exists v, ObjectSeries [Str (py "7"); Str (py "8")] = ObjectSeries (map Str v).
Proof.
  assert (Ht : In (py "ad_sales") [py "total_sales"; py "ad_sales"; py "eligibility"])
    by (right; left; reflexivity).
  assert (H : preprocess_df plain_pandas
                [(py "Item ID", IntSeries [7; 8]%Z); (py "clicks", IntSeries [1; 2]%Z)]
                (py "ad_sales")
              = Ok [(py "item_id", ObjectSeries [Str (py "7"); Str (py "8")]);
                    (py "clicks", IntSeries [1; 2]%Z)])
    by (vm_compute; reflexivity).
  split; [exact Ht|]. split; [exact H|].
  exact (item_id_is_text plain_pandas _ _ (py "ad_sales") _ Ht H (or_introl eq_refl)).
Defined.

Lemma astype_str_length (P : pandas) (s : series) :
  length (astype_str P s) = length (cells s).
Proof. destruct s; cbn [astype_str cells]; rewrite !length_map; reflexivity. Qed.

Lemma fillna0_length (s : series) : length (cells (fillna0 s)) = length (cells s).
Proof. destruct s; cbn [fillna0 cells]; rewrite !length_map; reflexivity. Qed.

Lemma fillna_timestamp_length (s : series) :
  length (cells (fillna_timestamp s)) = length (cells s).
Proof. destruct s; cbn [fillna_timestamp cells]; rewrite !length_map; reflexivity. Qed.

Lemma to_numeric_strings_length (P : pandas) (strings : list pystr) :
  length (cells (to_numeric_strings P strings)) = length strings.
Proof.
  destruct (to_numeric_strings_kind P strings) as [[x [-> H]]|[x [-> H]]];
    cbn [cells]; rewrite length_map; exact H.
Qed.

Lemma convert_column_length (P : pandas) (s : series) :
  length (cells (convert_column P s)) = length (cells s).
Proof.
  unfold convert_column.
  set (s0 := if is_object s then _ else to_numeric s).
  assert (H0 : length (cells s0) = length (cells s) /\ is_object s0 = false).
  { subst s0. destruct (is_object s) eqn:Hs.
    - split.
      + rewrite to_numeric_strings_length, length_map. apply astype_str_length.
      + destruct (to_numeric_strings_kind P (map (remove_chars (py "₹$,% "))
                                                 (astype_str P s)))
          as [[x [-> _]]|[x [-> _]]]; reflexivity.
    - destruct s; try discriminate Hs; cbn [to_numeric cells is_object];
        rewrite ?length_map; split; reflexivity. }
  destruct H0 as [H0 Hobj0].
  set (s1 := if is_numeric_dtype s0 then fillna0 s0 else s0).
  assert (H1 : length (cells s1) = length (cells s) /\ is_object s1 = false).
  { subst s1. destruct (is_numeric_dtype s0); [rewrite fillna0_length|];
      split; try assumption.
    destruct s0; try discriminate Hobj0; reflexivity. }
  destruct H1 as [H1 Hobj1]. rewrite Hobj1. exact H1.
Qed.

(** X21: for a frame whose columns have one length, and a
    [pd.to_datetime] that keeps the length of a column, the frame that
    [preprocess_df] returns has no row that equals an earlier row; two
    missing values count as equal. *)
Theorem preprocess_df_rows_distinct (P : pandas) (df out : dataframe)
    (table_name : pystr) :
  rectangular df ->
  (forall s s', to_datetime P s = Ok s' -> length (cells s') = length (cells s)) ->
  preprocess_df P df table_name = Ok out ->
  ForallOrdPairs (fun a b => row_eqb b a = false) (rows out).
Proof.
  intros Hrect Hdt.
  set (R := fun c : pystr * series => length (cells (snd c)) = nrows df).
  unfold preprocess_df. destruct (has_duplicates _); [discriminate|].
  set (converted := map _ (map _ df)).
  assert (Hconv : Forall R converted).
  { subst converted. rewrite map_map. apply Forall_forall. intros c Hc.
    apply in_map_iff in Hc. destruct Hc as [c0 [<- Hc0]]. unfold R. cbn [snd].
    rewrite convert_column_length. apply Hrect, Hc0. }
  assert (Htotal : forall name g df1 df2,
            (forall s, length (cells (g s)) = length (cells s)) ->
            update_column name (total g) df1 = Ok df2 -> Forall R df1 -> Forall R df2).
  { intros name g df1 df2 Hg. apply update_column_keeps.
    intros n s s' _ Hs Hlen. unfold total in Hs. injection Hs as <-.
    unfold R in *. cbn [snd] in *. rewrite Hg. exact Hlen. }
  assert (Hid : forall s, length (cells (ObjectSeries (map Str (astype_str P s))))
                          = length (cells s)).
  { intros s. cbn [cells]. rewrite !length_map. apply astype_str_length. }
  assert (Hrules : forall df', table_rules P table_name converted = Ok df' -> Forall R df').
  { intros df'. unfold table_rules.
    destruct (pystr_eqb table_name (py "total_sales")).
    { destruct (update_column (py "item_id") _ converted) as [df1|e] eqn:H1;
        cbn [and_then]; [|discriminate].
      intros H2. apply (Htotal _ _ _ _ Hid) in H1; [|exact Hconv].
      revert H2 H1. apply Htotal.
      intros s. destruct (is_datetime s); [apply fillna_timestamp_length | reflexivity]. }
    destruct (pystr_eqb table_name (py "ad_sales")).
    { destruct (update_column (py "item_id") _ converted) as [df1|e] eqn:H1;
        cbn [and_then]; [|discriminate].
      destruct (update_column (py "ad_spend") _ df1) as [df2|e] eqn:H2;
        cbn [and_then]; [|discriminate].
      intros H3. apply (Htotal _ _ _ _ Hid) in H1; [|exact Hconv].
      apply (Htotal _ _ _ _ fillna0_length) in H2; [|exact H1].
      revert H3 H2. apply Htotal, fillna0_length. }
    destruct (pystr_eqb table_name (py "eligibility")).
    { destruct (update_column (py "item_id") _ converted) as [df1|e] eqn:H1;
        cbn [and_then]; [|discriminate].
      destruct (update_column (py "eligibility_datetime_utc") _ df1) as [df2|e] eqn:H2;
        cbn [and_then]; [|discriminate].
      intros H3. apply (Htotal _ _ _ _ Hid) in H1; [|exact Hconv].
      assert (Hdf2 : Forall R df2).
      { revert H2 H1. apply update_column_keeps.
        intros n s s' _ Hs Hlen. unfold R in *. cbn [snd] in *.
        destruct (to_datetime P s) as [s1|e] eqn:Hs1; cbn [and_then] in Hs; [|discriminate].
        injection Hs as <-. rewrite fillna_timestamp_length, (Hdt _ _ Hs1). exact Hlen. }
      revert H3 Hdf2. apply Htotal.
      intros s. destruct (is_object s); [|reflexivity].
      unfold map_eligibility. cbn [cells]. rewrite !length_map. apply astype_str_length. }
    intros H. injection H as <-. exact Hconv. }
  destruct (table_rules P table_name converted) as [df'|e] eqn:Ht; cbn [and_then];
    [|discriminate].
  intros H. injection H as <-. specialize (Hrules df' eq_refl).
  apply drop_duplicates_distinct.
  intros c Hc. rewrite Forall_forall in Hrules.
  rewrite (Hrules c Hc). destruct df' as [|c1 r1]; [destruct Hc|].
  symmetry. cbn [nrows]. destruct c1 as [n1 s1]. exact (Hrules (n1, s1) (or_introl eq_refl)).
Qed.

Lemma preprocess_df_rows_distinct_witness :
  rectangular [(py "date", ObjectSeries [Str (py "2024-01-01"); Str (py "2024-01-02")]);
               (py "total_sales", ObjectSeries [Str (py "₹1,500"); Str (py "₹1,500")])]
  /\ preprocess_df plain_pandas
       [(py "date", ObjectSeries [Str (py "2024-01-01"); Str (py "2024-01-02")]);
        (py "total_sales", ObjectSeries [Str (py "₹1,500"); Str (py "₹1,500")])]
       (py "total_sales")
     = Ok [(py "date", FloatSeries [Num 0]); (py "total_sales", IntSeries [1500]%Z)]
  /\ ForallOrdPairs (fun a b => row_eqb b a = false)
       (rows [(py "date", FloatSeries [Num 0]); (py "total_sales", IntSeries [1500]%Z)]).
Proof.
  assert (Hr : rectangular
                 [(py "date", ObjectSeries [Str (py "2024-01-01"); Str (py "2024-01-02")]);
                  (py "total_sales", ObjectSeries [Str (py "₹1,500"); Str (py "₹1,500")])]).
  { intros c [<-|[<-|[]]]; reflexivity. }
  assert (H : preprocess_df plain_pandas
                [(py "date", ObjectSeries [Str (py "2024-01-01"); Str (py "2024-01-02")]);
                 (py "total_sales", ObjectSeries [Str (py "₹1,500"); Str (py "₹1,500")])]
                (py "total_sales")
              = Ok [(py "date", FloatSeries [Num 0]);
                    (py "total_sales", IntSeries [1500]%Z)])
    by (vm_compute; reflexivity).
  split; [exact Hr|]. split; [exact H|].
  refine (preprocess_df_rows_distinct plain_pandas _ _ _ Hr _ H).
  intros s s' Hs. injection Hs as <-. reflexivity.
Defined.
